(** * DevMatch backend: the repository snapshot cache

    A shallow embedding of the snapshot entity ([models/RepoSnapshot.js]),
    the GitHub client ([services/GitHubService.js]) and the repository
    service ([services/RepoService.js]), with the properties of the cache
    stated and proved over it.

    Conventions of the embedding.
    - A JavaScript string is a Rocq [string] read as a sequence of code
      units (one character per code unit, code units below 256).
    - A JavaScript number that only carries an integer (identifiers,
      counters, epoch milliseconds) is a [Z]; a number that results from a
      division (a percentage, a page count) is an IEEE binary64 [float],
      computed with the primitive operations.
    - [null] and [undefined] are [None].
    - An [async] function is a state transformer over a [World] (the
      collection, the documents held in memory, the clock, the requests sent
      to GitHub) that completes with a value or with a thrown error.
    - The persistence layer is modelled by what the schema declares: the
      [trim] setters (on assignments and on the filter of a query), the
      casts to the types of the paths, the validators run by [save], the
      defaults of a new document. A value that does not cast leaves its
      path as it was and a cast error on the document object, which fails
      every validation until the path is assigned a value that casts. The
      collection is the list of its documents in natural order; a query
      hands back a fresh document object, so two lookups of one snapshot do
      not share their assignments.
    - Calls that are started together and run interleaved at their
      [await]s are not derived from the calls run alone: how they settle
      is a parameter of what awaits them.
    - Logger calls have no effect on any value and are left out. *)

From Stdlib Require Import ZArith List String Ascii Bool Lia.
From Stdlib Require Import QArith Floats Uint63.
From Stdlib Require Import Sorted Permutation.
Import ListNotations.

Open Scope string_scope.
Open Scope Z_scope.

(** ** JavaScript built-ins *)

Module Js.

(** White space and line terminators that [String.prototype.trim] strips,
    among the code units below 256. *)
Definition isWhiteSpace (c : ascii) : bool :=
  let n := nat_of_ascii c in
  (Nat.eqb n 9 || Nat.eqb n 10 || Nat.eqb n 11 || Nat.eqb n 12
   || Nat.eqb n 13 || Nat.eqb n 32 || Nat.eqb n 160)%bool.

Fixpoint trimStart (s : string) : string :=
  match s with
  | EmptyString => EmptyString
  | String c rest => if isWhiteSpace c then trimStart rest else s
  end.

Fixpoint trimEnd (s : string) : string :=
  match s with
  | EmptyString => EmptyString
  | String c rest =>
      match trimEnd rest with
      | EmptyString => if isWhiteSpace c then EmptyString else String c EmptyString
      | kept => String c kept
      end
  end.

Definition trim (s : string) : string := trimEnd (trimStart s).

(** [s.length] *)
Definition len (s : string) : Z := Z.of_nat (String.length s).

(** Truthiness of a possibly missing string: [undefined], [null] and the
    empty string are falsy. *)
Definition truthy (s : option string) : bool :=
  match s with
  | None => false
  | Some EmptyString => false
  | Some _ => true
  end.

(** A string that is known to be there. *)
Definition text (s : option string) : string :=
  match s with
  | Some str => str
  | None => EmptyString
  end.

(** [a || b] on possibly missing strings. *)
Definition orElse (a : option string) (b : option string) : option string :=
  if truthy a then a else b.

(** [s.substring(0, n)] for [0 <= n]. *)
Fixpoint prefix (n : nat) (s : string) : string :=
  match n, s with
  | O, _ => EmptyString
  | _, EmptyString => EmptyString
  | S k, String c rest => String c (prefix k rest)
  end.

Definition substring0 (n : Z) (s : string) : string := prefix (Z.to_nat n) s.

(** [s.split(sep)] for a one-character separator. *)
Fixpoint split (sep : ascii) (s : string) : list string :=
  match s with
  | EmptyString => [EmptyString]
  | String c rest =>
      if Ascii.eqb c sep then EmptyString :: split sep rest
      else match split sep rest with
           | piece :: pieces => String c piece :: pieces
           | [] => [String c EmptyString]
           end
  end.

(** An array element interpolated into a template literal: a missing element
    prints as [undefined]. *)
Definition interpolate (x : option string) : string :=
  match x with
  | Some s => s
  | None => "undefined"
  end.

(** The double that an integer denotes (exact below 2^53 in magnitude). *)
Definition number (n : Z) : float :=
  match n with
  | Z0 => 0%float
  | Zpos _ => PrimFloat.of_uint63 (Uint63.of_Z n)
  | Zneg p => PrimFloat.opp (PrimFloat.of_uint63 (Uint63.of_Z (Zpos p)))
  end.

(** [Math.round]: the nearest integer, a tie going towards plus infinity. *)
Definition Math_round (x : float) : float :=
  match Prim2SF x with
  | S754_finite s m e =>
      if 0 <=? e then x
      else
        let d := 2 ^ (- e) in
        let q := Z.pos m / d in
        let r := Z.pos m mod d in
        if s then
          if d <? 2 * r then number (- (q + 1))
          else if q =? 0 then (-0)%float
          else number (- q)
        else
          if d <=? 2 * r then number (q + 1) else number q
  | _ => x
  end.

(** [Math.ceil] *)
Definition Math_ceil (x : float) : float :=
  match Prim2SF x with
  | S754_finite s m e =>
      if 0 <=? e then x
      else
        let d := 2 ^ (- e) in
        let q := Z.pos m / d in
        let r := Z.pos m mod d in
        if s then (if q =? 0 then (-0)%float else number (- q))
        else if r =? 0 then number q else number (q + 1)
  | _ => x
  end.

(** [Math.min] on integers *)
Definition Math_min (a b : Z) : Z := Z.min a b.

(** [parseInt(s, 10)]: leading white space, an optional sign, then the
    longest run of decimal digits; [None] is [NaN]. *)
Definition digit (c : ascii) : option Z :=
  let n := nat_of_ascii c in
  if (Nat.leb 48 n && Nat.leb n 57)%bool then Some (Z.of_nat (n - 48)) else None.

Fixpoint digits (acc : option Z) (s : string) : option Z :=
  match s with
  | EmptyString => acc
  | String c rest =>
      match digit c with
      | Some d =>
          digits (Some (10 * match acc with Some a => a | None => 0 end + d)) rest
      | None => acc
      end
  end.

Definition parseInt (s : string) : option Z :=
  match trimStart s with
  | String "-" rest => option_map Z.opp (digits None rest)
  | String "+" rest => digits None rest
  | body => digits None body
  end.

End Js.

(** ** Errors ([utils/ApiError.js]) *)

(** A thrown value: an [ApiError] carries a status code, any other error
    (a validation error of the persistence layer, a [TypeError]) does not. *)
Record JsError := mkError { statusCode : option Z; message : string }.

Module ApiError.

Definition badRequest (msg : string) : JsError := mkError (Some 400) msg.
Definition unauthorized (msg : string) : JsError := mkError (Some 401) msg.
Definition forbidden (msg : string) : JsError := mkError (Some 403) msg.
Definition notFound (msg : string) : JsError := mkError (Some 404) msg.
Definition conflict (msg : string) : JsError := mkError (Some 409) msg.
Definition tooManyRequests (msg : string) : JsError := mkError (Some 429) msg.
Definition internal (msg : string) : JsError := mkError (Some 500) msg.

End ApiError.

(** ** Casts *)

(** What a schema path makes of a value assigned to it: the value cast to
    the type of the path, or a [CastError]. *)
Inductive Cast (A : Type) : Type :=
| Casts (v : A)
| CastError.

Arguments Casts {A} v.
Arguments CastError {A}.

Definition casts {A} (c : Cast A) : bool :=
  match c with
  | Casts _ => true
  | CastError => false
  end.

(** The value of a path after an assignment: the cast value, or the value
    the path had. *)
Definition castOr {A} (c : Cast A) (old : A) : A :=
  match c with
  | Casts v => v
  | CastError => old
  end.

(** A [Number] path refuses [NaN]. *)
Definition castNumber (x : float) : Cast float :=
  if PrimFloat.is_nan x then CastError else Casts x.

(** ** The data GitHub returns *)

Module GH.

Record owner_t := mkOwner { login : string; avatar_url : option string }.

Record license_t := mkLicense { spdx_id : option string }.

(** A date of a payload: its text, and what a [Date] path makes of that
    text: a time value in milliseconds ([null] for the empty text), or a
    [CastError] when the text is no date. *)
Record date := mkDate { date_text : string; as_Date : Cast (option Z) }.

(** The repository object of [GET /repos/{owner}/{repo}] and of
    [GET /repositories/{id}], with the fields the backend reads. *)
Record repo := mkRepo {
  id : Z;
  owner : owner_t;
  name : string;
  full_name : string;
  description : option string;
  html_url : string;
  clone_url : option string;
  language : option string;
  stargazers_count : Z;
  forks_count : Z;
  watchers_count : Z;
  open_issues_count : Z;
  private : bool;
  fork : bool;
  default_branch : string;
  topics : option (list string);
  license : option license_t;
  created_at : option date;
  updated_at : option date;
  pushed_at : option date
}.

(** [GET /repos/{owner}/{repo}/languages]: language to byte count, in the
    order of the object's keys. *)
Definition languages := list (string * float).

(** [GET /repos/{owner}/{repo}/readme], asked for as raw text, as the
    client hands its data on. The client parses a body that is JSON: the
    data is a string (the body itself, or the string that a JSON body
    spells), or it is another value (a number, a boolean, [null], an array,
    an object), of which the backend sees whether it is truthy and what a
    [String] path makes of it. *)
Inductive body :=
| Text (s : string)
| Parsed (truthy : bool) (as_String : Cast string).

(** [GET /search/repositories] *)
Record search := mkSearch { items : list repo; total_count : Z }.

End GH.

(** ** The snapshot entity ([models/RepoSnapshot.js]) *)

(** The paths of a snapshot that the backend assigns values that may not
    cast. *)
Inductive Path :=
| githubCreatedAt_path
| githubUpdatedAt_path
| githubPushedAt_path
| languages_path
| readme_path.

Definition Path_eqb (p q : Path) : bool :=
  match p, q with
  | githubCreatedAt_path, githubCreatedAt_path
  | githubUpdatedAt_path, githubUpdatedAt_path
  | githubPushedAt_path, githubPushedAt_path
  | languages_path, languages_path
  | readme_path, readme_path => true
  | _, _ => false
  end.

(** An entry of [languages]; a number that did not cast is missing. *)
Record Language := mkLanguage {
  lang_name : string;
  bytes : option float;
  percentage : option float
}.

(** One document of the collection, or one document object. Required
    strings that were never assigned are the empty string, which the
    [required] validator rejects like a missing value. The timestamps the
    persistence layer maintains by itself ([createdAt], [updatedAt]) are
    not part of the record. [castErrors] are the paths of a document object
    whose last assignment did not cast; [save] refuses a document object
    that has one, so a document that [save] has written has none. *)
Record RepoSnapshot := mkSnapshot {
  _id : N;
  githubId : Z;
  ownerLogin : string;
  name : string;
  fullName : string;
  description : option string;
  htmlUrl : string;
  cloneUrl : option string;
  language : option string;
  languages : list Language;
  stars : Z;
  forks : Z;
  watchers : Z;
  openIssues : Z;
  isPrivate : bool;
  isFork : bool;
  defaultBranch : string;
  topics : list string;
  license : option string;
  githubCreatedAt : option Z;
  githubUpdatedAt : option Z;
  githubPushedAt : option Z;
  readme : option string;
  readmeFetchedAt : option Z;
  aiSummary : option string;
  aiTechStack : list string;
  aiComplexityLevel : option string;
  aiRoleFit : list string;
  aiGeneratedAt : option Z;
  lastSyncedAt : option Z;
  syncError : option string;
  castErrors : list Path
}.

(** Assignments to single fields. *)
Definition set_syncError (v : option string) (d : RepoSnapshot) : RepoSnapshot :=
  mkSnapshot (_id d) (githubId d) (ownerLogin d) (name d) (fullName d)
    (description d) (htmlUrl d) (cloneUrl d) (language d) (languages d)
    (stars d) (forks d) (watchers d) (openIssues d) (isPrivate d) (isFork d)
    (defaultBranch d) (topics d) (license d) (githubCreatedAt d)
    (githubUpdatedAt d) (githubPushedAt d) (readme d) (readmeFetchedAt d)
    (aiSummary d) (aiTechStack d) (aiComplexityLevel d) (aiRoleFit d)
    (aiGeneratedAt d) (lastSyncedAt d) v (castErrors d).

Definition set_languages (v : list Language) (d : RepoSnapshot) : RepoSnapshot :=
  mkSnapshot (_id d) (githubId d) (ownerLogin d) (name d) (fullName d)
    (description d) (htmlUrl d) (cloneUrl d) (language d) v
    (stars d) (forks d) (watchers d) (openIssues d) (isPrivate d) (isFork d)
    (defaultBranch d) (topics d) (license d) (githubCreatedAt d)
    (githubUpdatedAt d) (githubPushedAt d) (readme d) (readmeFetchedAt d)
    (aiSummary d) (aiTechStack d) (aiComplexityLevel d) (aiRoleFit d)
    (aiGeneratedAt d) (lastSyncedAt d) (syncError d) (castErrors d).

Definition set_readme (v : option string) (d : RepoSnapshot) : RepoSnapshot :=
  mkSnapshot (_id d) (githubId d) (ownerLogin d) (name d) (fullName d)
    (description d) (htmlUrl d) (cloneUrl d) (language d) (languages d)
    (stars d) (forks d) (watchers d) (openIssues d) (isPrivate d) (isFork d)
    (defaultBranch d) (topics d) (license d) (githubCreatedAt d)
    (githubUpdatedAt d) (githubPushedAt d) v (readmeFetchedAt d)
    (aiSummary d) (aiTechStack d) (aiComplexityLevel d) (aiRoleFit d)
    (aiGeneratedAt d) (lastSyncedAt d) (syncError d) (castErrors d).

Definition set_readmeFetchedAt (v : option Z) (d : RepoSnapshot) : RepoSnapshot :=
  mkSnapshot (_id d) (githubId d) (ownerLogin d) (name d) (fullName d)
    (description d) (htmlUrl d) (cloneUrl d) (language d) (languages d)
    (stars d) (forks d) (watchers d) (openIssues d) (isPrivate d) (isFork d)
    (defaultBranch d) (topics d) (license d) (githubCreatedAt d)
    (githubUpdatedAt d) (githubPushedAt d) (readme d) v
    (aiSummary d) (aiTechStack d) (aiComplexityLevel d) (aiRoleFit d)
    (aiGeneratedAt d) (lastSyncedAt d) (syncError d) (castErrors d).

Definition set_lastSyncedAt (v : option Z) (d : RepoSnapshot) : RepoSnapshot :=
  mkSnapshot (_id d) (githubId d) (ownerLogin d) (name d) (fullName d)
    (description d) (htmlUrl d) (cloneUrl d) (language d) (languages d)
    (stars d) (forks d) (watchers d) (openIssues d) (isPrivate d) (isFork d)
    (defaultBranch d) (topics d) (license d) (githubCreatedAt d)
    (githubUpdatedAt d) (githubPushedAt d) (readme d) (readmeFetchedAt d)
    (aiSummary d) (aiTechStack d) (aiComplexityLevel d) (aiRoleFit d)
    (aiGeneratedAt d) v (syncError d) (castErrors d).

Definition set_castErrors (v : list Path) (d : RepoSnapshot) : RepoSnapshot :=
  mkSnapshot (_id d) (githubId d) (ownerLogin d) (name d) (fullName d)
    (description d) (htmlUrl d) (cloneUrl d) (language d) (languages d)
    (stars d) (forks d) (watchers d) (openIssues d) (isPrivate d) (isFork d)
    (defaultBranch d) (topics d) (license d) (githubCreatedAt d)
    (githubUpdatedAt d) (githubPushedAt d) (readme d) (readmeFetchedAt d)
    (aiSummary d) (aiTechStack d) (aiComplexityLevel d) (aiRoleFit d)
    (aiGeneratedAt d) (lastSyncedAt d) (syncError d) v.

(** [new RepoSnapshot({ githubId })]: the schema's defaults, with
    [lastSyncedAt] defaulting to [Date.now]. *)
Definition newSnapshot (oid : N) (gid : Z) (now : Z) : RepoSnapshot :=
  mkSnapshot oid gid "" "" "" None "" None None []
    0 0 0 0 false false "main" [] None None None None None None
    None [] None [] None (Some now) None [].

(** *** Assignments that may not cast *)

(** The cast errors of a document object after an assignment to a path: a
    value that casts clears the error of the path, one that does not
    records it. *)
Definition markValid (p : Path) (errors : list Path) : list Path :=
  filter (fun q => negb (Path_eqb q p)) errors.

Definition invalidate (p : Path) (errors : list Path) : list Path :=
  p :: markValid p errors.

Definition casting {A} (p : Path) (c : Cast A) (errors : list Path) : list Path :=
  match c with
  | Casts _ => markValid p errors
  | CastError => invalidate p errors
  end.

(** A date of a payload at a [Date] path; [null] and [undefined] cast to
    themselves. *)
Definition castDate (v : option GH.date) : Cast (option Z) :=
  match v with
  | None => Casts None
  | Some d => GH.as_Date d
  end.

(** The data of a README at the [String] path. *)
Definition castReadme (v : option GH.body) : Cast (option string) :=
  match v with
  | None => Casts None
  | Some (GH.Text s) => Casts (Some s)
  | Some (GH.Parsed _ (Casts s)) => Casts (Some s)
  | Some (GH.Parsed _ CastError) => CastError
  end.

(** [doc.readme = value] *)
Definition assignReadme (v : option GH.body) (d : RepoSnapshot) : RepoSnapshot :=
  set_castErrors (casting readme_path (castReadme v) (castErrors d))
    (set_readme (castOr (castReadme v) (readme d)) d).

(** Truthiness of the data of a README. *)
Definition truthyBody (v : option GH.body) : bool :=
  match v with
  | None => false
  | Some (GH.Text s) => Js.truthy (Some s)
  | Some (GH.Parsed truthy _) => truthy
  end.

(** [doc.languages = entries], each entry a name with its two numbers: the
    array is the entries with the numbers that cast, and a number that does
    not cast is a cast error under the path. *)
Definition castEntry (entry : string * float * float) : Language :=
  let '(name, b, share) := entry in
  mkLanguage name
    (match castNumber b with Casts x => Some x | CastError => None end)
    (match castNumber share with Casts x => Some x | CastError => None end).

Definition numbersCast (entries : list (string * float * float)) : bool :=
  forallb (fun '(_, b, share) => (casts (castNumber b) && casts (castNumber share))%bool)
    entries.

Definition assignLanguages (entries : list (string * float * float)) (d : RepoSnapshot)
  : RepoSnapshot :=
  set_castErrors
    (if numbersCast entries then markValid languages_path (castErrors d)
     else invalidate languages_path (castErrors d))
    (set_languages (map castEntry entries) d).

(** The [trim] setter of a string path, on a value that may be [null]. *)
Definition trimmed (v : option string) : option string := option_map Js.trim v.

(** [methods.needsSync]: no [lastSyncedAt], or more than 24 hours since.
    The elapsed hours are the exact quotient: on integers of this size the
    double division is monotone and exact at the bound, so the comparison
    with 24 has the same outcome. *)
Definition hoursSince (now t : Z) : Q := (inject_Z (now - t) / inject_Z (1000 * 60 * 60))%Q.

Definition Qgtb (a b : Q) : bool := negb (Qle_bool a b).
Definition Qltb (a b : Q) : bool := negb (Qle_bool b a).

Definition needsSync (now : Z) (this : RepoSnapshot) : bool :=
  match lastSyncedAt this with
  | None => true
  | Some t => Qgtb (hoursSince now t) (inject_Z 24)
  end.

(** [methods.updateFromGitHub], with [now] the value of [new Date()]. *)
Definition updateFromGitHub (now : Z) (githubData : GH.repo) (this : RepoSnapshot)
  : RepoSnapshot :=
  mkSnapshot (_id this) (githubId this)
    (Js.trim (GH.login (GH.owner githubData)))
    (Js.trim (GH.name githubData))
    (Js.trim (GH.full_name githubData))
    (trimmed (GH.description githubData))
    (GH.html_url githubData)
    (GH.clone_url githubData)
    (GH.language githubData)
    (languages this)
    (GH.stargazers_count githubData)
    (GH.forks_count githubData)
    (GH.watchers_count githubData)
    (GH.open_issues_count githubData)
    (GH.private githubData)
    (GH.fork githubData)
    (GH.default_branch githubData)
    (match GH.topics githubData with
     | Some ts => map Js.trim ts
     | None => []
     end)
    (Js.orElse (match GH.license githubData with
                | Some l => GH.spdx_id l
                | None => None
                end) None)
    (castOr (castDate (GH.created_at githubData)) (githubCreatedAt this))
    (castOr (castDate (GH.updated_at githubData)) (githubUpdatedAt this))
    (castOr (castDate (GH.pushed_at githubData)) (githubPushedAt this))
    (readme this) (readmeFetchedAt this)
    (aiSummary this) (aiTechStack this) (aiComplexityLevel this)
    (aiRoleFit this) (aiGeneratedAt this)
    (Some now) None
    (casting githubPushedAt_path (castDate (GH.pushed_at githubData))
       (casting githubUpdatedAt_path (castDate (GH.updated_at githubData))
          (casting githubCreatedAt_path (castDate (GH.created_at githubData))
             (castErrors this)))).

(** What [save] validates: the validators the schema declares (required
    strings are present and not empty, bounded strings are within their
    bound, the complexity level is one of the enumerated values), and that
    the document object has no cast error. *)
Definition withinLength (bound : Z) (v : option string) : bool :=
  match v with
  | None => true
  | Some s => Js.len s <=? bound
  end.

Definition required (s : string) : bool :=
  match s with
  | EmptyString => false
  | _ => true
  end.

Definition complexityLevels : list string :=
  ["BEGINNER"; "INTERMEDIATE"; "ADVANCED"; "EXPERT"].

Definition validLevel (v : option string) : bool :=
  match v with
  | None => true
  | Some s => existsb (String.eqb s) complexityLevels
  end.

Definition noErrors (errors : list Path) : bool :=
  match errors with
  | [] => true
  | _ :: _ => false
  end.

Definition validate (d : RepoSnapshot) : bool :=
  (required (ownerLogin d) && required (name d) && required (fullName d)
   && required (htmlUrl d)
   && withinLength 1000 (description d)
   && withinLength 50000 (readme d)
   && withinLength 2000 (aiSummary d)
   && validLevel (aiComplexityLevel d)
   && noErrors (castErrors d))%bool.

Definition validationError : JsError :=
  mkError None "RepoSnapshot validation failed".

(** [virtual("shortDescription")]: the description, cut to 150 characters
    with an ellipsis when it is longer. *)
Definition shortDescription (this : RepoSnapshot) : option string :=
  if negb (Js.truthy (description this)) then None
  else if Js.len (Js.text (description this)) <=? 150 then Some (Js.text (description this))
  else Some (Js.substring0 147 (Js.text (description this)) ++ "...").

(** [virtual("readmePreview")]: the README, cut to 500 characters with an
    ellipsis when it is longer. *)
Definition readmePreview (this : RepoSnapshot) : option string :=
  if negb (Js.truthy (readme this)) then None
  else if Js.len (Js.text (readme this)) <=? 500 then Some (Js.text (readme this))
  else Some (Js.substring0 497 (Js.text (readme this)) ++ "...").

(** ** The world an [async] function runs in *)

(** A request sent through the GitHub client. *)
Inductive Request :=
| GetRepo (path : string)          (* GET /repos/{path} *)
| GetRepoById (gid : Z)            (* GET /repositories/{gid} *)
| GetReadme (path : string)        (* GET /repos/{path}/readme *)
| GetLanguages (path : string)     (* GET /repos/{path}/languages *)
| GetSearch (q : string) (sort order : string) (page per_page : Z).

(** What comes back: a 2xx response with its data, a response with another
    status (and the [message] of its body, when there is one), or no
    response at all (connection failure, timeout). *)
Inductive Reply (D : Type) :=
| Success (data : D)
| Status (status : Z) (msg : option string)
| NoResponse.

Arguments Success {D} data.
Arguments Status {D} status msg.
Arguments NoResponse {D}.

(** GitHub, as the client sees it. *)
Record GitHub := mkGitHub {
  repos : string -> Reply GH.repo;
  repositories : Z -> Reply GH.repo;
  readmes : string -> Reply GH.body;
  languagesOf : string -> Reply GH.languages;
  searches : string -> string -> string -> Z -> Z -> Reply GH.search
}.

(** A reference to a document held in memory (a Mongoose document object). *)
Definition Ref := nat.

Record World := mkWorld {
  collection : list RepoSnapshot;  (* the stored documents, in natural order *)
  nextOid : N;                     (* the next fresh [_id] *)
  memory : list RepoSnapshot;      (* the document objects, by reference *)
  clock : Z;                       (* [Date.now()], in milliseconds *)
  sent : list Request              (* the requests sent so far, oldest first *)
}.

Definition withCollection (docs : list RepoSnapshot) (w : World) : World :=
  mkWorld docs (nextOid w) (memory w) (clock w) (sent w).

Definition withNextOid (n : N) (w : World) : World :=
  mkWorld (collection w) n (memory w) (clock w) (sent w).

Definition withMemory (m : list RepoSnapshot) (w : World) : World :=
  mkWorld (collection w) (nextOid w) m (clock w) (sent w).

Definition withSent (rqs : list Request) (w : World) : World :=
  mkWorld (collection w) (nextOid w) (memory w) (clock w) rqs.

(** The world at another time. *)
Definition at_time (t : Z) (w : World) : World :=
  mkWorld (collection w) (nextOid w) (memory w) t (sent w).

Inductive Completion (A : Type) :=
| Return (a : A)
| Throw (e : JsError).

Arguments Return {A} a.
Arguments Throw {A} e.

Definition Async (A : Type) : Type := World -> Completion A * World.

Definition ret {A} (a : A) : Async A := fun w => (Return a, w).

Definition throw {A} (e : JsError) : Async A := fun w => (Throw e, w).

Definition bind {A B} (c : Async A) (k : A -> Async B) : Async B :=
  fun w =>
    match c w with
    | (Return a, w1) => k a w1
    | (Throw e, w1) => (Throw e, w1)
    end.

(** [try { body } catch (error) { handler }]: what the body did to the world
    before it threw stays done. *)
Definition tryCatch {A} (body : Async A) (handler : JsError -> Async A) : Async A :=
  fun w =>
    match body w with
    | (Return a, w1) => (Return a, w1)
    | (Throw e, w1) => handler e w1
    end.

Declare Scope async_scope.
Delimit Scope async_scope with async.
Bind Scope async_scope with Async.

Notation "x <- c ;; k" := (bind c (fun x => k))
  (at level 61, c at next level, right associativity) : async_scope.
Notation "c ;;; k" := (bind c (fun _ => k))
  (at level 61, right associativity) : async_scope.

Open Scope async_scope.

(** [Date.now()] and [new Date()] *)
Definition now : Async Z := fun w => (Return (clock w), w).

(** *** Document objects *)

Definition allocate (d : RepoSnapshot) : Async Ref :=
  fun w =>
    (Return (List.length (memory w)), withMemory (memory w ++ [d]) w).

Fixpoint replaceNth {A} (n : nat) (x : A) (l : list A) : list A :=
  match l, n with
  | [], _ => []
  | _ :: rest, O => x :: rest
  | y :: rest, S k => y :: replaceNth k x rest
  end.

(** Reading a document object; a dangling reference is a [TypeError]. *)
Definition danglingReference : JsError :=
  mkError None "Cannot read properties of undefined".

Definition read (r : Ref) : Async RepoSnapshot :=
  fun w =>
    match nth_error (memory w) r with
    | Some d => (Return d, w)
    | None => (Throw danglingReference, w)
    end.

(** An assignment to the fields of a document object. *)
Definition assign (r : Ref) (f : RepoSnapshot -> RepoSnapshot) : Async unit :=
  fun w =>
    match nth_error (memory w) r with
    | Some d =>
        (Return tt, withMemory (replaceNth r (f d) (memory w)) w)
    | None => (Throw danglingReference, w)
    end.

(** *** The collection *)

(** Writing a document: in place of the stored document with its [_id], or
    at the end when there is none. The unique index on [githubId] is not a
    check made here: that no second document with a stored [githubId] is
    ever written is proved of the callers (see [consistent]). *)
Fixpoint put (d : RepoSnapshot) (docs : list RepoSnapshot) : list RepoSnapshot :=
  match docs with
  | [] => [d]
  | x :: rest => if N.eqb (_id x) (_id d) then d :: rest else x :: put d rest
  end.

(** [doc.save()]: validation, then the write. *)
Definition save (r : Ref) : Async unit :=
  d <- read r ;;
  if validate d then
    fun w => (Return tt, withCollection (put d (collection w)) w)
  else throw validationError.

(** A query hands back a fresh document object for the first match. *)
Definition findFirst (p : RepoSnapshot -> bool) : Async (option Ref) :=
  fun w =>
    match find p (collection w) with
    | Some d => bind (allocate d) (fun r => ret (Some r)) w
    | None => (Return None, w)
    end.

(** [RepoSnapshot.findOne({ githubId })] *)
Definition findOneByGithubId (gid : Z) : Async (option Ref) :=
  findFirst (fun d => githubId d =? gid).

(** [RepoSnapshot.findOne({ fullName })]: the filter is cast with the
    setters of the path, so the name is trimmed before it is compared. *)
Definition findOneByFullName (fn : string) : Async (option Ref) :=
  findFirst (fun d => String.eqb (fullName d) (Js.trim fn)).

(** [RepoSnapshot.findById(id)] *)
Definition findById (oid : N) : Async (option Ref) :=
  findFirst (fun d => N.eqb (_id d) oid).

(** [new this({ githubId })] *)
Definition construct (gid : Z) : Async Ref :=
  fun w =>
    allocate (newSnapshot (nextOid w) gid (clock w))
      (withNextOid (N.succ (nextOid w)) w).

(** [repo.updateFromGitHub(githubData)] on a document object. *)
Definition updateFromGitHub_on (r : Ref) (githubData : GH.repo) : Async unit :=
  t <- now ;;
  assign r (updateFromGitHub t githubData).

(** [statics.findOrCreateFromGitHub] *)
Definition findOrCreateFromGitHub (gid : Z) (githubData : GH.repo) : Async Ref :=
  found <- findOneByGithubId gid ;;
  match found with
  | Some repo =>
      updateFromGitHub_on repo githubData ;;;
      save repo ;;;
      ret repo
  | None =>
      repo <- construct gid ;;
      updateFromGitHub_on repo githubData ;;;
      save repo ;;;
      ret repo
  end.

(** *** Queries over the collection *)

(** A stable sort: documents that compare equal keep their natural order
    (the database promises no order among them; this is the order of a scan
    of the collection). *)
Fixpoint insertBy {A} (noLater : A -> A -> bool) (x : A) (l : list A) : list A :=
  match l with
  | [] => [x]
  | y :: rest => if noLater x y then x :: l else y :: insertBy noLater x rest
  end.

Definition sortBy {A} (noLater : A -> A -> bool) (l : list A) : list A :=
  fold_right (insertBy noLater) [] l.

Definition cursorError : JsError :=
  mkError None "Skip value must be non-negative".

(** [.skip(n)]: a negative value is refused by the database. *)
Definition cursorSkip {A} (n : Z) (l : list A) : Completion (list A) :=
  if n <? 0 then Throw cursorError else Return (skipn (Z.to_nat n) l).

(** [.limit(n)]: zero is no limit, a negative value counts as its magnitude. *)
Definition cursorLimit {A} (n : Z) (l : list A) : list A :=
  if n =? 0 then l else firstn (Z.to_nat (Z.abs n)) l.

(** The equality filter [{ language }], present when the option is truthy. *)
Definition languageIs (wanted : option string) (d : RepoSnapshot) : bool :=
  if Js.truthy wanted then
    match wanted, language d with
    | Some l, Some l' => String.eqb l' l
    | _, _ => false
    end
  else true.

Definition byStars (a b : RepoSnapshot) : bool := stars b <=? stars a.

Section TextIndex.

(** The text index over [name] and [description]: the score of a document
    for a search string, positive exactly when the document matches. *)
Variable textScore : string -> string -> option string -> Z.

Definition score (q : string) (d : RepoSnapshot) : Z :=
  textScore q (name d) (description d).

(** [$text: { $search: q }] *)
Definition textMatch (q : string) (d : RepoSnapshot) : bool := 0 <? score q d.

Definition byScore (q : string) (a b : RepoSnapshot) : bool :=
  score q b <=? score q a.

(** [{ score: { $meta: "textScore" }, stars: -1 }] *)
Definition byScoreThenStars (q : string) (a b : RepoSnapshot) : bool :=
  ((score q b <? score q a)
   || ((score q b =? score q a) && (stars b <=? stars a)))%bool.

(** [statics.searchRepos], run to its documents. *)
Definition searchRepos (query : string) (language : option string)
  (limitOpt : option Z) : Async (list RepoSnapshot) :=
  fun w =>
    let searchQuery d :=
      (textMatch query d && negb (isPrivate d) && languageIs language d)%bool in
    let n := match limitOpt with
             | Some 0 | None => 20
             | Some l => l
             end in
    (Return (cursorLimit n (sortBy (byScoreThenStars query)
                        (filter searchQuery (collection w)))), w).

End TextIndex.

(** ** The GitHub client ([services/GitHubService.js]) *)

Module GitHubService.

(** The response interceptor of the client: how a failed request is thrown. *)
Definition intercepted (status : Z) (msg : option string) : JsError :=
  if status =? 404 then ApiError.notFound "GitHub resource not found"
  else if status =? 403 then
    ApiError.tooManyRequests "GitHub API rate limit exceeded. Please try again later."
  else if status =? 401 then ApiError.unauthorized "GitHub authentication failed"
  else ApiError.badRequest
         (match Js.orElse msg (Some "GitHub API error") with
          | Some m => m
          | None => "GitHub API error"
          end).

(** The error a reply is thrown as, if any. *)
Definition rejection {D} (reply : Reply D) : option JsError :=
  match reply with
  | Success _ => None
  | Status status msg => Some (intercepted status msg)
  | NoResponse => Some (ApiError.internal "Failed to connect to GitHub API")
  end.

(** [this.client.get(url)]: the request is sent, its reply goes through the
    interceptor. *)
Definition get {D} (rq : Request) (reply : Reply D) : Async D :=
  fun w =>
    let w1 := withSent (sent w ++ [rq]) w in
    match reply with
    | Success data => (Return data, w1)
    | Status status msg => (Throw (intercepted status msg), w1)
    | NoResponse =>
        (Throw (ApiError.internal "Failed to connect to GitHub API"), w1)
    end.

(** How calls that were started together settle. The calls of an array
    are all started before any of them settles, and they go on interleaved
    at their [await]s, against the one collection; an [Async] function is
    a call that runs alone, so their outcomes are not derived from it here.
    A settlement gives, for the calls started in a world, their outcomes
    and the world they leave. *)
Definition Settlement (A : Type) : Type :=
  list (Async A) -> World -> list (Completion A) * World.




(** What [searchRepositories] resolves to. *)
Record SearchResult := mkSearchResult {
  items : list GH.repo;
  total_count : Z;
  page : Z;
  perPage : Z
}.

(** The share of one language, in whole percent. *)
Definition wholePercent (totalBytes b : float) : float :=
  if PrimFloat.ltb 0 totalBytes
  then Js.Math_round (b / totalBytes * 100)%float
  else 0%float.

Section Client.

Variable gh : GitHub.

Definition searchRepositories (query : string) (language : option string)
  (sortOpt orderOpt : option string) (pageOpt perPageOpt : option Z)
  : Async SearchResult :=
  let sort := match sortOpt with Some s => s | None => "stars" end in
  let order := match orderOpt with Some s => s | None => "desc" end in
  let page := match pageOpt with Some p => p | None => 1 end in
  let perPage := match perPageOpt with Some p => p | None => 10 end in
  let searchQuery :=
    if Js.truthy language
    then query ++ " language:" ++ Js.interpolate language
    else query in
  data <- get (GetSearch searchQuery sort order page (Js.Math_min perPage 100))
              (searches gh searchQuery sort order page (Js.Math_min perPage 100)) ;;
  ret (mkSearchResult (GH.items data) (GH.total_count data) page perPage).

Definition getRepository (owner repo : string) : Async GH.repo :=
  get (GetRepo (owner ++ "/" ++ repo)) (repos gh (owner ++ "/" ++ repo)).

Definition getRepositoryByFullName (fullName : string) : Async GH.repo :=
  get (GetRepo fullName) (repos gh fullName).

(** A missing README is not an error. *)
Definition getReadme (owner repo : string) : Async (option GH.body) :=
  tryCatch
    (data <- get (GetReadme (owner ++ "/" ++ repo))
                 (readmes gh (owner ++ "/" ++ repo)) ;;
     ret (Some data))
    (fun error =>
       match statusCode error with
       | Some 404 => ret None
       | _ => throw error
       end).

Definition getLanguages (owner repo : string) : Async GH.languages :=
  get (GetLanguages (owner ++ "/" ++ repo)) (languagesOf gh (owner ++ "/" ++ repo)).

Definition syncRepository (owner repo : string) : Async Ref :=
  tryCatch
    (ghRepo <- getRepository owner repo ;;
     savedRepo <- findOrCreateFromGitHub (GH.id ghRepo) ghRepo ;;
     d <- read savedRepo ;;
     (if (negb (Js.truthy (readme d))
          || match readmeFetchedAt d with None => true | Some _ => false end)%bool
      then
        tryCatch
          (text <- getReadme owner repo ;;
           if truthyBody text then
             t <- now ;;
             assign savedRepo
               (fun d => set_readmeFetchedAt (Some t) (assignReadme text d))
           else ret tt)
          (fun _ => ret tt)
      else ret tt) ;;;
     d <- read savedRepo ;;
     (match languages d with
      | [] =>
          tryCatch
            (langs <- getLanguages owner repo ;;
             let totalBytes :=
               fold_left (fun sum b => (sum + b)%float) (map snd langs) 0%float in
             assign savedRepo
               (assignLanguages
                  (map (fun '(name, b) => (name, b, wholePercent totalBytes b))
                       langs)))
            (fun _ => ret tt)
      | _ :: _ => ret tt
      end) ;;;
     save savedRepo ;;;
     ret savedRepo)
    (fun error =>
       match statusCode error with
       | Some 404 =>
           throw (ApiError.notFound
                    ("Repository " ++ owner ++ "/" ++ repo ++ " not found on GitHub"))
       | _ => throw error
       end).

(** [const [owner, repo] = full_name.split("/")] *)
Definition ownerAndRepo (full_name : string) : string * string :=
  let pieces := Js.split "/" full_name in
  (Js.interpolate (nth_error pieces 0), Js.interpolate (nth_error pieces 1)).

(** Less than one hour since the last synchronisation. *)
Definition fresh (now : Z) (d : RepoSnapshot) : bool :=
  match lastSyncedAt d with
  | Some t => Qltb (hoursSince now t) (inject_Z 1)
  | None => false
  end.

Definition getRepositoryById (repoId : string) : Async Ref :=
  match Js.parseInt repoId with
  | None => throw (ApiError.badRequest "Invalid repository ID")
  | Some githubId =>
      snapshot <- findOneByGithubId githubId ;;
      isFresh <- match snapshot with
                 | Some s => d <- read s ;; t <- now ;; ret (fresh t d)
                 | None => ret false
                 end ;;
      match snapshot, isFresh with
      | Some s, true => ret s
      | _, _ =>
          tryCatch
            (githubRepo <- get (GetRepoById githubId) (repositories gh githubId) ;;
             let '(owner, repo) := ownerAndRepo (GH.full_name githubRepo) in
             syncRepository owner repo)
            (fun error =>
               match snapshot with
               | Some s => ret s
               | None => throw error
               end)
      end
  end.


End Client.

End GitHubService.

(** ** The repository service ([services/RepoService.js]) *)

Module RepoService.

(** One entry of a search result, as the service hands it on. *)
Record RepoSummary := mkSummary {
  s_githubId : Z;
  s_name : string;
  s_fullName : string;
  s_ownerLogin : string;
  s_ownerAvatar : option string;
  s_description : option string;
  s_htmlUrl : string;
  s_language : option string;
  s_stars : Z;
  s_forks : Z;
  s_watchers : Z;
  s_topics : list string;
  s_isPrivate : bool;
  s_updatedAt : option string
}.

Definition summary (repo : GH.repo) : RepoSummary :=
  mkSummary (GH.id repo) (GH.name repo) (GH.full_name repo)
    (GH.login (GH.owner repo)) (GH.avatar_url (GH.owner repo))
    (GH.description repo) (GH.html_url repo) (GH.language repo)
    (GH.stargazers_count repo) (GH.forks_count repo) (GH.watchers_count repo)
    (match GH.topics repo with Some ts => ts | None => [] end)
    (GH.private repo) (option_map GH.date_text (GH.updated_at repo)).

Record Pagination := mkPagination {
  p_page : Z;
  p_limit : Z;
  p_total : option Z;
  p_totalPages : float
}.

Record RemoteSearch := mkRemoteSearch {
  rs_repos : list RepoSummary;
  rs_totalCount : Z;
  rs_pagination : Pagination
}.

Record LocalSearch := mkLocalSearch {
  ls_repos : list RepoSnapshot;
  ls_pagination : Pagination
}.

(** The share of one language, to one decimal place. *)
Definition percentOneDecimal (totalBytes b : float) : float :=
  (Js.Math_round (b / totalBytes * 100 * 10) / 10)%float.

Section Service.

Variable gh : GitHub.
Variable textScore : string -> string -> option string -> Z.

(** [searchRepos(query, options)]: a search on GitHub. *)
Definition searchRepos (query : option string) (language sortOpt : option string)
  (pageOpt limitOpt : option Z) : Async RemoteSearch :=
  match query with
  | Some q =>
      if (negb (Js.truthy query) || (Js.len (Js.trim q) <? 2))%bool
      then throw (ApiError.badRequest "Search query must be at least 2 characters")
      else
        let sort := match sortOpt with Some s => s | None => "stars" end in
        let page := match pageOpt with Some p => p | None => 1 end in
        let limit := match limitOpt with Some l => l | None => 10 end in
        result <- GitHubService.searchRepositories gh q language
                    (Some sort) None (Some page) (Some limit) ;;
        ret (mkRemoteSearch
               (map summary (GitHubService.items result))
               (GitHubService.total_count result)
               (mkPagination page limit None
                  (Js.Math_ceil
                     (Js.number (Js.Math_min (GitHubService.total_count result) 1000)
                      / Js.number limit)%float)))
  | None => throw (ApiError.badRequest "Search query must be at least 2 characters")
  end.

(** [syncRepo(repo)]: the document object is refreshed from GitHub and
    saved; on any failure the message goes into [syncError], the document is
    saved, and the error is thrown again. *)
Definition syncRepo (repo : Ref) : Async Ref :=
  tryCatch
    (d <- read repo ;;
     githubData <- GitHubService.getRepositoryByFullName gh (fullName d) ;;
     updateFromGitHub_on repo githubData ;;;
     save repo ;;;
     ret repo)
    (fun error =>
       assign repo (set_syncError (Some (message error))) ;;;
       save repo ;;;
       throw error).

(** [getRepoById(repoId, forceSync)] *)
Definition getRepoById (repoId : N) (forceSync : bool) : Async Ref :=
  found <- findById repoId ;;
  match found with
  | None => throw (ApiError.notFound "Repository not found")
  | Some repo =>
      d <- read repo ;;
      t <- now ;;
      (if (forceSync || needsSync t d)%bool
       then tryCatch (syncRepo repo ;;; ret tt) (fun _ => ret tt)
       else ret tt) ;;;
      ret repo
  end.

(** [getOrCreateFromGitHub(fullName)] *)
Definition getOrCreateFromGitHub (fullName : string) : Async Ref :=
  found <- findOneByFullName fullName ;;
  stale <- match found with
           | Some repo => d <- read repo ;; t <- now ;; ret (needsSync t d)
           | None => ret true
           end ;;
  match found, stale with
  | Some repo, false => ret repo
  | _, _ =>
      githubData <- GitHubService.getRepositoryByFullName gh fullName ;;
      findOrCreateFromGitHub (GH.id githubData) githubData
  end.

(** [getRepoByGitHubId(githubId)]: the snapshot has to exist locally. *)
Definition getRepoByGitHubId (gid : Z) : Async Ref :=
  found <- findOneByGithubId gid ;;
  stale <- match found with
           | Some repo => d <- read repo ;; t <- now ;; ret (needsSync t d)
           | None => ret true
           end ;;
  match found, stale with
  | Some repo, false => ret repo
  | Some repo, true => syncRepo repo ;;; ret repo
  | None, _ =>
      throw (ApiError.notFound
               "Repository not found. Use fullName to fetch from GitHub.")
  end.

(** [readme.substring(0, 50000)] on data that is not a string. *)
Definition notAFunction : JsError :=
  mkError None "readme.substring is not a function".

(** [loadReadme(repoId)]: the cached README when it is less than 7 days
    old, else the one GitHub has, cut to 50000 characters. *)
Definition loadReadme (repoId : N) : Async (option string) :=
  found <- findById repoId ;;
  match found with
  | None => throw (ApiError.notFound "Repository not found")
  | Some repo =>
      d <- read repo ;;
      t <- now ;;
      let needsRefresh :=
        match readmeFetchedAt d with
        | None => true
        | Some fetched => 7 * 24 * 60 * 60 * 1000 <? t - fetched
        end in
      if (Js.truthy (readme d) && negb needsRefresh)%bool then ret (readme d)
      else
        tryCatch
          (text <- GitHubService.getReadme gh (ownerLogin d) (name d) ;;
           (if truthyBody text then
              match text with
              | Some (GH.Text s) =>
                  t1 <- now ;;
                  assign repo
                    (fun d => set_readmeFetchedAt (Some t1)
                                (assignReadme (Some (GH.Text (Js.substring0 50000 s))) d)) ;;;
                  save repo
              | _ => throw notAFunction
              end
            else ret tt) ;;;
           d1 <- read repo ;;
           ret (readme d1))
          (fun error =>
             d1 <- read repo ;;
             ret (Js.orElse (readme d1) None))
  end.

(** [loadLanguages(repoId)] *)
Definition loadLanguages (repoId : N) : Async (list Language) :=
  found <- findById repoId ;;
  match found with
  | None => throw (ApiError.notFound "Repository not found")
  | Some repo =>
      d <- read repo ;;
      match languages d with
      | _ :: _ => ret (languages d)
      | [] =>
          tryCatch
            (languagesData <- GitHubService.getLanguages gh (ownerLogin d) (name d) ;;
             let totalBytes :=
               fold_left (fun a b => (a + b)%float) (map snd languagesData) 0%float in
             assign repo
               (assignLanguages
                  (map (fun '(name, b) => (name, b, percentOneDecimal totalBytes b))
                       languagesData)) ;;;
             save repo ;;;
             d1 <- read repo ;;
             ret (languages d1))
            (fun error =>
               d1 <- read repo ;;
               ret (languages d1))
      end
  end.

(** [searchLocalRepos(query, options)]: a search over the stored snapshots. *)
Definition searchLocalRepos (query : option string) (language : option string)
  (pageOpt limitOpt : option Z) : Async LocalSearch :=
  let page := match pageOpt with Some p => p | None => 1 end in
  let limit := match limitOpt with Some l => l | None => 20 end in
  let searchQuery d :=
    (negb (isPrivate d)
     && (if Js.truthy query
         then textMatch textScore (Js.text query) d
         else true)
     && languageIs language d)%bool in
  let skipped := (page - 1) * limit in
  fun w =>
    let matching := filter searchQuery (collection w) in
    let sorted :=
      if Js.truthy query
      then sortBy (byScore textScore (Js.text query)) matching
      else sortBy byStars matching in
    match cursorSkip skipped sorted with
    | Throw e => (Throw e, w)
    | Return rest =>
        let total := Z.of_nat (List.length matching) in
        (Return (mkLocalSearch
                   (cursorLimit limit rest)
                   (mkPagination page limit (Some total)
                      (Js.Math_ceil (Js.number total / Js.number limit)%float))),
         w)
    end.

End Service.

End RepoService.

(** ** Vocabulary of the statements *)

(** What [save] asks of a payload: the fields [updateFromGitHub] assigns
    pass the validators, and the three dates cast. *)
Definition acceptable (r : GH.repo) : bool :=
  (required (Js.trim (GH.login (GH.owner r)))
   && required (Js.trim (GH.name r))
   && required (Js.trim (GH.full_name r))
   && required (GH.html_url r)
   && withinLength 1000 (trimmed (GH.description r))
   && casts (castDate (GH.created_at r))
   && casts (castDate (GH.updated_at r))
   && casts (castDate (GH.pushed_at r)))%bool.

Definition isDatePath (p : Path) : bool :=
  match p with
  | githubCreatedAt_path | githubUpdatedAt_path | githubPushedAt_path => true
  | languages_path | readme_path => false
  end.

(** What [save] asks of what [updateFromGitHub] leaves alone: the fields it
    does not assign pass the validators, and the document object has no
    cast error at a path it does not assign. *)
Definition keepsValid (d : RepoSnapshot) : bool :=
  (withinLength 50000 (readme d)
   && withinLength 2000 (aiSummary d)
   && validLevel (aiComplexityLevel d)
   && forallb isDatePath (castErrors d))%bool.

(** What a caller sees of a completed call that returns a document. *)
Definition observe (outcome : Completion Ref * World) : Completion (option RepoSnapshot) :=
  match outcome with
  | (Return r, w) => Return (nth_error (memory w) r)
  | (Throw e, _) => Throw e
  end.

(** Two documents that agree on every field other than the README, the time
    it was fetched and the list of languages. *)
Definition sameCore (a b : RepoSnapshot) : Prop :=
  set_languages [] (set_readme None (set_readmeFetchedAt None a))
  = set_languages [] (set_readme None (set_readmeFetchedAt None b)).

(** The stored documents with a given external identifier. *)
Definition withGithubId (gid : Z) (docs : list RepoSnapshot) : list RepoSnapshot :=
  filter (fun d => githubId d =? gid) docs.

(** A consistent collection: distinct [_id]s, all below the next fresh one,
    at most one document per [githubId] (the unique index), and documents
    that passed validation when they were saved. *)
Definition consistent (w : World) : Prop :=
  NoDup (map _id (collection w))
  /\ Forall (fun d => (_id d < nextOid w)%N) (collection w)
  /\ NoDup (map githubId (collection w))
  /\ Forall (fun d => validate d = true) (collection w).

(** The stored document with a given [_id]. *)
Definition stored (oid : N) (docs : list RepoSnapshot) : option RepoSnapshot :=
  find (fun d => N.eqb (_id d) oid) docs.

(** ** Sample data *)

Module Sample.

Definition widget : GH.repo :=
  GH.mkRepo 42 (GH.mkOwner "acme" None) "widget" "acme/widget"
    (Some "A widget") "https://github.com/acme/widget"
    (Some "https://github.com/acme/widget.git") (Some "Go")
    10 2 10 1 false false "main" (Some ["tools"])
    (Some (GH.mkLicense (Some "MIT"))) None None None.

(** The same repository after a rename upstream. *)
Definition gadget : GH.repo :=
  GH.mkRepo 42 (GH.mkOwner "acme" None) "gadget" "acme/gadget"
    (Some "A widget") "https://github.com/acme/gadget"
    (Some "https://github.com/acme/gadget.git") (Some "Go")
    12 2 12 1 false false "main" (Some ["tools"])
    (Some (GH.mkLicense (Some "MIT"))) None None None.

Definition sprocket : GH.repo :=
  GH.mkRepo 43 (GH.mkOwner "acme" None) "sprocket" "acme/sprocket"
    (Some "A widget with teeth") "https://github.com/acme/sprocket"
    None (Some "JS")
    50 0 50 0 false false "main" None None None None None.

(** A fork of [widget]: another repository with its name and its
    description, and more stars. *)
Definition forked : GH.repo :=
  GH.mkRepo 44 (GH.mkOwner "forge" None) "widget" "forge/widget"
    (Some "A widget") "https://github.com/forge/widget"
    (Some "https://github.com/forge/widget.git") (Some "Go")
    50 7 50 3 false true "main" (Some ["tools"])
    (Some (GH.mkLicense (Some "MIT"))) None None None.

Definition hour : Z := 1000 * 60 * 60.

(** The snapshot of [widget] with [_id] 1, synchronised at time 0. *)
Definition cached : RepoSnapshot :=
  updateFromGitHub 0 widget (newSnapshot 1 42 0).

Definition cachedSprocket : RepoSnapshot :=
  updateFromGitHub 0 sprocket (newSnapshot 2 43 0).

Definition cachedFork : RepoSnapshot :=
  updateFromGitHub 0 forked (newSnapshot 2 44 0).

(** An empty collection, and one that holds [cached], at a given time. *)
Definition emptyAt (t : Z) : World := mkWorld [] 1 [] t [].

Definition cachedAt (t : Z) : World := mkWorld [cached] 2 [] t [].

(** GitHub out of reach. *)
Definition offline : GitHub :=
  mkGitHub (fun _ => NoResponse) (fun _ => NoResponse) (fun _ => NoResponse)
           (fun _ => NoResponse) (fun _ _ _ _ _ => NoResponse).

(** GitHub answering 404 to everything. *)
Definition unknown : GitHub :=
  mkGitHub (fun _ => Status 404 None) (fun _ => Status 404 None)
           (fun _ => Status 404 None) (fun _ => Status 404 None)
           (fun _ _ _ _ _ => Status 404 None).

(** GitHub with [widget] and [sprocket], no README, a given answer for any
    other repository and a given answer for the languages of anything. *)
Definition servingOr (otherwise : Reply GH.repo) (langs : Reply GH.languages)
  : GitHub :=
  mkGitHub
    (fun path =>
       if String.eqb path "acme/widget" then Success widget
       else if String.eqb path "acme/sprocket" then Success sprocket
       else otherwise)
    (fun gid =>
       if gid =? 42 then Success widget
       else if gid =? 43 then Success sprocket
       else Status 404 None)
    (fun _ => Status 404 None)
    (fun _ => langs)
    (fun _ _ _ _ _ => Success (GH.mkSearch [widget; sprocket] 2)).

(** The same, with 404 for any other repository. *)
Definition serving (langs : Reply GH.languages) : GitHub :=
  servingOr (Status 404 None) langs.


Definition goAndJs : GH.languages := [("Go", 300%float); ("JS", 100%float)].

Definition oneAndTwo : GH.languages := [("C", 1%float); ("Rust", 2%float)].

(** A byte map whose only count is zero. *)
Definition noBytes : GH.languages := [("A", 0%float)].

(** A text index that scores every document 1. *)
Definition anything (q name : string) (description : option string) : Z := 1.

End Sample.

(** ** Further vocabulary *)

(** [repo.readme && !needsRefresh]: a README is there and was fetched at
    most 7 days ago. *)
Definition readmeIsCurrent (now : Z) (d : RepoSnapshot) : bool :=
  (Js.truthy (readme d)
   && negb match readmeFetchedAt d with
           | None => true
           | Some fetched => 7 * 24 * 60 * 60 * 1000 <? now - fetched
           end)%bool.

(** The document lacks a README, or the time one was fetched. *)
Definition lacksReadme (d : RepoSnapshot) : bool :=
  (negb (Js.truthy (readme d))
   || match readmeFetchedAt d with None => true | Some _ => false end)%bool.

(** What [syncRepository] does once the upsert has handed it the document
    object: README and languages are fetched if the document lacks them,
    and the document is saved. *)
Definition completeSnapshot (gh : GitHub) (owner repo : string) (savedRepo : Ref)
  : Async Ref :=
  d <- read savedRepo ;;
  (if lacksReadme d
   then
     tryCatch
       (text <- GitHubService.getReadme gh owner repo ;;
        if truthyBody text then
          t <- now ;;
          assign savedRepo
            (fun d => set_readmeFetchedAt (Some t) (assignReadme text d))
        else ret tt)
       (fun _ => ret tt)
   else ret tt) ;;;
  d <- read savedRepo ;;
  (match languages d with
   | [] =>
       tryCatch
         (langs <- GitHubService.getLanguages gh owner repo ;;
          let totalBytes :=
            fold_left (fun sum b => (sum + b)%float) (map snd langs) 0%float in
          assign savedRepo
            (assignLanguages
               (map (fun '(name, b) => (name, b, GitHubService.wholePercent totalBytes b))
                    langs)))
         (fun _ => ret tt)
   | _ :: _ => ret tt
   end) ;;;
  save savedRepo ;;;
  ret savedRepo.

(** [syncRepository] from the reply to its first request on. *)
Definition resumed (gh : GitHub) (owner repo : string) : Async Ref :=
  tryCatch
    (ghRepo <- (fun w =>
                  match repos gh (owner ++ "/" ++ repo) with
                  | Success data => (Return data, w)
                  | Status status msg => (Throw (GitHubService.intercepted status msg), w)
                  | NoResponse =>
                      (Throw (ApiError.internal "Failed to connect to GitHub API"), w)
                  end) ;;
     savedRepo <- findOrCreateFromGitHub (GH.id ghRepo) ghRepo ;;
     completeSnapshot gh owner repo savedRepo)
    (fun error =>
       match statusCode error with
       | Some 404 =>
           throw (ApiError.notFound
                    ("Repository " ++ owner ++ "/" ++ repo ++ " not found on GitHub"))
       | _ => throw error
       end).

(** Calls that run one after the other, each to its end. *)
Fixpoint inTurn {A} (calls : list (Async A)) (w : World) : list (Completion A) * World :=
  match calls with
  | [] => ([], w)
  | call :: rest =>
      let (outcome, w1) := call w in
      let (outcomes, w2) := inTurn rest w1 in
      (outcome :: outcomes, w2)
  end.

(** One way in which the synchronisations that [bulkSyncRepositories]
    starts can settle: every call has sent its first request, in the order
    of the targets, before any reply is there; then the calls are resumed
    in that order, and each has run to its end before the next is
    resumed. *)
Definition startedTogether (gh : GitHub) (repositories : list (string * string))
  : GitHubService.Settlement Ref :=
  fun _ w =>
    inTurn (map (fun '(owner, repo) => resumed gh owner repo) repositories)
      (withSent
         (sent w ++ map (fun '(owner, repo) => GetRepo (owner ++ "/" ++ repo)) repositories)
         w).

(** The requests [completeSnapshot] sends for a document. *)
Definition completing (owner repo : string) (d : RepoSnapshot) : list Request :=
  ((if lacksReadme d then [GetReadme (owner ++ "/" ++ repo)] else [])
   ++ match languages d with
      | [] => [GetLanguages (owner ++ "/" ++ repo)]
      | _ :: _ => []
      end)%list.

(** The document after the README step at time [t]. *)
Definition withReadme (gh : GitHub) (owner repo : string) (t : Z) (d : RepoSnapshot)
  : RepoSnapshot :=
  if lacksReadme d then
    match readmes gh (owner ++ "/" ++ repo) with
    | Success data =>
        if truthyBody (Some data)
        then set_readmeFetchedAt (Some t) (assignReadme (Some data) d)
        else d
    | _ => d
    end
  else d.

(** The document after the languages step. *)
Definition withLanguages (gh : GitHub) (owner repo : string) (d : RepoSnapshot)
  : RepoSnapshot :=
  match languages d with
  | [] =>
      match languagesOf gh (owner ++ "/" ++ repo) with
      | Success langs =>
          let totalBytes :=
            fold_left (fun sum b => (sum + b)%float) (map snd langs) 0%float in
          assignLanguages
            (map (fun '(name, b) => (name, b, GitHubService.wholePercent totalBytes b))
                 langs)
            d
      | _ => d
      end
  | _ :: _ => d
  end.

(** The document [completeSnapshot] saves, at time [t]. *)
Definition completed (gh : GitHub) (owner repo : string) (t : Z) (d : RepoSnapshot)
  : RepoSnapshot :=
  withLanguages gh owner repo (withReadme gh owner repo t d).

(** What [save] asks of the data of a README that [syncRepository]
    assigns: the [String] path casts it, to at most 50000 characters. Data
    that is not truthy is not assigned. *)
Definition readmeFits (reply : Reply GH.body) : bool :=
  match reply with
  | Success data =>
      if truthyBody (Some data) then
        match castReadme (Some data) with
        | Casts v => withinLength 50000 v
        | CastError => false
        end
      else true
  | _ => true
  end.

(** What [save] asks of the languages that [syncRepository] assigns: the
    byte counts and the shares are numbers. *)
Definition languagesFit (reply : Reply GH.languages) : bool :=
  match reply with
  | Success langs =>
      let totalBytes :=
        fold_left (fun sum b => (sum + b)%float) (map snd langs) 0%float in
      numbersCast
        (map (fun '(name, b) => (name, b, GitHubService.wholePercent totalBytes b)) langs)
  | _ => true
  end.

(** What [save] asks of what [completeSnapshot] fetches for a document. *)
Definition completes (gh : GitHub) (owner repo : string) (d : RepoSnapshot) : bool :=
  ((negb (lacksReadme d) || readmeFits (readmes gh (owner ++ "/" ++ repo)))
   && (match languages d with
       | [] => languagesFit (languagesOf gh (owner ++ "/" ++ repo))
       | _ :: _ => true
       end))%bool.

(** A text doubled [n] times over. *)
Fixpoint doubled (n : nat) (s : string) : string :=
  match n with
  | O => s
  | S k => doubled k (s ++ s)
  end.

(** A README of 65536 characters. *)
Definition longReadme : string := doubled 16 "#".

(** GitHub with [widget] and that README. *)
Definition verbose : GitHub :=
  mkGitHub (fun _ => Success Sample.widget) (fun _ => NoResponse)
    (fun _ => Success (GH.Text longReadme)) (fun _ => NoResponse)
    (fun _ _ _ _ _ => NoResponse).

(** [cached] with a README and its languages. *)
Definition complete : RepoSnapshot :=
  set_languages [mkLanguage "Go" (Some 300%float) (Some 100%float)]
    (set_readmeFetchedAt (Some 0) (set_readme (Some "# widget") Sample.cached)).

(** [parseInt(s, 10) || fallback] on a query-string value that may be
    missing: [NaN] and [0] are falsy. *)
Definition parsedOr (s : option string) (fallback : Z) : Z :=
  match Js.parseInt (Js.interpolate s) with
  | Some 0 | None => fallback
  | Some n => n
  end.

Module RepoController.

(** [searchLocalRepos]: the handler of [GET /api/repos/local/search]; what
    it resolves to is the data of the response, what it throws goes to the
    error handler. *)
Definition searchLocalRepos (textScore : string -> string -> option string -> Z)
  (q language page limit : option string) : Async RepoService.LocalSearch :=
  RepoService.searchLocalRepos textScore q language
    (Some (parsedOr page 1)) (Some (parsedOr limit 20)).

End RepoController.

Module Routes.

Section Handlers.

Variable gh : GitHub.

(** [GET /api/github/repos/:owner/:repo] *)
Definition getRepoByFullName (owner repo : string) : Async Ref :=
  let fullName := owner ++ "/" ++ repo in
  repoData <- findOneByFullName fullName ;;
  stale <- match repoData with
           | Some s => d <- read s ;; t <- now ;; ret (needsSync t d)
           | None => ret true
           end ;;
  match repoData, stale with
  | Some s, false => ret s
  | _, _ =>
      githubRepo <- GitHubService.getRepository gh owner repo ;;
      findOrCreateFromGitHub (GH.id githubRepo) githubRepo
  end.

(** [POST /api/github/repos/:owner/:repo/sync] *)
Definition syncRepo (owner repo : string) : Async Ref :=
  githubRepo <- GitHubService.getRepository gh owner repo ;;
  findOrCreateFromGitHub (GH.id githubRepo) githubRepo.

End Handlers.

End Routes.

(** * Properties *)

(** ** Elapsed time *)

Lemma hours_above (now t k : Z) :
  Qgtb (hoursSince now t) (inject_Z k) = (k * 3600000 <? now - t).
Proof.
  unfold Qgtb, hoursSince.
  change (1000 * 60 * 60) with 3600000.
  assert (Hpos : (0 < inject_Z 3600000)%Q) by reflexivity.
  destruct (Z.ltb_spec (k * 3600000) (now - t)) as [Hlt | Hge].
  - apply negb_true_iff. apply not_true_is_false. intro Hle.
    apply Qle_bool_iff in Hle.
    apply (Qmult_le_compat_r _ _ (inject_Z 3600000)) in Hle; [| apply Qlt_le_weak; exact Hpos].
    rewrite Qmult_comm, Qmult_div_r in Hle by (intro E; discriminate E).
    rewrite <- inject_Z_mult in Hle. rewrite <- Zle_Qle in Hle. lia.
  - apply negb_false_iff. apply Qle_bool_iff.
    apply Qle_shift_div_r; [exact Hpos |].
    rewrite <- inject_Z_mult. rewrite <- Zle_Qle. exact Hge.
Qed.

Lemma hours_below (now t k : Z) :
  Qltb (hoursSince now t) (inject_Z k) = (now - t <? k * 3600000).
Proof.
  unfold Qltb, hoursSince.
  change (1000 * 60 * 60) with 3600000.
  assert (Hpos : (0 < inject_Z 3600000)%Q) by reflexivity.
  destruct (Z.ltb_spec (now - t) (k * 3600000)) as [Hlt | Hge].
  - apply negb_true_iff. apply not_true_is_false. intro Hle.
    apply Qle_bool_iff in Hle.
    apply (Qmult_le_compat_r _ _ (inject_Z 3600000)) in Hle; [| apply Qlt_le_weak; exact Hpos].
    rewrite (Qmult_comm (_ / _)), Qmult_div_r in Hle by (intro E; discriminate E).
    rewrite <- inject_Z_mult in Hle. rewrite <- Zle_Qle in Hle. lia.
  - apply negb_false_iff. apply Qle_bool_iff.
    apply Qle_shift_div_l; [exact Hpos |].
    rewrite <- inject_Z_mult. rewrite <- Zle_Qle. exact Hge.
Qed.

(** ** Running the primitives *)

Lemma nth_error_snoc {A} (l : list A) (x : A) :
  nth_error (l ++ [x]) (List.length l) = Some x.
Proof. induction l as [| y l IH]; [reflexivity | exact IH]. Qed.

Lemma replaceNth_snoc {A} (l : list A) (x y : A) :
  replaceNth (List.length l) y (l ++ [x]) = (l ++ [y])%list.
Proof. induction l as [| z l IH]; [reflexivity | cbn; rewrite IH; reflexivity]. Qed.

Lemma findFirst_found (p : RepoSnapshot -> bool) (w : World) (d : RepoSnapshot) :
  find p (collection w) = Some d ->
  findFirst p w = (Return (Some (List.length (memory w))), withMemory (memory w ++ [d]) w).
Proof. intro H. unfold findFirst. rewrite H. reflexivity. Qed.

Lemma findFirst_missing (p : RepoSnapshot -> bool) (w : World) :
  find p (collection w) = None -> findFirst p w = (Return None, w).
Proof. intro H. unfold findFirst. rewrite H. reflexivity. Qed.

Lemma read_at (r : Ref) (w : World) (d : RepoSnapshot) :
  nth_error (memory w) r = Some d -> read r w = (Return d, w).
Proof. intro H. unfold read. rewrite H. reflexivity. Qed.

Lemma assign_at (r : Ref) (f : RepoSnapshot -> RepoSnapshot) (w : World) (d : RepoSnapshot) :
  nth_error (memory w) r = Some d ->
  assign r f w = (Return tt, withMemory (replaceNth r (f d) (memory w)) w).
Proof. intro H. unfold assign. rewrite H. reflexivity. Qed.

Lemma save_at (r : Ref) (w : World) (d : RepoSnapshot) :
  nth_error (memory w) r = Some d ->
  save r w = if validate d
             then (Return tt, withCollection (put d (collection w)) w)
             else (Throw validationError, w).
Proof.
  intro H. unfold save, bind. rewrite (read_at _ _ _ H).
  destruct (validate d); reflexivity.
Qed.

Lemma get_success {D} (rq : Request) (data : D) (w : World) :
  GitHubService.get rq (Success data) w = (Return data, withSent (sent w ++ [rq]) w).
Proof. reflexivity. Qed.

Lemma get_rejected {D} (rq : Request) (reply : Reply D) (e : JsError) (w : World) :
  GitHubService.rejection reply = Some e ->
  GitHubService.get rq reply w = (Throw e, withSent (sent w ++ [rq]) w).
Proof.
  destruct reply; cbn; intro H; try discriminate H; injection H as <-; reflexivity.
Qed.


Ltac wsimpl :=
  cbn [memory collection sent clock nextOid withMemory withSent withCollection
       withNextOid at_time fst snd].

Ltac wsimpl_in H :=
  cbn [memory collection sent clock nextOid withMemory withSent withCollection
       withNextOid at_time fst snd] in H.

Lemma validate_set_languages (v : list Language) (d : RepoSnapshot) :
  validate (set_languages v d) = validate d.
Proof. reflexivity. Qed.

Lemma validate_set_syncError (v : option string) (d : RepoSnapshot) :
  validate (set_syncError v d) = validate d.
Proof. reflexivity. Qed.

(** ** Stale fallback (C1) *)

Lemma nth_error_replaceNth {A} (l : list A) (r : nat) (x y : A) :
  nth_error l r = Some y -> nth_error (replaceNth r x l) r = Some x.
Proof.
  revert r. induction l as [| z l IH]; intros [| r] H; try discriminate H.
  - reflexivity.
  - cbn. apply IH. exact H.
Qed.

Lemma syncRepo_rejected (gh : GitHub) (repo : Ref) (w : World) (d : RepoSnapshot) (e : JsError) :
  nth_error (memory w) repo = Some d ->
  GitHubService.rejection (repos gh (fullName d)) = Some e ->
  let d' := set_syncError (Some (message e)) d in
  RepoService.syncRepo gh repo w =
    (Throw (if validate d then e else validationError),
     withCollection (if validate d then put d' (collection w) else collection w)
       (withMemory (replaceNth repo d' (memory w))
          (withSent (sent w ++ [GetRepo (fullName d)]) w))).
Proof.
  intros Hmem Hrej d'.
  unfold RepoService.syncRepo, tryCatch, bind at 1.
  rewrite (read_at _ _ _ Hmem).
  unfold GitHubService.getRepositoryByFullName, bind at 1.
  rewrite (get_rejected _ _ _ _ Hrej).
  unfold bind at 1.
  rewrite (assign_at _ _ _ d) by exact Hmem.
  wsimpl. unfold bind at 1.
  erewrite save_at by (wsimpl; eapply nth_error_replaceNth; exact Hmem).
  rewrite validate_set_syncError.
  destruct (validate d); reflexivity.
Qed.

Lemma getRepoById_stale (gh : GitHub) (repoId : N) (forceSync : bool) (w : World)
  (d : RepoSnapshot) (e : JsError) :
  find (fun x => N.eqb (_id x) repoId) (collection w) = Some d ->
  (forceSync || needsSync (clock w) d)%bool = true ->
  GitHubService.rejection (repos gh (fullName d)) = Some e ->
  exists w',
    RepoService.getRepoById gh repoId forceSync w = (Return (List.length (memory w)), w')
    /\ nth_error (memory w') (List.length (memory w))
       = Some (set_syncError (Some (message e)) d)
    /\ collection w' =
         (if validate d then put (set_syncError (Some (message e)) d) (collection w)
          else collection w)
    /\ sent w' = (sent w ++ [GetRepo (fullName d)])%list.
Proof.
  intros Hfind Hdue Hrej.
  unfold RepoService.getRepoById, findById, bind at 1.
  rewrite (findFirst_found _ _ _ Hfind).
  unfold bind at 1. rewrite (read_at _ _ d) by apply nth_error_snoc.
  unfold bind at 1, now at 1. wsimpl. rewrite Hdue.
  unfold bind at 1, tryCatch, bind at 1.
  rewrite (syncRepo_rejected gh _ _ d e) by (try apply nth_error_snoc; exact Hrej).
  wsimpl. rewrite replaceNth_snoc.
  eexists. split; [reflexivity |]. wsimpl.
  split; [apply nth_error_snoc |]. split; reflexivity.
Qed.

Lemma syncRepository_rejected (gh : GitHub) (owner repo : string) (w : World) (e : JsError) :
  GitHubService.rejection (repos gh (owner ++ "/" ++ repo)) = Some e ->
  exists e',
    GitHubService.syncRepository gh owner repo w =
      (Throw e', withSent (sent w ++ [GetRepo (owner ++ "/" ++ repo)]) w)
    /\ statusCode e' = statusCode e.
Proof.
  intro Hrej.
  unfold GitHubService.syncRepository, tryCatch, bind at 1, GitHubService.getRepository.
  rewrite (get_rejected _ _ _ _ Hrej).
  destruct (statusCode e) as [code |] eqn:Hcode.
  - destruct (Z.eq_dec code 404) as [-> | Hne].
    + eexists. split; reflexivity.
    + exists e. split; [| exact Hcode].
      destruct code as [| p | p]; try reflexivity.
      repeat (destruct p as [p | p |]; try reflexivity); exfalso; apply Hne; reflexivity.
  - exists e. split; [reflexivity | exact Hcode].
Qed.

Lemma getRepositoryById_stale (gh : GitHub) (repoId : string) (gid : Z) (w : World)
  (d : RepoSnapshot) :
  Js.parseInt repoId = Some gid ->
  find (fun x => githubId x =? gid) (collection w) = Some d ->
  GitHubService.fresh (clock w) d = false ->
  (GitHubService.rejection (repositories gh gid) <> None
   \/ exists r, repositories gh gid = Success r
        /\ GitHubService.rejection
             (repos gh (fst (GitHubService.ownerAndRepo (GH.full_name r)) ++ "/"
                        ++ snd (GitHubService.ownerAndRepo (GH.full_name r))))
           <> None) ->
  exists w',
    GitHubService.getRepositoryById gh repoId w = (Return (List.length (memory w)), w')
    /\ nth_error (memory w') (List.length (memory w)) = Some d
    /\ memory w' = (memory w ++ [d])%list
    /\ collection w' = collection w.
Proof.
  intros Hparse Hfind Hstale Hfail.
  unfold GitHubService.getRepositoryById. rewrite Hparse.
  unfold findOneByGithubId, bind at 1.
  rewrite (findFirst_found _ _ _ Hfind).
  unfold bind at 1, bind at 1. rewrite (read_at _ _ d) by apply nth_error_snoc.
  unfold bind at 1, now at 1. wsimpl. unfold ret at 1. rewrite Hstale.
  unfold tryCatch, bind at 1.
  destruct Hfail as [Hrej | [r [Hok Hrej]]].
  - destruct (GitHubService.rejection (repositories gh gid)) as [e |] eqn:He;
      [| exfalso; apply Hrej; reflexivity].
    rewrite (get_rejected _ _ _ _ He).
    eexists. split; [reflexivity |]. wsimpl.
    split; [apply nth_error_snoc |]. split; reflexivity.
  - rewrite Hok, get_success.
    destruct (GitHubService.ownerAndRepo (GH.full_name r)) as [owner repo].
    cbn [fst snd] in Hrej.
    match type of Hrej with
    | GitHubService.rejection ?x <> None =>
        destruct (GitHubService.rejection x) as [e |] eqn:He;
        [| exfalso; apply Hrej; reflexivity]
    end.
    match goal with
    | |- context [GitHubService.syncRepository gh ?o ?n ?w0] =>
        destruct (syncRepository_rejected gh o n w0 e He) as [e' [Hrun _]];
        rewrite Hrun
    end.
    eexists. split; [reflexivity |]. wsimpl.
    split; [apply nth_error_snoc |]. split; reflexivity.
Qed.

(** C1, counterexample. A cached snapshot more than an hour old, GitHub out
    of reach: [getRepositoryById] hands the cached snapshot back, but the
    failure is recorded nowhere, neither on the document returned nor in the
    collection, whose [syncError] stays [null]. *)
Lemma getRepositoryById_records_nothing :
  exists w',
    GitHubService.getRepositoryById Sample.offline "42"
      (Sample.cachedAt (25 * Sample.hour)) = (Return 0%nat, w')
    /\ GitHubService.rejection (repositories Sample.offline 42)
       = Some (ApiError.internal "Failed to connect to GitHub API")
    /\ nth_error (memory w') 0 = Some Sample.cached
    /\ collection w' = [Sample.cached]
    /\ syncError Sample.cached = None.
Proof. eexists. repeat split; vm_compute; reflexivity. Qed.

(** C1, amended. For a snapshot that exists in the collection:
    - [getRepoById], when a synchronisation is due ([forceSync], or
      [needsSync]) and the fetch from GitHub fails, does not throw; the
      document it returns is the cached one with [syncError] set to the
      message of the error and nothing else changed, and that document is
      written back when it validates;
    - [getRepositoryById], when the snapshot is not fresh and the fetch by
      identifier fails (or the fetch by name that follows it), does not throw
      and returns the cached snapshot with no field changed, [syncError]
      included; the collection is left as it was. *)
Theorem stale_fallback (gh : GitHub) :
  (forall (repoId : N) (forceSync : bool) (w : World) (d : RepoSnapshot) (e : JsError),
     stored repoId (collection w) = Some d ->
     (forceSync || needsSync (clock w) d)%bool = true ->
     GitHubService.rejection (repos gh (fullName d)) = Some e ->
     exists w',
       RepoService.getRepoById gh repoId forceSync w
       = (Return (List.length (memory w)), w')
       /\ observe (RepoService.getRepoById gh repoId forceSync w)
          = Return (Some (set_syncError (Some (message e)) d))
       /\ collection w' =
            (if validate d
             then put (set_syncError (Some (message e)) d) (collection w)
             else collection w))
  /\ (forall (repoId : string) (gid : Z) (w : World) (d : RepoSnapshot),
       Js.parseInt repoId = Some gid ->
       find (fun x => githubId x =? gid) (collection w) = Some d ->
       GitHubService.fresh (clock w) d = false ->
       (GitHubService.rejection (repositories gh gid) <> None
        \/ exists r, repositories gh gid = Success r
             /\ GitHubService.rejection
                  (repos gh (fst (GitHubService.ownerAndRepo (GH.full_name r)) ++ "/"
                             ++ snd (GitHubService.ownerAndRepo (GH.full_name r))))
                <> None) ->
       exists w',
         GitHubService.getRepositoryById gh repoId w
         = (Return (List.length (memory w)), w')
         /\ observe (GitHubService.getRepositoryById gh repoId w) = Return (Some d)
         /\ collection w' = collection w).
Proof.
  split.
  - intros repoId forceSync w d e Hfind Hdue Hrej.
    destruct (getRepoById_stale gh repoId forceSync w d e Hfind Hdue Hrej)
      as [w' [Hrun [Hmem [Hcoll _]]]].
    exists w'. rewrite Hrun. cbn [observe]. rewrite Hmem.
    split; [reflexivity |]. split; [reflexivity | exact Hcoll].
  - intros repoId gid w d Hparse Hfind Hstale Hfail.
    destruct (getRepositoryById_stale gh repoId gid w d Hparse Hfind Hstale Hfail)
      as [w' [Hrun [Hmem [_ Hcoll]]]].
    exists w'. rewrite Hrun. cbn [observe]. rewrite Hmem.
    split; [reflexivity |]. split; [reflexivity | exact Hcoll].
Qed.

(** Both paths, 25 hours after the last synchronisation, GitHub out of
    reach. *)
Lemma stale_fallback_witness :
  observe (RepoService.getRepoById Sample.offline 1 false
             (Sample.cachedAt (25 * Sample.hour)))
  = Return (Some (set_syncError (Some "Failed to connect to GitHub API") Sample.cached))
  /\ observe (GitHubService.getRepositoryById Sample.offline "42"
                (Sample.cachedAt (25 * Sample.hour)))
     = Return (Some Sample.cached).
Proof.
  destruct (stale_fallback Sample.offline) as [Hlocal Hpoint]. split.
  - destruct (Hlocal 1%N false (Sample.cachedAt (25 * Sample.hour)) Sample.cached
                (ApiError.internal "Failed to connect to GitHub API")
                eq_refl eq_refl eq_refl) as [w' [_ [Hseen _]]].
    exact Hseen.
  - edestruct (Hpoint "42" 42 (Sample.cachedAt (25 * Sample.hour)) Sample.cached
                 eq_refl eq_refl eq_refl) as [w' [_ [Hseen _]]];
      [left; cbn; discriminate | exact Hseen].
Defined.

(** ** Running the upsert *)

Lemma noErrors_markValid_dates (errors : list Path) :
  noErrors (markValid githubPushedAt_path
              (markValid githubUpdatedAt_path
                 (markValid githubCreatedAt_path errors)))
  = forallb isDatePath errors.
Proof.
  induction errors as [| p rest IH]; [reflexivity |].
  destruct p; cbn in IH |- *; try exact IH; reflexivity.
Qed.

Lemma noErrors_dates {A B C} (c1 : Cast A) (c2 : Cast B) (c3 : Cast C)
  (errors : list Path) :
  noErrors (casting githubPushedAt_path c3
              (casting githubUpdatedAt_path c2
                 (casting githubCreatedAt_path c1 errors)))
  = (casts c1 && casts c2 && casts c3 && forallb isDatePath errors)%bool.
Proof.
  destruct c1, c2, c3; cbn [casting casts andb];
    try apply noErrors_markValid_dates; try reflexivity.
Qed.

Lemma validate_updateFromGitHub (t : Z) (r : GH.repo) (d : RepoSnapshot) :
  validate (updateFromGitHub t r d) = (acceptable r && keepsValid d)%bool.
Proof.
  unfold validate, acceptable, keepsValid.
  cbn [updateFromGitHub ownerLogin name fullName htmlUrl description readme aiSummary
       aiComplexityLevel castErrors].
  rewrite noErrors_dates.
  destruct (required (Js.trim (GH.login (GH.owner r)))); [| reflexivity].
  destruct (required (Js.trim (GH.name r))); [| reflexivity].
  destruct (required (Js.trim (GH.full_name r))); [| reflexivity].
  destruct (required (GH.html_url r)); [| reflexivity].
  destruct (withinLength 1000 (trimmed (GH.description r))); [| reflexivity].
  cbn [andb].
  destruct (withinLength 50000 (readme d)); cbn [andb]; [| rewrite !andb_false_r; reflexivity].
  destruct (withinLength 2000 (aiSummary d)); cbn [andb]; [| rewrite !andb_false_r; reflexivity].
  destruct (validLevel (aiComplexityLevel d)); cbn [andb];
    [reflexivity | rewrite !andb_false_r; reflexivity].
Qed.

(** A second assignment of the same dates finds the cast errors of the
    first, and leaves them. *)
Lemma casting_dates_again {A B C} (c1 : Cast A) (c2 : Cast B) (c3 : Cast C)
  (errors : list Path) :
  let once e :=
    casting githubPushedAt_path c3
      (casting githubUpdatedAt_path c2 (casting githubCreatedAt_path c1 e)) in
  once (once errors) = once errors.
Proof.
  cbv zeta.
  destruct c1, c2, c3; cbn [casting]; unfold invalidate, markValid;
    (induction errors as [| p rest IH];
     [reflexivity | destruct p; cbn in IH |- *; congruence]).
Qed.

Lemma castOr_again {A} (c : Cast A) (old : A) : castOr c (castOr c old) = castOr c old.
Proof. destruct c; reflexivity. Qed.

(** A second [updateFromGitHub] with the same fields makes of the document
    what it makes of the one before the first. *)
Lemma updateFromGitHub_again (t1 t2 : Z) (fields : GH.repo) (d : RepoSnapshot) :
  updateFromGitHub t2 fields (updateFromGitHub t1 fields d)
  = updateFromGitHub t2 fields d.
Proof.
  unfold updateFromGitHub at 1 3.
  cbn [updateFromGitHub _id githubId languages githubCreatedAt githubUpdatedAt
       githubPushedAt readme readmeFetchedAt aiSummary aiTechStack aiComplexityLevel
       aiRoleFit aiGeneratedAt castErrors].
  rewrite !castOr_again.
  rewrite (casting_dates_again (castDate (GH.created_at fields))
             (castDate (GH.updated_at fields)) (castDate (GH.pushed_at fields))
             (castErrors d)).
  reflexivity.
Qed.

Lemma validate_keepsValid (d : RepoSnapshot) :
  validate d = true -> keepsValid d = true.
Proof.
  unfold validate, keepsValid. intro H.
  repeat (apply andb_true_iff in H; destruct H as [H ?]).
  destruct (castErrors d); [| discriminate].
  repeat (apply andb_true_iff; split); try assumption; reflexivity.
Qed.

Lemma validate_noErrors (d : RepoSnapshot) :
  validate d = true -> castErrors d = [].
Proof.
  unfold validate. intro H. apply andb_true_iff in H. destruct H as [_ H].
  destruct (castErrors d); [reflexivity | discriminate H].
Qed.

Lemma findOrCreate_existing (gid : Z) (data : GH.repo) (w : World) (d : RepoSnapshot) :
  find (fun x => githubId x =? gid) (collection w) = Some d ->
  let d1 := updateFromGitHub (clock w) data d in
  findOrCreateFromGitHub gid data w =
    if validate d1
    then (Return (List.length (memory w)),
          withCollection (put d1 (collection w)) (withMemory (memory w ++ [d1]) w))
    else (Throw validationError, withMemory (memory w ++ [d1]) w).
Proof.
  intros Hfind d1.
  unfold findOrCreateFromGitHub, findOneByGithubId, bind at 1.
  rewrite (findFirst_found _ _ _ Hfind).
  unfold bind at 1, updateFromGitHub_on, bind at 1, now at 1.
  erewrite assign_at by (wsimpl; apply nth_error_snoc).
  wsimpl. rewrite replaceNth_snoc. fold d1.
  unfold bind at 1.
  erewrite save_at by (wsimpl; apply nth_error_snoc).
  destruct (validate d1); reflexivity.
Qed.

Lemma findOrCreate_missing (gid : Z) (data : GH.repo) (w : World) :
  find (fun x => githubId x =? gid) (collection w) = None ->
  let d1 := updateFromGitHub (clock w) data (newSnapshot (nextOid w) gid (clock w)) in
  let w1 := withMemory (memory w ++ [d1]) (withNextOid (N.succ (nextOid w)) w) in
  findOrCreateFromGitHub gid data w =
    if validate d1
    then (Return (List.length (memory w)), withCollection (put d1 (collection w)) w1)
    else (Throw validationError, w1).
Proof.
  intros Hfind d1 w1.
  unfold findOrCreateFromGitHub, findOneByGithubId, bind at 1.
  rewrite (findFirst_missing _ _ Hfind).
  unfold bind at 1, construct, allocate. wsimpl.
  unfold bind at 1, updateFromGitHub_on, bind at 1, now at 1.
  erewrite assign_at by (wsimpl; apply nth_error_snoc).
  wsimpl. rewrite replaceNth_snoc. fold d1.
  unfold bind at 1.
  erewrite save_at by (wsimpl; apply nth_error_snoc).
  destruct (validate d1); reflexivity.
Qed.


Lemma put_put (a b : RepoSnapshot) (l : list RepoSnapshot) :
  _id a = _id b -> put b (put a l) = put b l.
Proof.
  intro Hid. induction l as [| x l IH]; cbn.
  - rewrite Hid, N.eqb_refl. reflexivity.
  - destruct (N.eqb (_id x) (_id a)) eqn:Hx; cbn.
    + rewrite Hid, N.eqb_refl. rewrite Hid in Hx. rewrite Hx. reflexivity.
    + rewrite Hid in Hx. rewrite Hx. rewrite IH. reflexivity.
Qed.

Lemma getRepoByGitHubId_missing (gh : GitHub) (gid : Z) (w : World) :
  find (fun x => githubId x =? gid) (collection w) = None ->
  RepoService.getRepoByGitHubId gh gid w =
    (Throw (ApiError.notFound "Repository not found. Use fullName to fetch from GitHub."),
     w).
Proof.
  intro Hfind.
  unfold RepoService.getRepoByGitHubId, findOneByGithubId, bind at 1.
  rewrite (findFirst_missing _ _ Hfind). reflexivity.
Qed.


(** ** The collection under [put] *)

Lemma stored_put (oid : N) (b : RepoSnapshot) (docs : list RepoSnapshot) :
  stored oid (put b docs) = if N.eqb (_id b) oid then Some b else stored oid docs.
Proof.
  unfold stored. induction docs as [| x rest IH]; cbn.
  - destruct (N.eqb (_id b) oid); reflexivity.
  - destruct (N.eqb (_id x) (_id b)) eqn:Hxb; cbn.
    + apply N.eqb_eq in Hxb. rewrite Hxb.
      destruct (N.eqb (_id b) oid); reflexivity.
    + destruct (N.eqb (_id x) oid) eqn:Hxo.
      * apply N.eqb_eq in Hxo. subst oid.
        rewrite N.eqb_sym, Hxb. reflexivity.
      * exact IH.
Qed.

Lemma put_fresh (b : RepoSnapshot) (docs : list RepoSnapshot) :
  ~ In (_id b) (map _id docs) -> put b docs = (docs ++ [b])%list.
Proof.
  induction docs as [| x rest IH]; cbn; intro Hfresh; [reflexivity |].
  destruct (N.eqb (_id x) (_id b)) eqn:Hxb.
  - apply N.eqb_eq in Hxb. exfalso. apply Hfresh. left. exact Hxb.
  - rewrite IH; [reflexivity |]. intro Hin. apply Hfresh. right. exact Hin.
Qed.

Lemma put_replaces (a b : RepoSnapshot) (docs : list RepoSnapshot) :
  NoDup (map _id docs) -> In a docs -> _id b = _id a ->
  exists before after,
    docs = (before ++ a :: after)%list
    /\ put b docs = (before ++ b :: after)%list.
Proof.
  intros Hnodup Hin Hid. induction docs as [| x rest IH]; [contradiction |].
  cbn in Hnodup. inversion Hnodup as [| ? ? Hx Hrest]; subst.
  destruct Hin as [-> | Hin].
  - exists [], rest. split; [reflexivity |]. cbn. rewrite Hid, N.eqb_refl. reflexivity.
  - destruct (IH Hrest Hin) as [before [after [Hdocs Hput]]].
    exists (x :: before), after. split; [cbn; rewrite Hdocs; reflexivity |].
    cbn. destruct (N.eqb (_id x) (_id b)) eqn:Hxb.
    + apply N.eqb_eq in Hxb. exfalso. apply Hx.
      rewrite Hxb, Hid. apply in_map. exact Hin.
    + rewrite Hput. reflexivity.
Qed.

Lemma find_member (p : RepoSnapshot -> bool) (docs : list RepoSnapshot) (d : RepoSnapshot) :
  find p docs = Some d -> In d docs /\ p d = true.
Proof. apply find_some. Qed.

Lemma find_absent (gid : Z) (docs : list RepoSnapshot) :
  find (fun x => githubId x =? gid) docs = None -> ~ In gid (map githubId docs).
Proof.
  intros Hfind Hin. apply in_map_iff in Hin. destruct Hin as [x [Hgid Hin]].
  pose proof (find_none _ _ Hfind x Hin) as Hx. cbn in Hx.
  rewrite Hgid, Z.eqb_refl in Hx. discriminate Hx.
Qed.

Lemma withGithubId_absent (gid : Z) (docs : list RepoSnapshot) :
  ~ In gid (map githubId docs) -> filter (fun d => githubId d =? gid) docs = [].
Proof.
  induction docs as [| x rest IH]; cbn; intro Hnot; [reflexivity |].
  destruct (Z.eqb_spec (githubId x) gid) as [Heq | Hne].
  - exfalso. apply Hnot. left. exact Heq.
  - apply IH. intro Hin. apply Hnot. right. exact Hin.
Qed.

(** With one document per identifier, the documents with the identifier of
    a stored document are that document alone, also once it is replaced by
    one with the same identifier. *)
Lemma withGithubId_single (a b : RepoSnapshot) (before after : list RepoSnapshot) :
  NoDup (map githubId (before ++ a :: after)) ->
  githubId b = githubId a ->
  withGithubId (githubId a) (before ++ b :: after) = [b].
Proof.
  intros Hnodup Hgid.
  rewrite map_app in Hnodup. cbn in Hnodup.
  pose proof (NoDup_remove_2 _ _ _ Hnodup) as Hnotin.
  unfold withGithubId. rewrite filter_app. cbn [filter].
  rewrite Hgid, Z.eqb_refl.
  rewrite (withGithubId_absent (githubId a) before)
    by (intro Hin; apply Hnotin; apply in_or_app; left; exact Hin).
  rewrite (withGithubId_absent (githubId a) after)
    by (intro Hin; apply Hnotin; apply in_or_app; right; exact Hin).
  reflexivity.
Qed.

Lemma NoDup_snoc {A} (l : list A) (x : A) :
  NoDup l -> ~ In x l -> NoDup (l ++ [x]).
Proof.
  induction l as [| y l IH]; cbn; intros Hnodup Hnot.
  - constructor; [intros [] | constructor].
  - inversion Hnodup as [| ? ? Hy Hl]; subst. constructor.
    + intro Hin. apply in_app_or in Hin. destruct Hin as [Hin | [Heq | []]].
      * apply Hy. exact Hin.
      * apply Hnot. left. symmetry. exact Heq.
    + apply IH; [exact Hl |]. intro Hin. apply Hnot. right. exact Hin.
Qed.

Lemma fresh_oid (w : World) :
  Forall (fun d => (_id d < nextOid w)%N) (collection w) ->
  ~ In (nextOid w) (map _id (collection w)).
Proof.
  intros Hbelow Hin. apply in_map_iff in Hin. destruct Hin as [x [Hid Hin]].
  rewrite Forall_forall in Hbelow. specialize (Hbelow x Hin). lia.
Qed.

(** ** Upsert ([findOrCreateFromGitHub]) *)

(** The upsert of an identifier that is stored: the stored document gives
    way to its update, in place. *)
Lemma upsert_stored (gid : Z) (fields : GH.repo) (w : World) (d : RepoSnapshot) :
  consistent w -> acceptable fields = true ->
  find (fun x => githubId x =? gid) (collection w) = Some d ->
  let d1 := updateFromGitHub (clock w) fields d in
  exists before after,
    collection w = (before ++ d :: after)%list
    /\ findOrCreateFromGitHub gid fields w
       = (Return (List.length (memory w)),
          withCollection (before ++ d1 :: after) (withMemory (memory w ++ [d1]) w))
    /\ consistent
         (withCollection (before ++ d1 :: after) (withMemory (memory w ++ [d1]) w)).
Proof.
  intros [Hids [Hbelow [Hgids Hvalid]]] Hok Hfind d1.
  destruct (find_member _ _ _ Hfind) as [Hin Hgid].
  destruct (put_replaces d d1 (collection w) Hids Hin eq_refl)
    as [before [after [Hdocs Hput]]].
  exists before, after. split; [exact Hdocs |].
  assert (Hd : validate d = true).
  { rewrite Forall_forall in Hvalid. apply Hvalid. exact Hin. }
  assert (Hd1 : validate d1 = true).
  { unfold d1. rewrite validate_updateFromGitHub, Hok. cbn [andb].
    apply validate_keepsValid. exact Hd. }
  split.
  - rewrite (findOrCreate_existing gid fields w d Hfind). fold d1.
    rewrite Hd1, Hput. reflexivity.
  - unfold consistent. wsimpl. rewrite Hdocs in Hids, Hbelow, Hgids, Hvalid.
    rewrite !map_app in Hids, Hgids. rewrite !map_app. cbn [map] in *.
    split; [exact Hids |]. split; [| split; [exact Hgids |]].
    + apply Forall_app in Hbelow. destruct Hbelow as [Hb1 Hb2].
      inversion Hb2; subst. apply Forall_app. split; [exact Hb1 |].
      constructor; assumption.
    + apply Forall_app in Hvalid. destruct Hvalid as [Hv1 Hv2].
      inversion Hv2; subst. apply Forall_app. split; [exact Hv1 |].
      constructor; assumption.
Qed.

(** The upsert of an identifier that is not stored: a new document, with a
    fresh [_id], goes to the end of the collection. *)
Lemma upsert_new (gid : Z) (fields : GH.repo) (w : World) :
  consistent w -> acceptable fields = true ->
  find (fun x => githubId x =? gid) (collection w) = None ->
  let d1 := updateFromGitHub (clock w) fields (newSnapshot (nextOid w) gid (clock w)) in
  let w1 := withCollection (collection w ++ [d1])
              (withMemory (memory w ++ [d1]) (withNextOid (N.succ (nextOid w)) w)) in
  findOrCreateFromGitHub gid fields w = (Return (List.length (memory w)), w1)
  /\ consistent w1.
Proof.
  intros [Hids [Hbelow [Hgids Hvalid]]] Hok Hfind d1 w1.
  pose proof (fresh_oid w Hbelow) as Hfresh.
  assert (Hd1 : validate d1 = true).
  { unfold d1. rewrite validate_updateFromGitHub, Hok. reflexivity. }
  split.
  - rewrite (findOrCreate_missing gid fields w Hfind). fold d1.
    rewrite Hd1. rewrite put_fresh by exact Hfresh. reflexivity.
  - unfold consistent, w1. wsimpl. rewrite !map_app. cbn [map].
    split; [apply NoDup_snoc; assumption |].
    split; [| split].
    + apply Forall_app. split.
      * eapply Forall_impl; [| exact Hbelow]. cbn. intros x Hx. lia.
      * constructor; [cbn; lia | constructor].
    + apply NoDup_snoc; [exact Hgids |]. apply find_absent. exact Hfind.
    + apply Forall_app. split; [exact Hvalid |]. constructor; [exact Hd1 | constructor].
Qed.

Lemma consistent_same (w1 w2 : World) :
  collection w1 = collection w2 -> nextOid w1 = nextOid w2 ->
  consistent w1 -> consistent w2.
Proof. unfold consistent. intros <- <- H. exact H. Qed.

Lemma find_put_same (p : RepoSnapshot -> bool) (d b : RepoSnapshot)
  (docs : list RepoSnapshot) :
  find p docs = Some d -> _id b = _id d -> p b = true ->
  find p (put b docs) = Some b.
Proof.
  intros Hfind Hid Hb. induction docs as [| x rest IH]; [discriminate Hfind |].
  cbn in Hfind |- *. destruct (N.eqb (_id x) (_id b)) eqn:Hxb.
  - cbn. rewrite Hb. reflexivity.
  - cbn. destruct (p x) eqn:Hx.
    + injection Hfind as ->. rewrite Hid, N.eqb_refl in Hxb. discriminate Hxb.
    + apply IH. exact Hfind.
Qed.

Lemma find_put_new (p : RepoSnapshot -> bool) (b : RepoSnapshot)
  (docs : list RepoSnapshot) :
  find p docs = None -> p b = true -> find p (put b docs) = Some b.
Proof.
  intros Hfind Hb. induction docs as [| x rest IH]; cbn in Hfind |- *.
  - rewrite Hb. reflexivity.
  - destruct (p x) eqn:Hx; [discriminate Hfind |].
    destruct (N.eqb (_id x) (_id b)); cbn.
    + rewrite Hb. reflexivity.
    + rewrite Hx. apply IH. exact Hfind.
Qed.

Lemma validate_stored (w : World) (d : RepoSnapshot) (fields : GH.repo) (t : Z) :
  consistent w -> In d (collection w) -> acceptable fields = true ->
  validate (updateFromGitHub t fields d) = true.
Proof.
  intros [_ [_ [_ Hvalid]]] Hin Hok.
  rewrite Forall_forall in Hvalid. specialize (Hvalid d Hin).
  rewrite validate_updateFromGitHub, Hok. cbn [andb].
  apply validate_keepsValid. exact Hvalid.
Qed.

(** ** Writes that keep the collection consistent *)

Lemma put_In (d : RepoSnapshot) (docs : list RepoSnapshot) : In d (put d docs).
Proof.
  induction docs as [| x rest IH]; cbn; [left; reflexivity |].
  destruct (N.eqb (_id x) (_id d)); [left; reflexivity | right; exact IH].
Qed.

Lemma stored_In (oid : N) (docs : list RepoSnapshot) (d : RepoSnapshot) :
  stored oid docs = Some d -> In d docs /\ _id d = oid.
Proof.
  intro H. apply find_some in H. destruct H as [Hin Hid].
  split; [exact Hin | apply N.eqb_eq; exact Hid].
Qed.

(** A valid document written over the stored document it has the [_id] and
    the [githubId] of. *)
Lemma consistent_replace (w : World) (d0 d : RepoSnapshot) :
  consistent w -> In d0 (collection w) ->
  _id d = _id d0 -> githubId d = githubId d0 -> validate d = true ->
  consistent (withCollection (put d (collection w)) w).
Proof.
  intros [Hids [Hbelow [Hgids Hvalid]]] Hin Hid Hgid Hd.
  destruct (put_replaces d0 d (collection w) Hids Hin Hid)
    as [before [after [Hdocs Hput]]].
  unfold consistent. wsimpl. rewrite Hput.
  rewrite Hdocs in Hids, Hbelow, Hgids, Hvalid.
  rewrite !map_app in Hids, Hgids. rewrite !map_app. cbn [map] in *.
  rewrite Hid, Hgid.
  split; [exact Hids |]. split; [| split; [exact Hgids |]].
  - apply Forall_app in Hbelow. destruct Hbelow as [Hb1 Hb2].
    inversion Hb2; subst. apply Forall_app. split; [exact Hb1 |].
    constructor; [rewrite Hid; assumption | assumption].
  - apply Forall_app in Hvalid. destruct Hvalid as [Hv1 Hv2].
    inversion Hv2; subst. apply Forall_app. split; [exact Hv1 |].
    constructor; assumption.
Qed.

(** Consistency looks at the collection and at the next [_id] only, and
    survives [_id]s being used up. *)
Lemma consistent_later (w1 w2 : World) :
  collection w2 = collection w1 -> (nextOid w1 <= nextOid w2)%N ->
  consistent w1 -> consistent w2.
Proof.
  unfold consistent. intros -> Hle [Hids [Hbelow [Hgids Hvalid]]].
  split; [exact Hids |]. split; [| split; assumption].
  eapply Forall_impl; [| exact Hbelow]. cbn. intros x Hx. lia.
Qed.

Lemma stored_of_In (docs : list RepoSnapshot) (d : RepoSnapshot) :
  NoDup (map _id docs) -> In d docs -> stored (_id d) docs = Some d.
Proof.
  unfold stored. induction docs as [| x rest IH]; intros Hids Hin; [destruct Hin |].
  cbn in Hids |- *. inversion Hids as [| ? ? Hnot Hrest]; subst.
  destruct Hin as [-> | Hin].
  - rewrite N.eqb_refl. reflexivity.
  - destruct (N.eqb (_id x) (_id d)) eqn:Hx; [| apply IH; assumption].
    exfalso. apply Hnot. apply N.eqb_eq in Hx. rewrite Hx. apply in_map. exact Hin.
Qed.

Lemma consistent_empty (t : Z) : consistent (Sample.emptyAt t).
Proof. repeat split; constructor. Qed.

Lemma consistent_cached (t : Z) : consistent (Sample.cachedAt t).
Proof.
  repeat split; cbn.
  - constructor; [intros [] | constructor].
  - constructor; [reflexivity | constructor].
  - constructor; [intros [] | constructor].
  - constructor; [reflexivity | constructor].
Qed.

(** ** [syncRepository] in full *)

Lemma syncRepository_steps (gh : GitHub) (owner repo : string) :
  GitHubService.syncRepository gh owner repo
  = tryCatch
      (ghRepo <- GitHubService.getRepository gh owner repo ;;
       savedRepo <- findOrCreateFromGitHub (GH.id ghRepo) ghRepo ;;
       completeSnapshot gh owner repo savedRepo)
      (fun error =>
         match statusCode error with
         | Some 404 =>
             throw (ApiError.notFound
                      ("Repository " ++ owner ++ "/" ++ repo ++ " not found on GitHub"))
         | _ => throw error
         end).
Proof. reflexivity. Qed.

Lemma same_memory (w : World) (m : list RepoSnapshot) :
  memory w = m -> withMemory m w = w.
Proof. intros <-. destruct w; reflexivity. Qed.

(** The README step of [completeSnapshot]. *)
Lemma completeSnapshot_readme (gh : GitHub) (owner repo : string) (w : World)
  (before : list RepoSnapshot) (d : RepoSnapshot) :
  memory w = (before ++ [d])%list ->
  lacksReadme d = true ->
  tryCatch
    (text <- GitHubService.getReadme gh owner repo ;;
     if truthyBody text then
       t <- now ;;
       assign (List.length before)
         (fun d => set_readmeFetchedAt (Some t) (assignReadme text d))
     else ret tt)
    (fun _ => ret tt) w
  = (Return tt,
     withMemory (before ++ [withReadme gh owner repo (clock w) d])
       (withSent (sent w ++ [GetReadme (owner ++ "/" ++ repo)]) w)).
Proof.
  intros Hmem Hlacks.
  unfold withReadme. rewrite Hlacks.
  unfold tryCatch, bind at 1, GitHubService.getReadme, tryCatch, bind at 1,
    GitHubService.get.
  destruct (readmes gh (owner ++ "/" ++ repo)) as [data | status msg |] eqn:Hreply.
  - unfold ret at 1.
    destruct (truthyBody (Some data)) eqn:Htruthy.
    + unfold bind at 1, now at 1.
      erewrite assign_at by (wsimpl; rewrite Hmem; apply nth_error_snoc). wsimpl.
      rewrite Hmem, replaceNth_snoc. reflexivity.
    + unfold ret. rewrite same_memory by exact Hmem. reflexivity.
  - unfold GitHubService.intercepted.
    destruct (status =? 404); [| destruct (status =? 403); [| destruct (status =? 401)]];
      cbn; unfold ret; rewrite same_memory by exact Hmem; reflexivity.
  - cbn. unfold ret. rewrite same_memory by exact Hmem. reflexivity.
Qed.

(** The languages step of [completeSnapshot]. *)
Lemma completeSnapshot_languages (gh : GitHub) (owner repo : string) (w : World)
  (before : list RepoSnapshot) (d : RepoSnapshot) :
  memory w = (before ++ [d])%list ->
  languages d = [] ->
  tryCatch
    (langs <- GitHubService.getLanguages gh owner repo ;;
     let totalBytes :=
       fold_left (fun sum b => (sum + b)%float) (map snd langs) 0%float in
     assign (List.length before)
       (assignLanguages
          (map (fun '(name, b) => (name, b, GitHubService.wholePercent totalBytes b))
               langs)))
    (fun _ => ret tt) w
  = (Return tt,
     withMemory (before ++ [withLanguages gh owner repo d])
       (withSent (sent w ++ [GetLanguages (owner ++ "/" ++ repo)]) w)).
Proof.
  intros Hmem Hnone.
  unfold withLanguages. rewrite Hnone.
  unfold tryCatch, bind at 1, GitHubService.getLanguages, GitHubService.get.
  destruct (languagesOf gh (owner ++ "/" ++ repo)) as [langs | status msg |] eqn:Hreply.
  - erewrite assign_at by (wsimpl; rewrite Hmem; apply nth_error_snoc). wsimpl.
    rewrite Hmem, replaceNth_snoc. reflexivity.
  - unfold ret. rewrite same_memory by exact Hmem. reflexivity.
  - unfold ret. rewrite same_memory by exact Hmem. reflexivity.
Qed.

(** What the two steps leave alone. *)
Lemma completed_identity (gh : GitHub) (owner repo : string) (t : Z) (d : RepoSnapshot) :
  _id (completed gh owner repo t d) = _id d
  /\ githubId (completed gh owner repo t d) = githubId d
  /\ lastSyncedAt (completed gh owner repo t d) = lastSyncedAt d
  /\ syncError (completed gh owner repo t d) = syncError d
  /\ fullName (completed gh owner repo t d) = fullName d.
Proof.
  unfold completed, withLanguages, withReadme.
  destruct (lacksReadme d).
  - destruct (readmes gh (owner ++ "/" ++ repo)) as [data | |].
    + destruct (truthyBody (Some data)).
      * cbn [languages set_readmeFetchedAt assignReadme set_castErrors set_readme].
        destruct (languages d); [| repeat split].
        destruct (languagesOf gh (owner ++ "/" ++ repo)); repeat split.
      * destruct (languages d); [| repeat split].
        destruct (languagesOf gh (owner ++ "/" ++ repo)); repeat split.
    + destruct (languages d); [| repeat split].
      destruct (languagesOf gh (owner ++ "/" ++ repo)); repeat split.
    + destruct (languages d); [| repeat split].
      destruct (languagesOf gh (owner ++ "/" ++ repo)); repeat split.
  - destruct (languages d); [| repeat split].
    destruct (languagesOf gh (owner ++ "/" ++ repo)); repeat split.
Qed.

Lemma languages_withReadme (gh : GitHub) (owner repo : string) (t : Z) (d : RepoSnapshot) :
  languages (withReadme gh owner repo t d) = languages d.
Proof.
  unfold withReadme. destruct (lacksReadme d); [| reflexivity].
  destruct (readmes gh (owner ++ "/" ++ repo)) as [data | |]; try reflexivity.
  destruct (truthyBody (Some data)); reflexivity.
Qed.

(** A document that has a README and languages is saved as it is. *)
Lemma completed_complete (gh : GitHub) (owner repo : string) (t : Z) (d : RepoSnapshot) :
  lacksReadme d = false -> languages d <> [] ->
  completed gh owner repo t d = d.
Proof.
  intros Hhas Hlangs. unfold completed, withReadme, withLanguages. rewrite Hhas.
  destruct (languages d); [exfalso; apply Hlangs; reflexivity | reflexivity].
Qed.

(** When the document that [completeSnapshot] saves passes validation. *)
Lemma validate_completed (gh : GitHub) (owner repo : string) (t : Z) (d : RepoSnapshot) :
  validate d = true ->
  validate (completed gh owner repo t d) = completes gh owner repo d.
Proof.
  intro Hvalid.
  pose proof (validate_noErrors d Hvalid) as Herrors.
  unfold validate in Hvalid.
  repeat (apply andb_true_iff in Hvalid; destruct Hvalid as [Hvalid ?]).
  unfold completes, completed, withLanguages, withReadme, readmeFits, languagesFit.
  destruct (lacksReadme d); cbn [negb orb].
  - destruct (readmes gh (owner ++ "/" ++ repo)) as [data | status msg |].
    + destruct (truthyBody (Some data)).
      * cbn [languages set_readmeFetchedAt assignReadme set_castErrors set_readme].
        destruct (languages d).
        -- destruct (languagesOf gh (owner ++ "/" ++ repo)) as [langs | |];
             unfold validate, assignLanguages;
             cbn [ownerLogin name fullName htmlUrl description readme aiSummary
                  aiComplexityLevel castErrors set_readmeFetchedAt assignReadme
                  set_castErrors set_readme set_languages];
             rewrite Herrors;
             repeat match goal with
                    | H : ?b = true |- context [?b] => rewrite H
                    end;
             cbn [andb];
             destruct data as [s | truthy [s |]]; cbn [castReadme castOr casting markValid
                                                        invalidate filter noErrors andb];
             try (destruct (numbersCast _)); cbn [markValid invalidate filter noErrors];
             rewrite ?andb_true_r, ?andb_false_r; reflexivity.
        -- unfold validate;
             cbn [ownerLogin name fullName htmlUrl description readme aiSummary
                  aiComplexityLevel castErrors set_readmeFetchedAt assignReadme
                  set_castErrors set_readme set_languages];
             rewrite Herrors;
             repeat match goal with
                    | H : ?b = true |- context [?b] => rewrite H
                    end;
             cbn [andb];
             destruct data as [s | truthy [s |]]; cbn [castReadme castOr casting markValid
                                                        invalidate filter noErrors andb];
             rewrite ?andb_true_r, ?andb_false_r; reflexivity.
      * destruct (languages d).
        -- destruct (languagesOf gh (owner ++ "/" ++ repo)) as [langs | |];
             unfold validate, assignLanguages;
             cbn [ownerLogin name fullName htmlUrl description readme aiSummary
                  aiComplexityLevel castErrors set_castErrors set_languages];
             rewrite ?Herrors;
             repeat match goal with
                    | H : ?b = true |- context [?b] => rewrite H
                    end;
             cbn [andb];
             try (destruct (numbersCast _)); cbn [markValid invalidate filter noErrors];
             reflexivity.
        -- unfold validate. rewrite Herrors.
           repeat match goal with
                  | H : ?b = true |- context [?b] => rewrite H
                  end.
           reflexivity.
    + destruct (languages d).
      * destruct (languagesOf gh (owner ++ "/" ++ repo)) as [langs | |];
          unfold validate, assignLanguages;
          cbn [ownerLogin name fullName htmlUrl description readme aiSummary
               aiComplexityLevel castErrors set_castErrors set_languages];
          rewrite ?Herrors;
          repeat match goal with
                 | H : ?b = true |- context [?b] => rewrite H
                 end;
          cbn [andb];
          try (destruct (numbersCast _)); cbn [markValid invalidate filter noErrors];
          reflexivity.
      * unfold validate. rewrite Herrors.
        repeat match goal with
               | H : ?b = true |- context [?b] => rewrite H
               end.
        reflexivity.
    + destruct (languages d).
      * destruct (languagesOf gh (owner ++ "/" ++ repo)) as [langs | |];
          unfold validate, assignLanguages;
          cbn [ownerLogin name fullName htmlUrl description readme aiSummary
               aiComplexityLevel castErrors set_castErrors set_languages];
          rewrite ?Herrors;
          repeat match goal with
                 | H : ?b = true |- context [?b] => rewrite H
                 end;
          cbn [andb];
          try (destruct (numbersCast _)); cbn [markValid invalidate filter noErrors];
          reflexivity.
      * unfold validate. rewrite Herrors.
        repeat match goal with
               | H : ?b = true |- context [?b] => rewrite H
               end.
        reflexivity.
  - destruct (languages d).
    + destruct (languagesOf gh (owner ++ "/" ++ repo)) as [langs | |];
        unfold validate, assignLanguages;
        cbn [ownerLogin name fullName htmlUrl description readme aiSummary
             aiComplexityLevel castErrors set_castErrors set_languages];
        rewrite ?Herrors;
        repeat match goal with
               | H : ?b = true |- context [?b] => rewrite H
               end;
        cbn [andb];
        try (destruct (numbersCast _)); cbn [markValid invalidate filter noErrors];
        reflexivity.
    + unfold validate. rewrite Herrors.
      repeat match goal with
             | H : ?b = true |- context [?b] => rewrite H
             end.
      reflexivity.
Qed.

(** [completeSnapshot] on the document object the upsert made. *)
Lemma completeSnapshot_runs (gh : GitHub) (owner repo : string) (w : World)
  (before : list RepoSnapshot) (d : RepoSnapshot) :
  memory w = (before ++ [d])%list ->
  let d' := completed gh owner repo (clock w) d in
  exists w',
    completeSnapshot gh owner repo (List.length before) w
    = ((if validate d' then Return (List.length before) else Throw validationError), w')
    /\ memory w' = (before ++ [d'])%list
    /\ nextOid w' = nextOid w
    /\ clock w' = clock w
    /\ collection w' = (if validate d' then put d' (collection w) else collection w)
    /\ sent w' = (sent w ++ completing owner repo d)%list.
Proof.
  intros Hmem d'.
  assert (Hat : nth_error (memory w) (List.length before) = Some d)
    by (rewrite Hmem; apply nth_error_snoc).
  assert (Hend : forall w2 d2,
             memory w2 = (before ++ [d2])%list ->
             exists w',
               (d0 <- read (List.length before) ;;
                (match languages d0 with
                 | [] =>
                     tryCatch
                       (langs <- GitHubService.getLanguages gh owner repo ;;
                        let totalBytes :=
                          fold_left (fun sum b => (sum + b)%float) (map snd langs) 0%float in
                        assign (List.length before)
                          (assignLanguages
                             (map (fun '(name, b) =>
                                     (name, b, GitHubService.wholePercent totalBytes b))
                                  langs)))
                       (fun _ => ret tt)
                 | _ :: _ => ret tt
                 end) ;;;
                save (List.length before) ;;;
                ret (List.length before)) w2
               = ((if validate (withLanguages gh owner repo d2)
                   then Return (List.length before) else Throw validationError), w')
               /\ memory w' = (before ++ [withLanguages gh owner repo d2])%list
               /\ nextOid w' = nextOid w2
               /\ clock w' = clock w2
               /\ collection w' = (if validate (withLanguages gh owner repo d2)
                                   then put (withLanguages gh owner repo d2) (collection w2)
                                   else collection w2)
               /\ sent w' = (sent w2 ++ match languages d2 with
                                        | [] => [GetLanguages (owner ++ "/" ++ repo)]
                                        | _ :: _ => []
                                        end)%list).
  { intros w2 d2 Hmem2.
    assert (Hat2 : nth_error (memory w2) (List.length before) = Some d2)
      by (rewrite Hmem2; apply nth_error_snoc).
    unfold bind at 1. rewrite (read_at _ _ d2 Hat2).
    destruct (languages d2) as [| l rest] eqn:Hlangs.
    - unfold bind at 1.
      match goal with
      | |- context [tryCatch ?body ?handler w2] =>
          change (tryCatch body handler w2) with
            (tryCatch
               (langs <- GitHubService.getLanguages gh owner repo ;;
                let totalBytes :=
                  fold_left (fun sum b => (sum + b)%float) (map snd langs) 0%float in
                assign (List.length before)
                  (assignLanguages
                     (map (fun '(name, b) =>
                             (name, b, GitHubService.wholePercent totalBytes b))
                          langs)))
               (fun _ => ret tt) w2)
      end.
      rewrite (completeSnapshot_languages gh owner repo w2 before d2 Hmem2 Hlangs).
      unfold bind at 1.
      erewrite save_at by (wsimpl; apply nth_error_snoc).
      destruct (validate (withLanguages gh owner repo d2));
        eexists; (split; [reflexivity |]); wsimpl; repeat split.
    - assert (Hsame : withLanguages gh owner repo d2 = d2)
        by (unfold withLanguages; rewrite Hlangs; reflexivity).
      rewrite Hsame.
      unfold bind at 1, ret at 1. unfold bind at 1.
      rewrite (save_at _ _ d2 Hat2).
      destruct (validate d2); eexists; (split; [reflexivity |]); wsimpl;
        rewrite ?app_nil_r; repeat split; exact Hmem2. }
  unfold completeSnapshot, bind at 1. rewrite (read_at _ _ d Hat).
  unfold completing. subst d'. unfold completed.
  destruct (lacksReadme d) eqn:Hlacks.
  - unfold bind at 1.
    rewrite (completeSnapshot_readme gh owner repo w before d Hmem Hlacks).
    match goal with
    | |- context [bind (read _) _ ?w0] =>
        destruct (Hend w0 (withReadme gh owner repo (clock w) d) eq_refl)
          as [w' [Hrun [Hmem' [Hoid [Hclock [Hcoll Hsent]]]]]]
    end.
    wsimpl_in Hoid. wsimpl_in Hclock. wsimpl_in Hcoll. wsimpl_in Hsent.
    rewrite languages_withReadme in Hsent.
    exists w'. split; [exact Hrun |]. split; [exact Hmem' |]. split; [exact Hoid |].
    split; [exact Hclock |]. split; [exact Hcoll |].
    rewrite Hsent, <- app_assoc. reflexivity.
  - unfold bind at 1, ret at 1.
    assert (Hsame : withReadme gh owner repo (clock w) d = d)
      by (unfold withReadme; rewrite Hlacks; reflexivity).
    rewrite Hsame.
    destruct (Hend w d Hmem) as [w' [Hrun [Hmem' [Hoid [Hclock [Hcoll Hsent]]]]]].
    exists w'. split; [exact Hrun |]. split; [exact Hmem' |]. split; [exact Hoid |].
    split; [exact Hclock |]. split; [exact Hcoll |]. exact Hsent.
Qed.

(** The upsert on a consistent collection, whatever the fields. *)
Lemma upsert_runs (gid : Z) (fields : GH.repo) (w : World) :
  consistent w ->
  exists d0 w1,
    let d1 := updateFromGitHub (clock w) fields d0 in
    (find (fun x => githubId x =? gid) (collection w) = Some d0
     \/ (find (fun x => githubId x =? gid) (collection w) = None
         /\ d0 = newSnapshot (nextOid w) gid (clock w)))
    /\ findOrCreateFromGitHub gid fields w
       = ((if validate d1 then Return (List.length (memory w)) else Throw validationError),
          w1)
    /\ memory w1 = (memory w ++ [d1])%list
    /\ clock w1 = clock w
    /\ sent w1 = sent w
    /\ consistent w1
    /\ (if validate d1
        then In d1 (collection w1) /\ collection w1 = put d1 (collection w)
        else collection w1 = collection w).
Proof.
  intro Hcons.
  destruct (find (fun x => githubId x =? gid) (collection w)) as [d0 |] eqn:Hfind.
  - exists d0. cbv zeta.
    rewrite (findOrCreate_existing gid fields w d0 Hfind).
    destruct (validate (updateFromGitHub (clock w) fields d0)) eqn:Hvalid.
    + eexists. split; [left; reflexivity |]. split; [reflexivity |]. wsimpl.
      split; [reflexivity |]. split; [reflexivity |]. split; [reflexivity |].
      split; [| split; [apply put_In | reflexivity]].
      apply (consistent_same
               (withCollection (put (updateFromGitHub (clock w) fields d0) (collection w)) w));
        [reflexivity | reflexivity |].
      apply (consistent_replace w d0); try reflexivity; try assumption.
      apply (find_member _ _ _ Hfind).
    + eexists. split; [left; reflexivity |]. split; [reflexivity |]. wsimpl.
      split; [reflexivity |]. split; [reflexivity |]. split; [reflexivity |].
      split; [| reflexivity].
      apply (consistent_same w); [reflexivity | reflexivity | exact Hcons].
  - exists (newSnapshot (nextOid w) gid (clock w)). cbv zeta.
    rewrite (findOrCreate_missing gid fields w Hfind).
    destruct (validate (updateFromGitHub (clock w) fields
                          (newSnapshot (nextOid w) gid (clock w)))) eqn:Hvalid.
    + eexists. split; [right; split; reflexivity |]. split; [reflexivity |]. wsimpl.
      split; [reflexivity |]. split; [reflexivity |]. split; [reflexivity |].
      split; [| split; [apply put_In | reflexivity]].
      assert (Hok : acceptable fields = true).
      { rewrite validate_updateFromGitHub in Hvalid.
        apply andb_true_iff in Hvalid. apply Hvalid. }
      destruct (upsert_new gid fields w Hcons Hok Hfind) as [_ Hnew].
      cbv zeta in Hnew.
      rewrite put_fresh by (apply fresh_oid; apply Hcons).
      revert Hnew. apply consistent_same; reflexivity.
    + eexists. split; [right; split; reflexivity |]. split; [reflexivity |]. wsimpl.
      split; [reflexivity |]. split; [reflexivity |]. split; [reflexivity |].
      split; [| reflexivity].
      apply (consistent_later w); [reflexivity | wsimpl; lia | exact Hcons].
Qed.

(** [syncRepository] on a consistent collection when GitHub has the
    repository: the document is upserted, completed and saved. *)
Lemma syncRepository_runs (gh : GitHub) (owner repo : string) (w : World) (r : GH.repo) :
  consistent w ->
  repos gh (owner ++ "/" ++ repo) = Success r ->
  exists d0 w',
    let d1 := updateFromGitHub (clock w) r d0 in
    let d3 := completed gh owner repo (clock w) d1 in
    (find (fun x => githubId x =? GH.id r) (collection w) = Some d0
     \/ (find (fun x => githubId x =? GH.id r) (collection w) = None
         /\ d0 = newSnapshot (nextOid w) (GH.id r) (clock w)))
    /\ consistent w'
    /\ clock w' = clock w
    /\ GitHubService.syncRepository gh owner repo w
       = ((if (validate d1 && validate d3)%bool
           then Return (List.length (memory w)) else Throw validationError), w')
    /\ (if validate d1
        then sent w' = (sent w ++ GetRepo (owner ++ "/" ++ repo) :: completing owner repo d1)%list
             /\ memory w' = (memory w ++ [d3])%list
             /\ (if validate d3
                 then In d3 (collection w') /\ collection w' = put d3 (put d1 (collection w))
                 else In d1 (collection w') /\ collection w' = put d1 (collection w))
        else sent w' = (sent w ++ [GetRepo (owner ++ "/" ++ repo)])%list
             /\ collection w' = collection w
             /\ memory w' = (memory w ++ [d1])%list).
Proof.
  intros Hcons Hreply.
  assert (Hcons0 : consistent (withSent (sent w ++ [GetRepo (owner ++ "/" ++ repo)]) w))
    by (revert Hcons; apply consistent_same; reflexivity).
  destruct (upsert_runs (GH.id r) r _ Hcons0)
    as [d0 [w1 [Hfind [Hup [Hmem1 [Hclock1 [Hsent1 [Hcons1 Hcoll1]]]]]]]].
  cbv zeta in Hup, Hmem1, Hcoll1. wsimpl_in Hfind. wsimpl_in Hup. wsimpl_in Hmem1.
  wsimpl_in Hclock1. wsimpl_in Hsent1. wsimpl_in Hcoll1.
  set (d1 := updateFromGitHub (clock w) r d0) in *.
  assert (Hsync :
            GitHubService.syncRepository gh owner repo w
            = let (c, w2) :=
                if validate d1
                then completeSnapshot gh owner repo (List.length (memory w)) w1
                else (Throw validationError, w1) in
              match c with
              | Return a => (Return a, w2)
              | Throw e =>
                  match statusCode e with
                  | Some 404 =>
                      throw (ApiError.notFound
                               ("Repository " ++ owner ++ "/" ++ repo
                                ++ " not found on GitHub"))
                  | _ => throw e
                  end w2
              end).
  { rewrite syncRepository_steps.
    unfold tryCatch, bind at 1, GitHubService.getRepository.
    rewrite Hreply, get_success.
    unfold bind at 1. rewrite Hup. destruct (validate d1); reflexivity. }
  destruct (validate d1) eqn:Hvalid1.
  - destruct (completeSnapshot_runs gh owner repo w1 (memory w) d1 Hmem1)
      as [w' [Hrun [Hmem' [Hoid' [Hclock' [Hcoll' Hsent']]]]]].
    cbv zeta in Hrun, Hmem', Hcoll'. rewrite Hclock1 in Hrun, Hmem', Hcoll'.
    set (d3 := completed gh owner repo (clock w) d1) in *.
    rewrite Hrun in Hsync. destruct Hcoll1 as [Hin1 Hput1].
    exists d0, w'. cbv zeta. fold d1. fold d3. rewrite Hvalid1. cbn [andb].
    split; [exact Hfind |].
    destruct (validate d3) eqn:Hvalid3.
    + split; [| split; [rewrite Hclock'; exact Hclock1 |]].
      * apply (consistent_same (withCollection (collection w') w1));
          [reflexivity | symmetry; exact Hoid' |].
        rewrite Hcoll'.
        apply (consistent_replace w1 d1); try assumption.
        -- apply (completed_identity gh owner repo (clock w) d1).
        -- apply (completed_identity gh owner repo (clock w) d1).
      * split; [exact Hsync |].
        split; [rewrite Hsent', Hsent1, <- app_assoc; reflexivity |].
        split; [exact Hmem' |]. rewrite Hcoll'.
        split; [apply put_In | rewrite Hput1; reflexivity].
    + split; [| split; [rewrite Hclock'; exact Hclock1 |]].
      * apply (consistent_same w1); [symmetry; exact Hcoll' | symmetry; exact Hoid' | exact Hcons1].
      * split; [exact Hsync |].
        split; [rewrite Hsent', Hsent1, <- app_assoc; reflexivity |].
        split; [exact Hmem' |]. rewrite Hcoll'. split; [exact Hin1 | exact Hput1].
  - exists d0, w1. cbv zeta. fold d1. rewrite Hvalid1. cbn [andb].
    split; [exact Hfind |].
    split; [exact Hcons1 |]. split; [exact Hclock1 |].
    split; [exact Hsync |]. split; [exact Hsent1 | split; [exact Hcoll1 | exact Hmem1]].
Qed.

Lemma find_put_by_githubId (gid : Z) (d0 d1 : RepoSnapshot) (w : World) :
  (find (fun x => githubId x =? gid) (collection w) = Some d0
   \/ (find (fun x => githubId x =? gid) (collection w) = None
       /\ d0 = newSnapshot (nextOid w) gid (clock w))) ->
  _id d1 = _id d0 -> githubId d1 = githubId d0 ->
  find (fun x => githubId x =? gid) (put d1 (collection w)) = Some d1.
Proof.
  intros [Hfind | [Hfind ->]] Hid Hgid.
  - apply (find_put_same _ d0); [exact Hfind | exact Hid |].
    cbn. rewrite Hgid. apply (find_member _ _ _ Hfind).
  - apply find_put_new; [exact Hfind |]. cbn. rewrite Hgid. apply Z.eqb_refl.
Qed.

(** ** Cold miss (C2) *)




(** ** Bulk synchronisation (C3) *)


(** [resumed] is [syncRepository] once the first request is out. *)
Lemma syncRepository_resumed (gh : GitHub) (owner repo : string) (w : World) :
  GitHubService.syncRepository gh owner repo w
  = resumed gh owner repo (withSent (sent w ++ [GetRepo (owner ++ "/" ++ repo)]) w).
Proof.
  rewrite syncRepository_steps.
  unfold resumed, tryCatch, bind at 1, GitHubService.getRepository, GitHubService.get.
  unfold bind at 3.
  destruct (repos gh (owner ++ "/" ++ repo)); reflexivity.
Qed.

Lemma inTurn_length {A} (calls : list (Async A)) (w : World) :
  List.length (fst (inTurn calls w)) = List.length calls.
Proof.
  revert w. induction calls as [| call rest IH]; intro w; [reflexivity |].
  cbn [inTurn]. destruct (call w) as [outcome w1].
  specialize (IH w1). destruct (inTurn rest w1) as [outcomes w2].
  cbn [fst List.length] in *. rewrite IH. reflexivity.
Qed.

(** In [startedTogether] every target has its outcome, and a single target
    settles as its synchronisation does when it runs alone. *)
Lemma startedTogether_length (gh : GitHub) (repositories : list (string * string))
  (calls : list (Async Ref)) (w : World) :
  List.length (fst (startedTogether gh repositories calls w)) = List.length repositories.
Proof.
  unfold startedTogether. rewrite inTurn_length. apply length_map.
Qed.

Lemma startedTogether_alone (gh : GitHub) (owner repo : string)
  (calls : list (Async Ref)) (w : World) :
  startedTogether gh [(owner, repo)] calls w
  = ([fst (GitHubService.syncRepository gh owner repo w)],
     snd (GitHubService.syncRepository gh owner repo w)).
Proof.
  rewrite syncRepository_resumed. unfold startedTogether. cbn [map inTurn].
  destruct (resumed gh owner repo _) as [outcome w1]. reflexivity.
Qed.




(** ** Freshness (C4) *)

(** C4, counterexample. A snapshot synchronised two hours ago is older than
    the one-hour window of the point lookup, yet [needsSync] answers [false]:
    its window is 24 hours. *)
Lemma needsSync_after_two_hours :
  let now := 1793577600000 in
  let snapshot :=
    updateFromGitHub (now - 2 * Sample.hour) Sample.widget
      (newSnapshot 1 42 (now - 2 * Sample.hour)) in
  lastSyncedAt snapshot = Some (now - 2 * Sample.hour)
  /\ needsSync now snapshot = false.
Proof. split; reflexivity. Qed.

(** C4, amended. [needsSync] is true exactly when [lastSyncedAt] is
    missing or more than 24 hours old; the point lookup [getRepositoryById]
    takes a snapshot as fresh exactly when [lastSyncedAt] is present and less
    than one hour old. So a snapshot synchronised just now needs no refresh
    under either, and one synchronised two hours ago is refreshed by the
    point lookup but not by [needsSync]. *)
Theorem freshness_windows (now : Z) (d : RepoSnapshot) :
  (needsSync now d = true <->
     lastSyncedAt d = None
     \/ exists t, lastSyncedAt d = Some t /\ 24 * 3600000 < now - t)
  /\ (GitHubService.fresh now d = false <->
        lastSyncedAt d = None
        \/ exists t, lastSyncedAt d = Some t /\ 1 * 3600000 <= now - t)
  /\ (lastSyncedAt d = Some now ->
        needsSync now d = false /\ GitHubService.fresh now d = true)
  /\ (lastSyncedAt d = Some (now - 2 * 3600000) ->
        needsSync now d = false /\ GitHubService.fresh now d = false).
Proof.
  unfold needsSync, GitHubService.fresh.
  destruct (lastSyncedAt d) as [t |].
  - rewrite hours_above, hours_below. repeat split.
    + intro H. right. exists t. split; [reflexivity |]. apply Z.ltb_lt. exact H.
    + intros [H | [t' [E H]]]; [discriminate H |]. injection E as <-.
      apply Z.ltb_lt. exact H.
    + intro H. right. exists t. split; [reflexivity |]. apply Z.ltb_ge. exact H.
    + intros [H | [t' [E H]]]; [discriminate H |]. injection E as <-.
      apply Z.ltb_ge. exact H.
    + injection H as ->. apply Z.ltb_ge. lia.
    + injection H as ->. apply Z.ltb_lt. lia.
    + injection H as ->. apply Z.ltb_ge. lia.
    + injection H as ->. apply Z.ltb_ge. lia.
  - repeat split; try discriminate; intros; left; reflexivity.
Qed.

(** A snapshot synchronised at the current time, and one synchronised two
    hours before. *)
Lemma freshness_windows_witness :
  let now := 1793577600000 in
  (needsSync now (set_lastSyncedAt (Some now) Sample.cached) = false
   /\ GitHubService.fresh now (set_lastSyncedAt (Some now) Sample.cached) = true)
  /\ (needsSync now (set_lastSyncedAt (Some (now - 2 * 3600000)) Sample.cached) = false
      /\ GitHubService.fresh now (set_lastSyncedAt (Some (now - 2 * 3600000)) Sample.cached)
         = false).
Proof.
  intro now. split.
  - destruct (freshness_windows now (set_lastSyncedAt (Some now) Sample.cached))
      as [_ [_ [Hnow _]]].
    apply Hnow. reflexivity.
  - destruct (freshness_windows now
                (set_lastSyncedAt (Some (now - 2 * 3600000)) Sample.cached))
      as [_ [_ [_ Hago]]].
    apply Hago. reflexivity.
Defined.

(** ** Language shares (C5) *)

Lemma noErrors_invalidate (p : Path) (errors : list Path) :
  noErrors (invalidate p errors) = false.
Proof. reflexivity. Qed.

Lemma noErrors_markValid (p : Path) (errors : list Path) :
  noErrors errors = true -> noErrors (markValid p errors) = true.
Proof. destruct errors; [reflexivity | discriminate]. Qed.

(** What [save] makes of an assignment to [languages]: numbers that all
    cast keep a valid document valid, and one that does not cast makes
    the document invalid. *)
Lemma validate_assignLanguages (entries : list (string * float * float))
  (d : RepoSnapshot) :
  (numbersCast entries = true -> validate d = true ->
     validate (assignLanguages entries d) = true)
  /\ (numbersCast entries = false -> validate (assignLanguages entries d) = false).
Proof.
  unfold validate, assignLanguages.
  cbn [set_castErrors set_languages ownerLogin name fullName htmlUrl description readme
       aiSummary aiComplexityLevel castErrors].
  split; intros ->.
  - intro H. apply andb_true_iff in H. destruct H as [-> H].
    rewrite (noErrors_markValid _ _ H). reflexivity.
  - rewrite noErrors_invalidate. apply andb_false_r.
Qed.

(** Numbers that all cast are the numbers of the entries. *)
Lemma castEntry_numbersCast (share : float -> float) (data : GH.languages) :
  numbersCast (map (fun '(n, b) => (n, b, share b)) data) = true ->
  map castEntry (map (fun '(n, b) => (n, b, share b)) data)
  = map (fun '(n, b) => mkLanguage n (Some b) (Some (share b))) data.
Proof.
  induction data as [| [n b] rest IH]; [reflexivity |].
  cbn [map numbersCast forallb]. intro H.
  apply andb_true_iff in H. destruct H as [H Hrest].
  apply andb_true_iff in H. destruct H as [Hb Hshare].
  rewrite (IH Hrest). unfold castEntry, castNumber in *.
  destruct (PrimFloat.is_nan b); [discriminate Hb |].
  destruct (PrimFloat.is_nan (share b)); [discriminate Hshare |].
  reflexivity.
Qed.

(** C5, counterexample. For byte counts 1 and 2, [loadLanguages] yields the
    shares 33.3 and 66.7 (the doubles nearest to them), not the whole
    percents 33 and 67 that [round(bytes / total * 100)] gives. *)
Lemma loadLanguages_keeps_one_decimal :
  exists shares w',
    RepoService.loadLanguages (Sample.serving (Success Sample.oneAndTwo)) 1
      (Sample.cachedAt 0) = (Return shares, w')
    /\ map percentage shares = [Some (333 / 10)%float; Some (667 / 10)%float]
    /\ map languages (collection w') = [shares]
    /\ map (fun '(_, b) => Js.Math_round (b / (1 + 2) * 100)%float) Sample.oneAndTwo
       = [33%float; 67%float]
    /\ PrimFloat.eqb (333 / 10) 33 = false
    /\ PrimFloat.eqb (667 / 10) 67 = false.
Proof.
  eexists. eexists. split; [vm_compute; reflexivity |].
  repeat split; vm_compute; reflexivity.
Qed.

(** The other path that computes shares, [syncRepository], rounds the same
    byte counts to whole percents. *)
Lemma syncRepository_whole_percents :
  exists w',
    GitHubService.syncRepository (Sample.serving (Success Sample.oneAndTwo))
      "acme" "widget" (Sample.emptyAt 0) = (Return 0%nat, w')
    /\ map (fun d => map percentage (languages d)) (collection w')
       = [[Some 33%float; Some 67%float]].
Proof. eexists. split; vm_compute; reflexivity. Qed.

(** A byte map whose counts add up to zero: the share is [0 / 0], which is
    no number; the entry returned has its byte count and no share, the
    [save] fails, and the stored snapshot stays without languages. *)
Lemma loadLanguages_no_bytes :
  exists w',
    RepoService.loadLanguages (Sample.serving (Success Sample.noBytes)) 1
      (Sample.cachedAt 0)
    = (Return [mkLanguage "A" (Some 0%float) None], w')
    /\ collection w' = [Sample.cached]
    /\ languages Sample.cached = [].
Proof. eexists. split; [vm_compute; reflexivity |]. split; reflexivity. Qed.

(** C5, amended. When a snapshot has no cached languages and GitHub answers
    with a byte map, [loadLanguages] sends one request and returns one entry
    per language, in the order of the map, with the name as fetched. When
    every byte count and every share [Math.round(bytes / total * 100 * 10) /
    10] is a number, the entry has the byte count as fetched and that share,
    which is rounded to one decimal place, and the list is stored when the
    snapshot was valid. When one of them is not a number (a total of zero
    bytes makes the share [0 / 0]), the entry is returned without it and
    nothing is stored. *)
Theorem loadLanguages_percentages (gh : GitHub) (repoId : N) (w : World)
  (d : RepoSnapshot) (data : GH.languages) :
  find (fun x => N.eqb (_id x) repoId) (collection w) = Some d ->
  languages d = [] ->
  languagesOf gh (ownerLogin d ++ "/" ++ name d) = Success data ->
  let totalBytes := fold_left (fun a b => (a + b)%float) (map snd data) 0%float in
  let share b := (Js.Math_round (b / totalBytes * 100 * 10) / 10)%float in
  let entries := map (fun '(n, b) => (n, b, share b)) data in
  exists shares w',
    RepoService.loadLanguages gh repoId w = (Return shares, w')
    /\ map lang_name shares = map fst data
    /\ sent w' = (sent w ++ [GetLanguages (ownerLogin d ++ "/" ++ name d)])%list
    /\ (numbersCast entries = true ->
          shares = map (fun '(n, b) => mkLanguage n (Some b) (Some (share b))) data
          /\ (validate d = true ->
                collection w' = put (assignLanguages entries d) (collection w)
                /\ languages (assignLanguages entries d) = shares))
    /\ (numbersCast entries = false ->
          shares = map castEntry entries
          /\ collection w' = collection w).
Proof.
  intros Hfind Hnone Hreply totalBytes share entries.
  exists (map castEntry entries).
  assert (Hrun : exists w',
             RepoService.loadLanguages gh repoId w = (Return (map castEntry entries), w')
             /\ sent w' = (sent w ++ [GetLanguages (ownerLogin d ++ "/" ++ name d)])%list
             /\ collection w' =
                  if validate (assignLanguages entries d)
                  then put (assignLanguages entries d) (collection w)
                  else collection w).
  { unfold RepoService.loadLanguages, findById, bind at 1.
    rewrite (findFirst_found _ _ _ Hfind).
    unfold bind at 1. rewrite (read_at _ _ d) by apply nth_error_snoc.
    rewrite Hnone.
    unfold tryCatch, GitHubService.getLanguages, bind at 1.
    rewrite Hreply, get_success.
    unfold bind at 1.
    erewrite assign_at by apply nth_error_snoc.
    wsimpl. rewrite replaceNth_snoc.
    unfold bind at 1.
    erewrite save_at by apply nth_error_snoc.
    wsimpl.
    change (RepoService.percentOneDecimal
              (fold_left (fun a b => (a + b)%float) (map snd data) 0%float))
      with share.
    fold entries.
    destruct (validate (assignLanguages entries d)).
    - unfold bind. erewrite read_at by apply nth_error_snoc.
      eexists. split; [reflexivity |]. split; reflexivity.
    - unfold bind. erewrite read_at by apply nth_error_snoc.
      eexists. split; [reflexivity |]. split; reflexivity. }
  destruct Hrun as [w' [Hrun [Hsent Hcoll]]].
  exists w'. split; [exact Hrun |].
  split.
  { unfold entries. rewrite !map_map. apply map_ext. intros [n b]. reflexivity. }
  split; [exact Hsent |].
  destruct (validate_assignLanguages entries d) as [Hcast Hnot].
  split.
  - intro Hnumbers. split; [apply castEntry_numbersCast; exact Hnumbers |].
    intro Hvalid. rewrite (Hcast Hnumbers Hvalid) in Hcoll.
    split; [exact Hcoll | reflexivity].
  - intro Hnumbers. split; [reflexivity |].
    rewrite (Hnot Hnumbers) in Hcoll. exact Hcoll.
Qed.

(** The bytes of the specification's example give 75 and 25, and they are
    stored. *)
Lemma loadLanguages_percentages_witness :
  find (fun x => N.eqb (_id x) 1) (collection (Sample.cachedAt 0)) = Some Sample.cached
  /\ languages Sample.cached = []
  /\ languagesOf (Sample.serving (Success Sample.goAndJs))
       (ownerLogin Sample.cached ++ "/" ++ name Sample.cached)
     = Success Sample.goAndJs
  /\ exists w',
       RepoService.loadLanguages (Sample.serving (Success Sample.goAndJs)) 1
         (Sample.cachedAt 0)
       = (Return [mkLanguage "Go" (Some 300%float) (Some 75%float);
                  mkLanguage "JS" (Some 100%float) (Some 25%float)], w')
       /\ map languages (collection w')
          = [[mkLanguage "Go" (Some 300%float) (Some 75%float);
              mkLanguage "JS" (Some 100%float) (Some 25%float)]].
Proof.
  split; [reflexivity |]. split; [reflexivity |]. split; [reflexivity |].
  destruct (loadLanguages_percentages (Sample.serving (Success Sample.goAndJs)) 1
              (Sample.cachedAt 0) Sample.cached Sample.goAndJs
              eq_refl eq_refl eq_refl) as [shares [w' [Hrun [_ [_ [Hcast _]]]]]].
  destruct (Hcast eq_refl) as [Hshares Hstored].
  destruct (Hstored eq_refl) as [Hcoll _].
  exists w'. split.
  - rewrite Hrun, Hshares. vm_compute. reflexivity.
  - rewrite Hcoll. vm_compute. reflexivity.
Defined.

(** ** Idempotent upsert (C6) *)

(** Whatever the collection and the fields: two upserts leave the
    collection, and complete, as the second of them alone would. *)
Lemma upsert_twice_once (gid : Z) (fields : GH.repo) (w : World) (t1 t2 : Z) :
  let first := findOrCreateFromGitHub gid fields (at_time t1 w) in
  let twice := findOrCreateFromGitHub gid fields (at_time t2 (snd first)) in
  let once := findOrCreateFromGitHub gid fields (at_time t2 w) in
  collection (snd twice) = collection (snd once)
  /\ observe twice = observe once.
Proof.
  intros first twice once.
  destruct (find (fun x => githubId x =? gid) (collection w)) as [d0 |] eqn:Hfind.
  - pose (d1 := updateFromGitHub t1 fields d0).
    pose (d2 := updateFromGitHub t2 fields d0).
    assert (Hsame : validate d1 = validate d2).
    { unfold d1, d2. rewrite !validate_updateFromGitHub. reflexivity. }
    assert (Hgid : (githubId d1 =? gid) = true).
    { destruct (find_member _ _ _ Hfind) as [_ H]. exact H. }
    unfold once. rewrite (findOrCreate_existing gid fields (at_time t2 w) d0 Hfind).
    wsimpl. fold d2.
    unfold twice, first.
    rewrite (findOrCreate_existing gid fields (at_time t1 w) d0 Hfind).
    wsimpl. fold d1. rewrite Hsame.
    destruct (validate d2) eqn:Hvalid; cbn [snd].
    + assert (Hfind1 : find (fun x => githubId x =? gid) (put d1 (collection w)) = Some d1)
        by (apply (find_put_same _ d0); [exact Hfind | reflexivity | exact Hgid]).
      match goal with
      | |- context [findOrCreateFromGitHub gid fields ?w0] =>
          rewrite (findOrCreate_existing gid fields w0 d1 Hfind1)
      end.
      wsimpl. unfold d1. rewrite updateFromGitHub_again. fold d1 d2. rewrite Hvalid.
      cbn [snd observe]. wsimpl. rewrite put_put by reflexivity.
      rewrite !nth_error_snoc. split; reflexivity.
    + match goal with
      | |- context [findOrCreateFromGitHub gid fields ?w0] =>
          rewrite (findOrCreate_existing gid fields w0 d0 Hfind)
      end.
      wsimpl. fold d2. rewrite Hvalid. split; reflexivity.
  - pose (b1 := updateFromGitHub t1 fields (newSnapshot (nextOid w) gid t1)).
    pose (b2 := updateFromGitHub t2 fields (newSnapshot (nextOid w) gid t2)).
    assert (Hsame : validate b1 = validate b2).
    { unfold b1, b2. rewrite !validate_updateFromGitHub. reflexivity. }
    unfold once. rewrite (findOrCreate_missing gid fields (at_time t2 w) Hfind).
    wsimpl. fold b2.
    unfold twice, first.
    rewrite (findOrCreate_missing gid fields (at_time t1 w) Hfind).
    wsimpl. fold b1. rewrite Hsame.
    destruct (validate b2) eqn:Hvalid; cbn [snd].
    + assert (Hfind1 : find (fun x => githubId x =? gid) (put b1 (collection w)) = Some b1)
        by (apply find_put_new; [exact Hfind | cbn; apply Z.eqb_refl]).
      match goal with
      | |- context [findOrCreateFromGitHub gid fields ?w0] =>
          rewrite (findOrCreate_existing gid fields w0 b1 Hfind1)
      end.
      wsimpl. unfold b1. rewrite updateFromGitHub_again. fold b1.
      change (updateFromGitHub t2 fields (newSnapshot (nextOid w) gid t1)) with b2. rewrite Hvalid.
      cbn [snd observe]. wsimpl. rewrite put_put by reflexivity.
      rewrite !nth_error_snoc. split; reflexivity.
    + match goal with
      | |- context [findOrCreateFromGitHub gid fields ?w0] =>
          rewrite (findOrCreate_missing gid fields w0 Hfind)
      end.
      wsimpl.
      assert (Hagain : validate (updateFromGitHub t2 fields
                                   (newSnapshot (N.succ (nextOid w)) gid t2)) = false).
      { rewrite <- Hvalid. unfold b2. rewrite !validate_updateFromGitHub. reflexivity. }
      rewrite Hagain. split; reflexivity.
Qed.

Lemma upsert_twice_consistent (gid : Z) (fields : GH.repo) (w : World) (t1 t2 : Z) :
  consistent w -> acceptable fields = true ->
  let first := findOrCreateFromGitHub gid fields (at_time t1 w) in
  let twice := findOrCreateFromGitHub gid fields (at_time t2 (snd first)) in
  let once := findOrCreateFromGitHub gid fields (at_time t2 w) in
  exists d1 d,
    observe first = Return (Some d1)
    /\ observe twice = Return (Some d)
    /\ observe once = Return (Some d)
    /\ collection (snd twice) = collection (snd once)
    /\ withGithubId gid (collection (snd twice)) = [d]
    /\ d = set_lastSyncedAt (Some t2) d1
    /\ consistent (snd twice).
Proof.
  intros Hcons Hok first twice once.
  assert (Hcons1 : consistent (at_time t1 w)) by exact Hcons.
  assert (Hcons2 : consistent (at_time t2 w)) by exact Hcons.
  destruct (find (fun x => githubId x =? gid) (collection w)) as [d0 |] eqn:Hfind.
  - (* the identifier is stored *)
    destruct (find_member _ _ _ Hfind) as [Hin Hgid].
    apply Z.eqb_eq in Hgid.
    pose (d1 := updateFromGitHub t1 fields d0).
    pose (d2 := updateFromGitHub t2 fields d0).
    assert (Hfirst : first
                     = (Return (List.length (memory w)),
                        withCollection (put d1 (collection w))
                          (withMemory (memory w ++ [d1]) (at_time t1 w)))).
    { unfold first. rewrite (findOrCreate_existing gid fields (at_time t1 w) d0 Hfind).
      wsimpl. fold d1. unfold d1.
      rewrite (validate_stored w d0 fields t1 Hcons Hin Hok). reflexivity. }
    assert (Honce : once
                    = (Return (List.length (memory w)),
                       withCollection (put d2 (collection w))
                         (withMemory (memory w ++ [d2]) (at_time t2 w)))).
    { unfold once. rewrite (findOrCreate_existing gid fields (at_time t2 w) d0 Hfind).
      wsimpl. fold d2. unfold d2.
      rewrite (validate_stored w d0 fields t2 Hcons Hin Hok). reflexivity. }
    assert (Hfind1 : find (fun x => githubId x =? gid) (put d1 (collection w)) = Some d1).
    { apply (find_put_same _ d0); [exact Hfind | reflexivity |].
      cbn. apply Z.eqb_eq. exact Hgid. }
    assert (Htwice : twice
                     = (Return (List.length (memory w ++ [d1])),
                        withCollection (put d2 (collection w))
                          (withMemory ((memory w ++ [d1]) ++ [d2])
                             (at_time t2 (snd first))))).
    { unfold twice. rewrite Hfirst. cbn [snd].
      match goal with
      | |- context [findOrCreateFromGitHub gid fields ?w0] =>
          rewrite (findOrCreate_existing gid fields w0 d1 Hfind1)
      end.
      wsimpl. unfold d1. rewrite updateFromGitHub_again. fold d1 d2.
      assert (Hd2 : validate d2 = true)
        by exact (validate_stored w d0 fields t2 Hcons Hin Hok).
      rewrite Hd2. rewrite put_put by reflexivity. reflexivity. }
    exists d1, d2. rewrite Hfirst, Htwice, Honce. cbn [observe snd]. wsimpl.
    rewrite !nth_error_snoc.
    split; [reflexivity |]. split; [reflexivity |]. split; [reflexivity |].
    split; [reflexivity |].
    destruct Hcons as [Hids [Hbelow [Hgids Hvalid]]].
    destruct (put_replaces d0 d2 (collection w) Hids Hin eq_refl)
      as [before [after [Hdocs Hput]]].
    split; [| split; [reflexivity |]].
    + rewrite Hput. rewrite <- Hgid. rewrite Hdocs in Hgids.
      apply withGithubId_single; [exact Hgids | reflexivity].
    + destruct (upsert_stored gid fields (at_time t2 w) d0 Hcons2 Hok Hfind)
        as [before' [after' [Hdocs' [Hrun Hcons']]]].
      fold once in Hrun. rewrite Honce in Hrun. injection Hrun as Hcoll.
      eapply consistent_same; [| | exact Hcons']; wsimpl.
      * symmetry. exact Hcoll.
      * rewrite Hfirst. reflexivity.
  - (* the identifier is new *)
    pose (b1 := updateFromGitHub t1 fields (newSnapshot (nextOid w) gid t1)).
    pose (b2 := updateFromGitHub t2 fields (newSnapshot (nextOid w) gid t2)).
    destruct (upsert_new gid fields (at_time t1 w) Hcons1 Hok Hfind) as [Hfirst Hconsf].
    destruct (upsert_new gid fields (at_time t2 w) Hcons2 Hok Hfind) as [Honce Hconso].
    fold first in Hfirst. fold once in Honce. wsimpl_in Hfirst. wsimpl_in Honce.
    fold b1 in Hfirst. fold b2 in Honce.
    wsimpl_in Hconsf. wsimpl_in Hconso. fold b1 in Hconsf. fold b2 in Hconso.
    assert (Hfind1 : find (fun x => githubId x =? gid) (collection w ++ [b1]) = Some b1).
    { destruct Hcons as [_ [Hbelow _]].
      rewrite <- (put_fresh b1 (collection w)) by (apply fresh_oid; exact Hbelow).
      apply find_put_new; [exact Hfind |]. cbn. apply Z.eqb_refl. }
    assert (Htwice : twice
                     = (Return (List.length (memory w ++ [b1])),
                        withCollection (collection w ++ [b2])
                          (withMemory ((memory w ++ [b1]) ++ [b2])
                             (at_time t2 (snd first))))).
    { unfold twice. rewrite Hfirst. cbn [snd].
      match goal with
      | |- context [findOrCreateFromGitHub gid fields ?w0] =>
          rewrite (findOrCreate_existing gid fields w0 b1 Hfind1)
      end.
      wsimpl. unfold b1. rewrite updateFromGitHub_again. fold b1.
      change (updateFromGitHub t2 fields (newSnapshot (nextOid w) gid t1)) with b2.
      assert (Hb2 : validate b2 = true).
      { unfold b2. rewrite validate_updateFromGitHub, Hok. reflexivity. }
      rewrite Hb2.
      destruct Hcons as [_ [Hbelow _]].
      rewrite <- (put_fresh b1 (collection w)) by (apply fresh_oid; exact Hbelow).
      rewrite put_put by reflexivity.
      rewrite (put_fresh b2 (collection w)) by (apply fresh_oid; exact Hbelow).
      reflexivity. }
    exists b1, b2. rewrite Hfirst, Htwice, Honce. cbn [observe snd]. wsimpl.
    rewrite !nth_error_snoc.
    split; [reflexivity |]. split; [reflexivity |]. split; [reflexivity |].
    split; [reflexivity |].
    split; [| split; [reflexivity |]].
    + unfold withGithubId. rewrite filter_app.
      rewrite (withGithubId_absent gid (collection w)) by (apply find_absent; exact Hfind).
      cbn. rewrite Z.eqb_refl. reflexivity.
    + eapply consistent_same; [| | exact Hconso]; wsimpl; [reflexivity |].
      rewrite Hfirst. reflexivity.
Qed.


(** C6, counterexample. The same identifier and the same fields, upserted
    into an empty collection and again an hour later: one stored record
    before and after, and its [lastSyncedAt] has moved from the time of the
    first call to the time of the second. A field drifts. *)
Lemma upsert_moves_lastSyncedAt :
  let first := findOrCreateFromGitHub 42 Sample.widget (Sample.emptyAt 0) in
  let twice := findOrCreateFromGitHub 42 Sample.widget (at_time Sample.hour (snd first)) in
  map githubId (collection (snd first)) = [42]
  /\ map githubId (collection (snd twice)) = [42]
  /\ map lastSyncedAt (collection (snd first)) = [Some 0]
  /\ map lastSyncedAt (collection (snd twice)) = [Some Sample.hour].
Proof. cbv zeta. repeat split; vm_compute; reflexivity. Qed.

(** C6, amended. Two upserts of the same identifier with the same fields,
    at times [t1] and [t2]: whatever the collection and the fields, the
    collection afterwards is the one a single upsert at [t2] leaves, and the
    second call completes as that single upsert does (with the same
    document, or with the same validation error). When the collection is
    consistent and the fields are acceptable (the validators accept them and
    the three dates cast), the document returned is stored, it is the only
    stored document with the identifier, and the collection is consistent
    again; between the two calls every field keeps its value but
    [lastSyncedAt], which holds the time of the latest call. *)
Theorem upsert_idempotent (gid : Z) (fields : GH.repo) (w : World) (t1 t2 : Z) :
  let first := findOrCreateFromGitHub gid fields (at_time t1 w) in
  let twice := findOrCreateFromGitHub gid fields (at_time t2 (snd first)) in
  let once := findOrCreateFromGitHub gid fields (at_time t2 w) in
  (collection (snd twice) = collection (snd once)
   /\ observe twice = observe once)
  /\ (consistent w -> acceptable fields = true ->
      exists d1 d,
        observe first = Return (Some d1)
        /\ observe twice = Return (Some d)
        /\ withGithubId gid (collection (snd twice)) = [d]
        /\ d = set_lastSyncedAt (Some t2) d1
        /\ consistent (snd twice)).
Proof.
  intros first twice once. split.
  - apply upsert_twice_once.
  - intros Hcons Hok.
    destruct (upsert_twice_consistent gid fields w t1 t2 Hcons Hok)
      as [d1 [d [Hfirst [Htwice [_ [_ [Hone [Hlater Hcons']]]]]]]].
    exists d1, d.
    split; [exact Hfirst |]. split; [exact Htwice |]. split; [exact Hone |].
    split; [exact Hlater | exact Hcons'].
Qed.



(** Twice into an empty collection, one second apart. *)
Lemma upsert_idempotent_witness :
  let first := findOrCreateFromGitHub 42 Sample.widget (Sample.emptyAt 0) in
  let twice := findOrCreateFromGitHub 42 Sample.widget (at_time 1000 (snd first)) in
  let once := findOrCreateFromGitHub 42 Sample.widget (Sample.emptyAt 1000) in
  exists d,
    observe twice = Return (Some d)
    /\ observe once = Return (Some d)
    /\ collection (snd twice) = collection (snd once)
    /\ withGithubId 42 (collection (snd twice)) = [d].
Proof.
  destruct (upsert_idempotent 42 Sample.widget (Sample.emptyAt 0) 0 1000)
    as [[Hcoll Hsame] Hstored].
  destruct (Hstored (consistent_empty 0) eq_refl) as [d1 [d [_ [Htwice [Hone _]]]]].
  exists d. split; [exact Htwice |].
  split; [exact (eq_trans (eq_sym Hsame) Htwice) |].
  split; [exact Hcoll | exact Hone].
Defined.

(** ** Identity under rename (C7) *)

(** C7. An upsert with the identifier of a stored snapshot, whatever full
    name its fields carry: the lookup by identifier then finds a document
    with the [_id] and the [githubId] it had, carrying the new full name (as
    the schema trims it) and the other fields of the payload; it is the only
    document with that identifier, and the collection has not grown. The
    upsert never consults [fullName]. *)
Theorem identity_survives_rename (fields : GH.repo) (w : World) (d : RepoSnapshot) :
  consistent w -> acceptable fields = true ->
  find (fun x => githubId x =? githubId d) (collection w) = Some d ->
  let after := snd (findOrCreateFromGitHub (githubId d) fields w) in
  exists d',
    find (fun x => githubId x =? githubId d) (collection after) = Some d'
    /\ stored (_id d) (collection after) = Some d'
    /\ _id d' = _id d
    /\ githubId d' = githubId d
    /\ fullName d' = Js.trim (GH.full_name fields)
    /\ d' = updateFromGitHub (clock w) fields d
    /\ withGithubId (githubId d) (collection after) = [d']
    /\ List.length (collection after) = List.length (collection w).
Proof.
  intros Hcons Hok Hfind after.
  destruct (find_member _ _ _ Hfind) as [Hin _].
  pose (d1 := updateFromGitHub (clock w) fields d).
  assert (Hafter : collection after = put d1 (collection w)).
  { unfold after. rewrite (findOrCreate_existing (githubId d) fields w d Hfind).
    fold d1. unfold d1.
    rewrite (validate_stored w d fields (clock w) Hcons Hin Hok). reflexivity. }
  destruct Hcons as [Hids [_ [Hgids _]]].
  destruct (put_replaces d d1 (collection w) Hids Hin eq_refl)
    as [before [rest [Hdocs Hput]]].
  exists d1. rewrite Hafter.
  split; [apply (find_put_same _ d); [exact Hfind | reflexivity | cbn; apply Z.eqb_refl] |].
  split; [rewrite stored_put; cbn; rewrite N.eqb_refl; reflexivity |].
  split; [reflexivity |]. split; [reflexivity |]. split; [reflexivity |].
  split; [reflexivity |]. split.
  - rewrite Hput. rewrite Hdocs in Hgids.
    apply withGithubId_single; [exact Hgids | reflexivity].
  - rewrite Hput, Hdocs. rewrite !length_app. reflexivity.
Qed.

(** The cached [acme/widget], upserted as [acme/gadget]. *)
Lemma identity_survives_rename_witness :
  fullName Sample.cached = "acme/widget"
  /\ exists d',
       find (fun x => githubId x =? 42)
         (collection (snd (findOrCreateFromGitHub 42 Sample.gadget (Sample.cachedAt 5))))
       = Some d'
       /\ _id d' = _id Sample.cached
       /\ githubId d' = 42
       /\ fullName d' = "acme/gadget".
Proof.
  split; [reflexivity |].
  destruct (identity_survives_rename Sample.gadget (Sample.cachedAt 5) Sample.cached
              (consistent_cached 5) eq_refl eq_refl)
    as [d' [Hfind [_ [Hid [Hgid [Hname _]]]]]].
  exists d'. split; [exact Hfind |]. split; [exact Hid |].
  split; [exact Hgid | exact Hname].
Defined.

(** ** Sync bookkeeping (C8) *)

Lemma syncRepo_fetched (gh : GitHub) (repo : Ref) (w : World) (d : RepoSnapshot)
  (data : GH.repo) :
  nth_error (memory w) repo = Some d ->
  repos gh (fullName d) = Success data ->
  let d1 := updateFromGitHub (clock w) data d in
  let w1 := withSent (sent w ++ [GetRepo (fullName d)]) w in
  RepoService.syncRepo gh repo w =
    if validate d1
    then (Return repo,
          withCollection (put d1 (collection w))
            (withMemory (replaceNth repo d1 (memory w)) w1))
    else (Throw validationError,
          withMemory
            (replaceNth repo (set_syncError (Some (message validationError)) d1)
               (replaceNth repo d1 (memory w)))
            w1).
Proof.
  intros Hmem Hreply d1 w1.
  unfold RepoService.syncRepo, tryCatch, bind at 1.
  rewrite (read_at _ _ _ Hmem).
  unfold GitHubService.getRepositoryByFullName, bind at 1.
  rewrite Hreply, get_success. fold w1.
  unfold bind at 1, updateFromGitHub_on, bind at 1, now at 1.
  rewrite (assign_at _ _ _ d) by exact Hmem.
  change (clock w1) with (clock w). fold d1.
  assert (Hmem1 : nth_error (memory (withMemory (replaceNth repo d1 (memory w1)) w1)) repo
                  = Some d1).
  { wsimpl. apply (nth_error_replaceNth _ _ _ d). exact Hmem. }
  unfold bind at 1. rewrite (save_at _ _ _ Hmem1).
  destruct (validate d1) eqn:Hvalid.
  - reflexivity.
  - unfold bind at 1. rewrite (assign_at _ _ _ d1) by exact Hmem1.
    unfold bind at 1.
    erewrite save_at
      by (wsimpl; apply (nth_error_replaceNth _ _ _ d1); wsimpl_in Hmem1; exact Hmem1).
    rewrite validate_set_syncError, Hvalid. reflexivity.
Qed.

(** C8. [syncRepo] on a document object that is an unmodified copy of its
    stored, valid document:
    - when the fetch fails, the error is thrown on, and the stored snapshot
      afterwards is the one before with [syncError] set to the message of the
      error: [lastSyncedAt] and every other field are as they were;
    - when the fetch succeeds with acceptable fields (the validators accept
      them and the three dates cast), the stored snapshot takes the fields of
      the payload, [lastSyncedAt] becomes the current time and [syncError]
      becomes [null];
    - no other stored snapshot changes;
    - so whenever the [lastSyncedAt] of a stored snapshot is not what it was,
      the fetch has succeeded, and that snapshot has the current time as
      [lastSyncedAt] and no [syncError]. *)
Theorem sync_bookkeeping (gh : GitHub) (repo : Ref) (w : World) (d : RepoSnapshot) :
  nth_error (memory w) repo = Some d ->
  stored (_id d) (collection w) = Some d ->
  validate d = true ->
  let outcome := RepoService.syncRepo gh repo w in
  let after := collection (snd outcome) in
  (forall e,
     GitHubService.rejection (repos gh (fullName d)) = Some e ->
     fst outcome = Throw e
     /\ stored (_id d) after = Some (set_syncError (Some (message e)) d)
     /\ lastSyncedAt (set_syncError (Some (message e)) d) = lastSyncedAt d)
  /\ (forall data,
        repos gh (fullName d) = Success data -> acceptable data = true ->
        fst outcome = Return repo
        /\ stored (_id d) after = Some (updateFromGitHub (clock w) data d)
        /\ lastSyncedAt (updateFromGitHub (clock w) data d) = Some (clock w)
        /\ syncError (updateFromGitHub (clock w) data d) = None)
  /\ (forall oid, oid <> _id d -> stored oid after = stored oid (collection w))
  /\ (forall oid x x',
        stored oid (collection w) = Some x ->
        stored oid after = Some x' ->
        lastSyncedAt x' <> lastSyncedAt x ->
        (exists data, repos gh (fullName d) = Success data)
        /\ lastSyncedAt x' = Some (clock w)
        /\ syncError x' = None).
Proof.
  intros Hmem Hstored Hvalid outcome after.
  assert (Hkeeps : keepsValid d = true) by exact (validate_keepsValid d Hvalid).
  assert (Hcases :
            (exists e, GitHubService.rejection (repos gh (fullName d)) = Some e
                       /\ fst outcome = Throw e
                       /\ after = put (set_syncError (Some (message e)) d) (collection w))
            \/ (exists data, repos gh (fullName d) = Success data
                             /\ acceptable data = true
                             /\ fst outcome = Return repo
                             /\ after = put (updateFromGitHub (clock w) data d)
                                          (collection w))
            \/ (exists data, repos gh (fullName d) = Success data
                             /\ acceptable data = false
                             /\ after = collection w)).
  { destruct (repos gh (fullName d)) as [data | status msg |] eqn:Hreply.
    - right. unfold after, outcome.
      rewrite (syncRepo_fetched gh repo w d data Hmem Hreply).
      rewrite validate_updateFromGitHub, Hkeeps, andb_true_r.
      destruct (acceptable data) eqn:Hok.
      + left. exists data. repeat split; try reflexivity; assumption.
      + right. exists data. repeat split; try reflexivity; assumption.
    - left. eexists. split; [reflexivity |]. unfold after, outcome.
      erewrite (syncRepo_rejected gh repo w d) by (try exact Hmem; rewrite Hreply; reflexivity).
      rewrite Hvalid. split; reflexivity.
    - left. eexists. split; [reflexivity |]. unfold after, outcome.
      erewrite (syncRepo_rejected gh repo w d) by (try exact Hmem; rewrite Hreply; reflexivity).
      rewrite Hvalid. split; reflexivity. }
  split; [| split; [| split]].
  - intros e He.
    destruct Hcases as [[e' [He' [Hthrow Hafter]]] | [[data [Hd _]] | [data [Hd _]]]];
      try (rewrite Hd in He; discriminate He).
    rewrite He in He'. injection He' as <-.
    split; [exact Hthrow |]. split; [| reflexivity].
    rewrite Hafter, stored_put. cbn. rewrite N.eqb_refl. reflexivity.
  - intros data Hdata Hok.
    destruct Hcases as [[e [He _]] | [[data' [Hd [_ [Hret Hafter]]]] | [data' [Hd [Hbad _]]]]].
    + rewrite Hdata in He. discriminate He.
    + rewrite Hdata in Hd. injection Hd as <-.
      split; [exact Hret |]. split; [| split; reflexivity].
      rewrite Hafter, stored_put. cbn. rewrite N.eqb_refl. reflexivity.
    + rewrite Hdata in Hd. injection Hd as <-. rewrite Hok in Hbad. discriminate Hbad.
  - intros oid Hoid.
    destruct Hcases as [[e [_ [_ Hafter]]] | [[data [_ [_ [_ Hafter]]]] | [data [_ [_ Hafter]]]]];
      rewrite Hafter; try reflexivity; rewrite stored_put; cbn;
      (destruct (N.eqb_spec (_id d) oid) as [Heq | _];
       [exfalso; apply Hoid; symmetry; exact Heq | reflexivity]).
  - intros oid x x' Hx Hx' Hmoved.
    destruct Hcases as [[e [_ [_ Hafter]]] | [[data [Hd [_ [_ Hafter]]]] | [data [_ [_ Hafter]]]]].
    + exfalso. apply Hmoved. rewrite Hafter, stored_put in Hx'. cbn in Hx'.
      destruct (N.eqb_spec (_id d) oid) as [Heq | _].
      * subst oid. rewrite Hstored in Hx. injection Hx as <-. injection Hx' as <-.
        reflexivity.
      * rewrite Hx in Hx'. injection Hx' as <-. reflexivity.
    + rewrite Hafter, stored_put in Hx'. cbn in Hx'.
      destruct (N.eqb_spec (_id d) oid) as [Heq | _].
      * injection Hx' as <-. split; [exists data; exact Hd |]. split; reflexivity.
      * exfalso. apply Hmoved. rewrite Hx in Hx'. injection Hx' as <-. reflexivity.
    + exfalso. apply Hmoved. rewrite Hafter, Hx in Hx'. injection Hx' as <-. reflexivity.
Qed.

(** The cached snapshot, loaded into memory 25 hours after its
    synchronisation: GitHub out of reach, then GitHub serving it. *)
Lemma sync_bookkeeping_witness :
  let w := withMemory [Sample.cached] (Sample.cachedAt (25 * Sample.hour)) in
  stored 1 (collection (snd (RepoService.syncRepo Sample.offline 0%nat w)))
  = Some (set_syncError (Some "Failed to connect to GitHub API") Sample.cached)
  /\ stored 1 (collection (snd (RepoService.syncRepo (Sample.serving NoResponse) 0%nat w)))
     = Some (updateFromGitHub (25 * Sample.hour) Sample.widget Sample.cached).
Proof.
  intro w. split.
  - destruct (sync_bookkeeping Sample.offline 0%nat w Sample.cached eq_refl eq_refl eq_refl)
      as [Hfailed _].
    destruct (Hfailed (ApiError.internal "Failed to connect to GitHub API") eq_refl)
      as [_ [Hstored _]].
    exact Hstored.
  - destruct (sync_bookkeeping (Sample.serving NoResponse) 0%nat w Sample.cached
                eq_refl eq_refl eq_refl) as [_ [Hfetched _]].
    destruct (Hfetched Sample.widget eq_refl eq_refl) as [_ [Hstored _]].
    exact Hstored.
Defined.

(** ** Sorting and paging *)

Section Sorting.

Context {A : Type} (noLater : A -> A -> bool).

Hypothesis total : forall a b, noLater a b = true \/ noLater b a = true.

Hypothesis transitive :
  forall a b c, noLater a b = true -> noLater b c = true -> noLater a c = true.

Let inOrder (a b : A) : Prop := noLater a b = true.

Lemma insertBy_permutation (x : A) (l : list A) :
  Permutation (insertBy noLater x l) (x :: l).
Proof.
  induction l as [| y rest IH]; cbn; [apply Permutation_refl |].
  destruct (noLater x y); [apply Permutation_refl |].
  eapply Permutation_trans; [apply perm_skip; exact IH | apply perm_swap].
Qed.

Lemma sortBy_permutation (l : list A) : Permutation (sortBy noLater l) l.
Proof.
  induction l as [| x rest IH]; cbn; [apply Permutation_refl |].
  eapply Permutation_trans; [apply insertBy_permutation |].
  apply perm_skip. exact IH.
Qed.

Lemma insertBy_head (x y : A) (l : list A) :
  inOrder y x -> HdRel inOrder y l -> HdRel inOrder y (insertBy noLater x l).
Proof.
  intros Hyx Hhd. destruct l as [| z rest]; cbn.
  - constructor. exact Hyx.
  - destruct (noLater x z); constructor; [exact Hyx |].
    inversion Hhd; subst. assumption.
Qed.

Lemma insertBy_sorted (x : A) (l : list A) :
  Sorted inOrder l -> Sorted inOrder (insertBy noLater x l).
Proof.
  induction 1 as [| y rest Hrest IH Hhd]; cbn.
  - constructor; constructor.
  - destruct (noLater x y) eqn:Hxy.
    + constructor; [constructor; assumption | constructor; exact Hxy].
    + constructor; [exact IH |].
      apply insertBy_head; [| exact Hhd].
      destruct (total x y) as [H | H]; [rewrite H in Hxy; discriminate Hxy | exact H].
Qed.

Lemma sortBy_sorted (l : list A) : StronglySorted inOrder (sortBy noLater l).
Proof.
  apply Sorted_StronglySorted.
  - intros a b c. apply transitive.
  - induction l as [| x rest IH]; cbn; [constructor | apply insertBy_sorted; exact IH].
Qed.

End Sorting.

Lemma StronglySorted_weaken {A} (R R' : A -> A -> Prop) (l : list A) :
  (forall a b, R a b -> R' a b) -> StronglySorted R l -> StronglySorted R' l.
Proof.
  intros Himp. induction 1 as [| x rest Hrest IH Hall]; constructor; [exact IH |].
  eapply Forall_impl; [| exact Hall]. intros b Hb. apply Himp. exact Hb.
Qed.

Lemma sortBy_key_descending {A} (key : A -> Z) (l : list A) :
  StronglySorted (fun a b => key b <= key a) (sortBy (fun a b => key b <=? key a) l).
Proof.
  eapply StronglySorted_weaken; [| apply sortBy_sorted].
  - intros a b H. apply Z.leb_le. exact H.
  - intros a b. destruct (Z.le_ge_cases (key b) (key a)) as [H | H];
      [left | right]; apply Z.leb_le; exact H.
  - intros a b c Hab Hbc. apply Z.leb_le. apply Z.leb_le in Hab, Hbc. lia.
Qed.

Lemma In_firstn {A} (n : nat) (l : list A) (x : A) : In x (firstn n l) -> In x l.
Proof.
  intro Hin. rewrite <- (firstn_skipn n l). apply in_or_app. left. exact Hin.
Qed.

Lemma In_skipn {A} (n : nat) (l : list A) (x : A) : In x (skipn n l) -> In x l.
Proof.
  intro Hin. rewrite <- (firstn_skipn n l). apply in_or_app. right. exact Hin.
Qed.

(** ** Search over the cached snapshots (C9) *)

(** C9, counterexample. Two public snapshots with the same name and the
    same description, one with 10 stars and one with 50: whatever the text
    index, it scores them alike. When it matches them, a search with a
    query through [searchLocalRepos] returns them in the order they are
    stored in, whichever it is: with the 10-star snapshot stored first, it
    comes first. Equal relevance is not broken by star count there, while
    [statics.searchRepos] puts the 50-star snapshot first in both cases. *)
Lemma searchLocalRepos_ignores_stars_under_a_query :
  let w := mkWorld [Sample.cached; Sample.cachedFork] 3 [] 0 [] in
  let w' := mkWorld [Sample.cachedFork; Sample.cached] 3 [] 0 [] in
  let found (outcome : Completion RepoService.LocalSearch * World) :=
    match fst outcome with
    | Return result => RepoService.ls_repos result
    | Throw _ => []
    end in
  (name Sample.cachedFork = name Sample.cached
   /\ description Sample.cachedFork = description Sample.cached
   /\ stars Sample.cached = 10
   /\ stars Sample.cachedFork = 50)
  /\ (forall textScore : string -> string -> option string -> Z,
        let hit := 0 <? textScore "widget" "widget" (Some "A widget") in
        found (RepoService.searchLocalRepos textScore (Some "widget") None
                 (Some 1) (Some 20) w)
        = (if hit then [Sample.cached; Sample.cachedFork] else [])
        /\ found (RepoService.searchLocalRepos textScore (Some "widget") None
                    (Some 1) (Some 20) w')
           = (if hit then [Sample.cachedFork; Sample.cached] else [])
        /\ fst (searchRepos textScore "widget" None (Some 20) w)
           = Return (if hit then [Sample.cachedFork; Sample.cached] else [])
        /\ fst (searchRepos textScore "widget" None (Some 20) w')
           = Return (if hit then [Sample.cachedFork; Sample.cached] else [])).
Proof.
  cbv zeta. split; [repeat split |].
  intro textScore.
  unfold RepoService.searchLocalRepos, searchRepos, cursorSkip, cursorLimit.
  cbn [fst collection Js.truthy Js.text Z.sub Z.mul Z.ltb Z.eqb Z.compare Z.abs
       Z.to_nat Z.opp Z.add Z.pos_sub filter].
  unfold textMatch, byScore, byScoreThenStars, score, languageIs.
  cbn [Js.truthy].
  change (name Sample.cached) with "widget".
  change (name Sample.cachedFork) with "widget".
  change (description Sample.cached) with (Some "A widget").
  change (description Sample.cachedFork) with (Some "A widget").
  change (isPrivate Sample.cached) with false.
  change (isPrivate Sample.cachedFork) with false.
  cbn [negb andb].
  destruct (0 <? textScore "widget" "widget" (Some "A widget")).
  - cbn [sortBy fold_right insertBy andb].
    change (name Sample.cached) with "widget".
    change (name Sample.cachedFork) with "widget".
    change (description Sample.cached) with (Some "A widget").
    change (description Sample.cachedFork) with (Some "A widget").
    change (stars Sample.cached) with 10.
    change (stars Sample.cachedFork) with 50.
    rewrite Z.leb_refl, Z.ltb_irrefl, Z.eqb_refl.
    cbn. repeat split.
  - repeat split.
Qed.

Lemma byScoreThenStars_sorted (textScore : string -> string -> option string -> Z)
  (q : string) (l : list RepoSnapshot) :
  StronglySorted
    (fun a b => score textScore q b < score textScore q a
                \/ (score textScore q b = score textScore q a /\ stars b <= stars a))
    (sortBy (byScoreThenStars textScore q) l).
Proof.
  eapply StronglySorted_weaken; [| apply sortBy_sorted].
  - intros a b H. unfold byScoreThenStars in H.
    apply orb_true_iff in H. destruct H as [H | H].
    + left. apply Z.ltb_lt. exact H.
    + right. apply andb_true_iff in H. destruct H as [H1 H2].
      split; [apply Z.eqb_eq; exact H1 | apply Z.leb_le; exact H2].
  - intros a b. unfold byScoreThenStars.
    destruct (Z.ltb_spec (score textScore q b) (score textScore q a));
      destruct (Z.ltb_spec (score textScore q a) (score textScore q b));
      destruct (Z.eqb_spec (score textScore q b) (score textScore q a));
      destruct (Z.eqb_spec (score textScore q a) (score textScore q b));
      destruct (Z.leb_spec (stars b) (stars a));
      destruct (Z.leb_spec (stars a) (stars b));
      cbn; try (left; reflexivity); try (right; reflexivity); lia.
  - intros a b c. unfold byScoreThenStars. intros Hab Hbc.
    apply orb_true_iff in Hab. apply orb_true_iff in Hbc. apply orb_true_iff.
    rewrite andb_true_iff in *. rewrite !Z.ltb_lt, !Z.eqb_eq, !Z.leb_le in *.
    lia.
Qed.

(** C9, amended.
    - [searchLocalRepos], for a page and a limit of at least 1, does not
      throw and leaves the world as it is. It ranks the snapshots that are
      not private, that match the query when there is one (a positive score
      of the text index over [name] and [description]) and that have the
      wanted language when one is given: by score, highest first, when
      there is a query, and by star count, highest first, when there is
      none. It returns the [limit] snapshots that follow the first
      [(page - 1) * limit] of that ranking, and the number of snapshots
      ranked as the total.
    - [statics.searchRepos] ranks the public snapshots that match the query
      by score and, among equal scores, by star count, highest first, and
      returns the first [limit] of them (20 when no limit is given); it has
      no page. *)
Theorem cached_search (textScore : string -> string -> option string -> Z) :
  (forall (query language : option string) (page limit : Z) (w : World),
     1 <= page -> 1 <= limit ->
     let q := Js.text query in
     let wanted d :=
       (negb (isPrivate d)
        && (if Js.truthy query then textMatch textScore q d else true)
        && languageIs language d)%bool in
     let key d := if Js.truthy query then score textScore q d else stars d in
     exists result ranked,
       RepoService.searchLocalRepos textScore query language (Some page) (Some limit) w
       = (Return result, w)
       /\ Permutation ranked (filter wanted (collection w))
       /\ StronglySorted (fun a b => key b <= key a) ranked
       /\ RepoService.ls_repos result
          = firstn (Z.to_nat limit) (skipn (Z.to_nat ((page - 1) * limit)) ranked)
       /\ Forall (fun d => isPrivate d = false) (RepoService.ls_repos result)
       /\ (Js.truthy query = true ->
           Forall (fun d => 0 < score textScore q d) (RepoService.ls_repos result))
       /\ RepoService.p_total (RepoService.ls_pagination result)
          = Some (Z.of_nat (List.length ranked)))
  /\ (forall (query : string) (language : option string) (limit : Z) (w : World),
        1 <= limit ->
        let wanted d :=
          (textMatch textScore query d && negb (isPrivate d)
           && languageIs language d)%bool in
        exists ranked,
          searchRepos textScore query language (Some limit) w
          = (Return (firstn (Z.to_nat limit) ranked), w)
          /\ Permutation ranked (filter wanted (collection w))
          /\ StronglySorted
               (fun a b => score textScore query b < score textScore query a
                           \/ (score textScore query b = score textScore query a
                               /\ stars b <= stars a))
               ranked).
Proof.
  split.
  - intros query language page limit w Hpage Hlimit q wanted key.
    set (matching := filter wanted (collection w)).
    set (ranked := if Js.truthy query
                   then sortBy (byScore textScore q) matching
                   else sortBy byStars matching).
    assert (Hperm : Permutation ranked matching).
    { unfold ranked. destruct (Js.truthy query); apply sortBy_permutation. }
    assert (Hsorted : StronglySorted (fun a b => key b <= key a) ranked).
    { unfold ranked, key. destruct (Js.truthy query).
      - apply (sortBy_key_descending (score textScore q)).
      - apply (sortBy_key_descending stars). }
    assert (Hwanted : forall d,
               In d (firstn (Z.to_nat limit) (skipn (Z.to_nat ((page - 1) * limit)) ranked)) ->
               wanted d = true).
    { intros d Hin. apply In_firstn, In_skipn in Hin.
      apply (Permutation_in _ Hperm) in Hin. apply filter_In in Hin. apply Hin. }
    eexists. exists ranked.
    split.
    + unfold RepoService.searchLocalRepos. fold q. fold wanted. fold matching.
      change (if Js.truthy query
              then sortBy (byScore textScore q) matching
              else sortBy byStars matching) with ranked.
      unfold cursorSkip, cursorLimit.
      destruct (Z.ltb_spec ((page - 1) * limit) 0) as [Hneg | _]; [nia |].
      destruct (Z.eqb_spec limit 0) as [Hzero | _]; [lia |].
      rewrite Z.abs_eq by lia. reflexivity.
    + cbn [RepoService.ls_repos RepoService.ls_pagination RepoService.p_total].
      split; [exact Hperm |]. split; [exact Hsorted |]. split; [reflexivity |].
      split; [| split].
      * apply Forall_forall. intros d Hin. specialize (Hwanted d Hin).
        unfold wanted in Hwanted.
        apply andb_true_iff in Hwanted. destruct Hwanted as [Hwanted _].
        apply andb_true_iff in Hwanted. destruct Hwanted as [Hpublic _].
        apply negb_true_iff. exact Hpublic.
      * intro Htruthy. apply Forall_forall. intros d Hin. specialize (Hwanted d Hin).
        unfold wanted in Hwanted. rewrite Htruthy in Hwanted.
        apply andb_true_iff in Hwanted. destruct Hwanted as [Hwanted _].
        apply andb_true_iff in Hwanted. destruct Hwanted as [_ Hmatch].
        apply Z.ltb_lt. exact Hmatch.
      * rewrite (Permutation_length Hperm). reflexivity.
  - intros query language limit w Hlimit wanted.
    exists (sortBy (byScoreThenStars textScore query) (filter wanted (collection w))).
    split; [| split].
    + unfold searchRepos, cursorLimit. fold wanted.
      destruct limit as [| p | p]; try lia. cbn [Z.eqb Z.abs]. reflexivity.
    + apply sortBy_permutation.
    + apply byScoreThenStars_sorted.
Qed.

(** Two sample snapshots with one name and one description, which every
    text index scores alike: a search for [widget] on page 1, and the same
    through [statics.searchRepos]. *)
Lemma cached_search_witness :
  let w := mkWorld [Sample.cached; Sample.cachedFork] 3 [] 0 [] in
  (exists result,
     RepoService.searchLocalRepos Sample.anything (Some "widget") None (Some 1) (Some 20) w
     = (Return result, w)
     /\ map stars (RepoService.ls_repos result) = [10; 50])
  /\ (exists found,
        searchRepos Sample.anything "widget" None (Some 20) w = (Return found, w)
        /\ map stars found = [50; 10]).
Proof.
  intro w. destruct (cached_search Sample.anything) as [Hlocal Hstatic]. split.
  - destruct (Hlocal (Some "widget") None 1 20 w) as [result [ranked [Hrun _]]];
      [lia | lia |].
    exists result. split; [exact Hrun |].
    vm_compute in Hrun. injection Hrun as <-. reflexivity.
  - destruct (Hstatic "widget" None 20 w) as [ranked [Hrun _]]; [lia |].
    remember (firstn (Z.to_nat 20) ranked) as found eqn:Hfound. clear Hfound.
    exists found. split; [exact Hrun |].
    vm_compute in Hrun. injection Hrun as <-. reflexivity.
Defined.

(** ** The guard of the remote search (C10) *)

Lemma searchRepositories_sends (gh : GitHub) (q : string) (language sort order : option string)
  (page perPage : option Z) (w : World) :
  exists rq, sent (snd (GitHubService.searchRepositories gh q language sort order page perPage w))
             = (sent w ++ [rq])%list.
Proof.
  unfold GitHubService.searchRepositories, bind, GitHubService.get.
  match goal with
  | |- context [searches gh ?a ?b ?c ?d ?e] =>
      exists (GetSearch a b c d e); destruct (searches gh a b c d e)
  end; reflexivity.
Qed.

Lemma bind_world {A B} (c : Async A) (k : A -> Async B) (w : World) :
  (forall a w1, snd (k a w1) = w1) ->
  snd (bind c k w) = snd (c w).
Proof.
  intro Hk. unfold bind. destruct (c w) as [[a | e] w1]; [apply Hk | reflexivity].
Qed.

(** C10. A missing query, or one whose trimmed length is below 2, is refused
    with a bad-request error and nothing is sent to GitHub; whenever
    [searchRepos] sends something, the trimmed query has at least 2
    characters, and then exactly one request goes out. *)
Theorem searchRepos_guard (gh : GitHub) (query language sort : option string)
  (page limit : option Z) (w : World) :
  let outcome := RepoService.searchRepos gh query language sort page limit w in
  ((query = None \/ exists q, query = Some q /\ Js.len (Js.trim q) < 2) ->
   outcome =
     (Throw (ApiError.badRequest "Search query must be at least 2 characters"), w))
  /\ (sent (snd outcome) <> sent w ->
      exists q, query = Some q /\ 2 <= Js.len (Js.trim q))
  /\ (forall q, query = Some q -> 2 <= Js.len (Js.trim q) ->
      exists rq, sent (snd outcome) = (sent w ++ [rq])%list).
Proof.
  cbv zeta. unfold RepoService.searchRepos.
  destruct query as [q |].
  - destruct (Z.ltb_spec (Js.len (Js.trim q)) 2) as [Hshort | Hlong].
    + rewrite orb_true_r. repeat split.
      * intros Hsame. exfalso. apply Hsame. reflexivity.
      * intros q' E Hq'. injection E as <-. lia.
    + assert (Htruthy : Js.truthy (Some q) = true).
      { destruct q; [| reflexivity]. cbv in Hlong. exfalso. apply Hlong. reflexivity. }
      rewrite Htruthy. cbn [negb orb]. repeat split.
      * intros [E | [q' [E Hq']]]; [discriminate E |]. injection E as <-. lia.
      * intros _. exists q. split; [reflexivity | exact Hlong].
      * intros q' E _.
        rewrite bind_world by reflexivity.
        apply searchRepositories_sends.
  - repeat split.
    + intros Hsame. exfalso. apply Hsame. reflexivity.
    + intros q E. discriminate E.
Qed.

(** A query of one letter between blanks is refused and nothing is sent; a
    query of two letters sends one request. *)
Lemma searchRepos_guard_witness :
  RepoService.searchRepos Sample.offline (Some " a ") None None None None (Sample.emptyAt 0)
  = (Throw (ApiError.badRequest "Search query must be at least 2 characters"),
     Sample.emptyAt 0)
  /\ exists rq,
       sent (snd (RepoService.searchRepos Sample.offline (Some "go") None None None None
                    (Sample.emptyAt 0)))
       = [rq].
Proof.
  split.
  - destruct (searchRepos_guard Sample.offline (Some " a ") None None None None
                (Sample.emptyAt 0)) as [Hrefused _].
    apply Hrefused. right. exists " a ". split; [reflexivity | vm_compute; reflexivity].
  - destruct (searchRepos_guard Sample.offline (Some "go") None None None None
                (Sample.emptyAt 0)) as [_ [_ Hsent]].
    destruct (Hsent "go" eq_refl) as [rq Hrq]; [vm_compute; discriminate |].
    exists rq. exact Hrq.
Defined.

(** * Further properties *)

(** ** The previews of a snapshot *)

Lemma prefix_length (n : nat) (s : string) :
  String.length (Js.prefix n s) = Nat.min n (String.length s).
Proof.
  revert s. induction n as [| n IH]; intros [| c rest]; cbn; try reflexivity.
  rewrite IH. reflexivity.
Qed.

Lemma append_length (a b : string) :
  String.length (a ++ b) = (String.length a + String.length b)%nat.
Proof. induction a as [| c a IH]; cbn; [reflexivity | rewrite IH; reflexivity]. Qed.

(** A text cut to [keep] characters and an ellipsis has [keep + 3]
    characters when it had more than that. *)
Lemma cut_length (keep : Z) (s : string) :
  0 <= keep -> keep + 3 < Js.len s ->
  Js.len (Js.substring0 keep s ++ "...") = keep + 3.
Proof.
  intros Hkeep Hlong. unfold Js.len, Js.substring0 in *.
  rewrite append_length, prefix_length. cbn [String.length]. lia.
Qed.

(** X1. [shortDescription] is missing exactly when the description is
    missing or empty; otherwise it never has more than 150 characters: it is
    the description itself when that has at most 150, and else its first 147
    characters followed by three dots, 150 characters in all. *)
Theorem shortDescription_bounded (d : RepoSnapshot) :
  (shortDescription d = None <-> Js.truthy (description d) = false)
  /\ (forall s, shortDescription d = Some s ->
       Js.len s <= 150
       /\ (Js.len (Js.text (description d)) <= 150 -> description d = Some s)
       /\ (150 < Js.len (Js.text (description d)) ->
           s = Js.substring0 147 (Js.text (description d)) ++ "..."
           /\ Js.len s = 150)).
Proof.
  unfold shortDescription.
  destruct (description d) as [text |] eqn:Hdesc; cbn [Js.truthy Js.text negb].
  - destruct text as [| c rest] eqn:Htext; cbn [negb].
    + split; [split; reflexivity | intros s H; discriminate H].
    + rewrite <- Htext.
      destruct (Z.leb_spec (Js.len text) 150) as [Hshort | Hlong].
      * split; [split; intro H; discriminate H |].
        intros s H. injection H as <-.
        split; [exact Hshort |]. split; [reflexivity | lia].
      * split; [split; intro H; discriminate H |].
        intros s H. injection H as <-.
        rewrite (cut_length 147 text) by lia.
        split; [lia |]. split; [lia |]. intros _. split; reflexivity.
  - split; [split; reflexivity | intros s H; discriminate H].
Qed.

(** X2. [readmePreview] is missing exactly when the README is missing or
    empty; otherwise it never has more than 500 characters: it is the README
    itself when that has at most 500, and else its first 497 characters
    followed by three dots, 500 characters in all. *)
Theorem readmePreview_bounded (d : RepoSnapshot) :
  (readmePreview d = None <-> Js.truthy (readme d) = false)
  /\ (forall s, readmePreview d = Some s ->
       Js.len s <= 500
       /\ (Js.len (Js.text (readme d)) <= 500 -> readme d = Some s)
       /\ (500 < Js.len (Js.text (readme d)) ->
           s = Js.substring0 497 (Js.text (readme d)) ++ "..."
           /\ Js.len s = 500)).
Proof.
  unfold readmePreview.
  destruct (readme d) as [text |] eqn:Hreadme; cbn [Js.truthy Js.text negb].
  - destruct text as [| c rest] eqn:Htext; cbn [negb].
    + split; [split; reflexivity | intros s H; discriminate H].
    + rewrite <- Htext.
      destruct (Z.leb_spec (Js.len text) 500) as [Hshort | Hlong].
      * split; [split; intro H; discriminate H |].
        intros s H. injection H as <-.
        split; [exact Hshort |]. split; [reflexivity | lia].
      * split; [split; intro H; discriminate H |].
        intros s H. injection H as <-.
        rewrite (cut_length 497 text) by lia.
        split; [lia |]. split; [lia |]. intros _. split; reflexivity.
  - split; [split; reflexivity | intros s H; discriminate H].
Qed.

(** ** The two freshness windows together *)

(** X3. A snapshot the point lookup takes as fresh (less than one hour old)
    is never one [needsSync] wants refreshed (more than 24 hours old), and a
    snapshot [needsSync] wants refreshed is never fresh for the point
    lookup. *)
Theorem fresh_never_needsSync (now : Z) (d : RepoSnapshot) :
  (GitHubService.fresh now d = true -> needsSync now d = false)
  /\ (needsSync now d = true -> GitHubService.fresh now d = false).
Proof.
  unfold GitHubService.fresh, needsSync.
  destruct (lastSyncedAt d) as [t |]; [| split; [discriminate | reflexivity]].
  rewrite hours_above, hours_below. split; intro H.
  - apply Z.ltb_lt in H. apply Z.ltb_ge. lia.
  - apply Z.ltb_lt in H. apply Z.ltb_ge. lia.
Qed.

Lemma fresh_never_needsSync_witness :
  GitHubService.fresh 1800000 Sample.cached = true
  /\ needsSync 1800000 Sample.cached = false.
Proof.
  split; [reflexivity |].
  destruct (fresh_never_needsSync 1800000 Sample.cached) as [Hfresh _].
  apply Hfresh. reflexivity.
Defined.

(** ** [getRepoById] in full *)

Lemma replaceNth_twice {A} (n : nat) (x y : A) (l : list A) :
  replaceNth n y (replaceNth n x l) = replaceNth n y l.
Proof.
  revert n. induction l as [| z l IH]; intros [| n]; cbn; try reflexivity.
  rewrite IH. reflexivity.
Qed.

(** What [getRepoById] does with a stored snapshot, whatever GitHub does. *)
Lemma getRepoById_runs (gh : GitHub) (repoId : N) (forceSync : bool) (w : World)
  (d : RepoSnapshot) :
  stored repoId (collection w) = Some d ->
  exists w' d',
    RepoService.getRepoById gh repoId forceSync w = (Return (List.length (memory w)), w')
    /\ nth_error (memory w') (List.length (memory w)) = Some d'
    /\ _id d' = _id d /\ githubId d' = githubId d
    /\ nextOid w' = nextOid w
    /\ (collection w' = collection w
        \/ exists d'', collection w' = put d'' (collection w)
                       /\ _id d'' = _id d /\ githubId d'' = githubId d
                       /\ validate d'' = true)
    /\ (sent w' = sent w \/ sent w' = (sent w ++ [GetRepo (fullName d)])%list).
Proof.
  intro Hfind.
  unfold RepoService.getRepoById, findById, bind at 1.
  rewrite (findFirst_found _ _ _ Hfind).
  unfold bind at 1. rewrite (read_at _ _ d) by apply nth_error_snoc.
  unfold bind at 1, now at 1. wsimpl.
  destruct (forceSync || needsSync (clock w) d)%bool.
  - unfold bind at 1, tryCatch, bind at 1.
    assert (Hmem : nth_error (memory (withMemory (memory w ++ [d]) w))
                     (List.length (memory w)) = Some d) by apply nth_error_snoc.
    destruct (repos gh (fullName d)) as [data | status msg |] eqn:Hreply.
    + rewrite (syncRepo_fetched gh _ _ d data Hmem Hreply). wsimpl.
      destruct (validate (updateFromGitHub (clock w) data d)) eqn:Hvalid.
      * rewrite replaceNth_snoc. eexists. eexists.
        split; [reflexivity |]. wsimpl.
        split; [apply nth_error_snoc |].
        split; [reflexivity |]. split; [reflexivity |]. split; [reflexivity |].
        split; [| right; reflexivity].
        right. eexists. split; [reflexivity |].
        split; [reflexivity |]. split; [reflexivity | exact Hvalid].
      * rewrite replaceNth_twice, replaceNth_snoc. eexists. eexists.
        split; [reflexivity |]. wsimpl.
        split; [apply nth_error_snoc |].
        split; [reflexivity |]. split; [reflexivity |]. split; [reflexivity |].
        split; [left; reflexivity | right; reflexivity].
    + erewrite (syncRepo_rejected gh _ _ d) by (try exact Hmem; rewrite Hreply; reflexivity).
      wsimpl. rewrite replaceNth_snoc.
      eexists. eexists. split; [reflexivity |]. wsimpl.
      split; [apply nth_error_snoc |].
      split; [reflexivity |]. split; [reflexivity |]. split; [reflexivity |].
      split; [| right; reflexivity].
      destruct (validate d) eqn:Hvalid; [| left; reflexivity].
      right. eexists. split; [reflexivity |].
      split; [reflexivity |]. split; [reflexivity |].
      rewrite validate_set_syncError. exact Hvalid.
    + erewrite (syncRepo_rejected gh _ _ d) by (try exact Hmem; rewrite Hreply; reflexivity).
      wsimpl. rewrite replaceNth_snoc.
      eexists. eexists. split; [reflexivity |]. wsimpl.
      split; [apply nth_error_snoc |].
      split; [reflexivity |]. split; [reflexivity |]. split; [reflexivity |].
      split; [| right; reflexivity].
      destruct (validate d) eqn:Hvalid; [| left; reflexivity].
      right. eexists. split; [reflexivity |].
      split; [reflexivity |]. split; [reflexivity |].
      rewrite validate_set_syncError. exact Hvalid.
  - unfold bind at 1, ret at 1. eexists. exists d.
    split; [reflexivity |]. wsimpl.
    split; [apply nth_error_snoc |].
    split; [reflexivity |]. split; [reflexivity |]. split; [reflexivity |].
    split; left; reflexivity.
Qed.

Lemma getRepoById_missing (gh : GitHub) (repoId : N) (forceSync : bool) (w : World) :
  stored repoId (collection w) = None ->
  RepoService.getRepoById gh repoId forceSync w
  = (Throw (ApiError.notFound "Repository not found"), w).
Proof.
  intro Hfind.
  unfold RepoService.getRepoById, findById, bind at 1.
  rewrite (findFirst_missing _ _ Hfind). reflexivity.
Qed.

(** X4. For a snapshot that is stored, [getRepoById] never throws, whatever
    GitHub answers and whether or not a synchronisation is forced: it
    returns a document with the [_id] and the [githubId] of the stored one,
    and sends at most one request, for the full name of the snapshot. *)
Theorem getRepoById_never_throws (gh : GitHub) (repoId : N) (forceSync : bool)
  (w : World) (d : RepoSnapshot) :
  stored repoId (collection w) = Some d ->
  exists w' d',
    RepoService.getRepoById gh repoId forceSync w = (Return (List.length (memory w)), w')
    /\ observe (RepoService.getRepoById gh repoId forceSync w) = Return (Some d')
    /\ _id d' = repoId
    /\ githubId d' = githubId d
    /\ (sent w' = sent w \/ sent w' = (sent w ++ [GetRepo (fullName d)])%list).
Proof.
  intro Hfind.
  destruct (getRepoById_runs gh repoId forceSync w d Hfind)
    as [w' [d' [Hrun [Hmem [Hid [Hgid [_ [_ Hsent]]]]]]]].
  exists w', d'. rewrite Hrun. cbn [observe]. rewrite Hmem.
  split; [reflexivity |]. split; [reflexivity |].
  split; [rewrite Hid; apply (stored_In _ _ _ Hfind) |].
  split; [exact Hgid | exact Hsent].
Qed.

Lemma getRepoById_never_throws_witness :
  exists w' d',
    RepoService.getRepoById Sample.unknown 1 true (Sample.cachedAt 0) = (Return 0%nat, w')
    /\ observe (RepoService.getRepoById Sample.unknown 1 true (Sample.cachedAt 0))
       = Return (Some d')
    /\ _id d' = 1%N.
Proof.
  destruct (getRepoById_never_throws Sample.unknown 1 true (Sample.cachedAt 0)
              Sample.cached eq_refl) as [w' [d' [Hrun [Hseen [Hid _]]]]].
  exists w', d'. split; [exact Hrun |]. split; [exact Hseen | exact Hid].
Defined.

(** X5. Without [forceSync], [getRepoById] on a stored snapshot that
    [needsSync] leaves alone sends nothing to GitHub and writes nothing: it
    returns the snapshot as it is stored. On an [_id] that is not stored it
    throws not-found, again without a request. *)
Theorem getRepoById_serves_cache (gh : GitHub) (repoId : N) (w : World) :
  (stored repoId (collection w) = None ->
   forall forceSync,
     RepoService.getRepoById gh repoId forceSync w
     = (Throw (ApiError.notFound "Repository not found"), w))
  /\ (forall d,
        stored repoId (collection w) = Some d ->
        needsSync (clock w) d = false ->
        RepoService.getRepoById gh repoId false w
        = (Return (List.length (memory w)), withMemory (memory w ++ [d]) w)).
Proof.
  split.
  - intros Hfind forceSync. apply getRepoById_missing. exact Hfind.
  - intros d Hfind Hfresh.
    unfold RepoService.getRepoById, findById, bind at 1.
    rewrite (findFirst_found _ _ _ Hfind).
    unfold bind at 1. rewrite (read_at _ _ d) by apply nth_error_snoc.
    unfold bind at 1, now at 1. wsimpl. rewrite Hfresh. reflexivity.
Qed.

Lemma getRepoById_serves_cache_witness :
  RepoService.getRepoById Sample.offline 7 true (Sample.cachedAt 0)
  = (Throw (ApiError.notFound "Repository not found"), Sample.cachedAt 0)
  /\ observe (RepoService.getRepoById Sample.offline 1 false (Sample.cachedAt Sample.hour))
     = Return (Some Sample.cached)
  /\ sent (snd (RepoService.getRepoById Sample.offline 1 false (Sample.cachedAt Sample.hour)))
     = [].
Proof.
  split.
  - destruct (getRepoById_serves_cache Sample.offline 7 (Sample.cachedAt 0)) as [Hmissing _].
    apply Hmissing. reflexivity.
  - destruct (getRepoById_serves_cache Sample.offline 1 (Sample.cachedAt Sample.hour))
      as [_ Hcached].
    rewrite (Hcached Sample.cached eq_refl eq_refl). split; reflexivity.
Defined.

(** X6. [getRepoById] keeps a consistent collection consistent, whatever the
    identifier and whatever GitHub answers: no second document with a stored
    [_id] or [githubId] is written, and every stored document still passes
    the validators. *)
Theorem getRepoById_keeps_consistent (gh : GitHub) (repoId : N) (forceSync : bool)
  (w : World) :
  consistent w ->
  consistent (snd (RepoService.getRepoById gh repoId forceSync w)).
Proof.
  intro Hcons.
  destruct (stored repoId (collection w)) as [d |] eqn:Hfind.
  - destruct (getRepoById_runs gh repoId forceSync w d Hfind)
      as [w' [d' [Hrun [_ [_ [_ [Hoid [Hcoll _]]]]]]]].
    rewrite Hrun. cbn [snd].
    destruct Hcoll as [Hsame | [d'' [Hput [Hid [Hgid Hvalid]]]]].
    + apply (consistent_same w); [symmetry; exact Hsame | symmetry; exact Hoid | exact Hcons].
    + apply (consistent_same (withCollection (put d'' (collection w)) w));
        [symmetry; exact Hput | symmetry; exact Hoid |].
      apply (consistent_replace w d d''); try assumption.
      apply (stored_In _ _ _ Hfind).
  - rewrite (getRepoById_missing gh repoId forceSync w Hfind). exact Hcons.
Qed.

Lemma getRepoById_keeps_consistent_witness :
  consistent (snd (RepoService.getRepoById (Sample.serving NoResponse) 1 true
                     (Sample.cachedAt 0))).
Proof.
  exact (getRepoById_keeps_consistent (Sample.serving NoResponse) 1 true
           (Sample.cachedAt 0) (consistent_cached 0)).
Defined.

(** ** [getRepoByGitHubId] on a stored snapshot *)

(** X7. [getRepoByGitHubId] on a stored snapshot: when [needsSync] leaves it
    alone, it is returned as stored and nothing is sent; when it is due and
    the fetch fails, the error is thrown to the caller (there is no stale
    fallback on this path), after [syncError] has been written to the stored
    snapshot. *)
Theorem getRepoByGitHubId_stored (gh : GitHub) (gid : Z) (w : World) (d : RepoSnapshot) :
  find (fun x => githubId x =? gid) (collection w) = Some d ->
  (needsSync (clock w) d = false ->
   RepoService.getRepoByGitHubId gh gid w
   = (Return (List.length (memory w)), withMemory (memory w ++ [d]) w))
  /\ (forall e,
        needsSync (clock w) d = true ->
        GitHubService.rejection (repos gh (fullName d)) = Some e ->
        validate d = true ->
        exists w',
          RepoService.getRepoByGitHubId gh gid w = (Throw e, w')
          /\ stored (_id d) (collection w') = Some (set_syncError (Some (message e)) d)
          /\ sent w' = (sent w ++ [GetRepo (fullName d)])%list).
Proof.
  intro Hfind. split.
  - intro Hfresh.
    unfold RepoService.getRepoByGitHubId, findOneByGithubId, bind at 1.
    rewrite (findFirst_found _ _ _ Hfind).
    unfold bind at 1, bind at 1. rewrite (read_at _ _ d) by apply nth_error_snoc.
    unfold bind at 1, now at 1. wsimpl. rewrite Hfresh. reflexivity.
  - intros e Hdue Hrej Hvalid.
    unfold RepoService.getRepoByGitHubId, findOneByGithubId, bind at 1.
    rewrite (findFirst_found _ _ _ Hfind).
    unfold bind at 1, bind at 1. rewrite (read_at _ _ d) by apply nth_error_snoc.
    unfold bind at 1, now at 1. wsimpl. rewrite Hdue. unfold ret at 1.
    unfold bind at 1.
    rewrite (syncRepo_rejected gh _ _ d e) by (try apply nth_error_snoc; exact Hrej).
    rewrite Hvalid. eexists. split; [reflexivity |]. wsimpl.
    split; [| reflexivity].
    rewrite stored_put. cbn. rewrite N.eqb_refl. reflexivity.
Qed.

Lemma getRepoByGitHubId_stored_witness :
  exists w',
    RepoService.getRepoByGitHubId Sample.offline 42 (Sample.cachedAt (25 * Sample.hour))
    = (Throw (ApiError.internal "Failed to connect to GitHub API"), w')
    /\ stored 1 (collection w')
       = Some (set_syncError (Some "Failed to connect to GitHub API") Sample.cached).
Proof.
  destruct (getRepoByGitHubId_stored Sample.offline 42 (Sample.cachedAt (25 * Sample.hour))
              Sample.cached eq_refl) as [_ Hstale].
  destruct (Hstale (ApiError.internal "Failed to connect to GitHub API")
              eq_refl eq_refl eq_refl) as [w' [Hrun [Hstored _]]].
  exists w'. split; [exact Hrun | exact Hstored].
Defined.

(** ** [getOrCreateFromGitHub] *)

Lemma getOrCreateFromGitHub_fetches (gh : GitHub) (name : string) (w : World) :
  (find (fun x => String.eqb (fullName x) (Js.trim name)) (collection w) = None
   \/ exists d, find (fun x => String.eqb (fullName x) (Js.trim name)) (collection w) = Some d
                /\ needsSync (clock w) d = true) ->
  exists w1,
    collection w1 = collection w /\ nextOid w1 = nextOid w /\ clock w1 = clock w
    /\ sent w1 = (sent w ++ [GetRepo name])%list
    /\ (memory w1 = memory w \/ exists d, memory w1 = (memory w ++ [d])%list)
    /\ RepoService.getOrCreateFromGitHub gh name w =
       match repos gh name with
       | Success data => findOrCreateFromGitHub (GH.id data) data w1
       | reply =>
           (Throw (match GitHubService.rejection reply with
                   | Some e => e
                   | None => ApiError.internal ""
                   end), w1)
       end.
Proof.
  intros [Hnone | [d [Hfind Hdue]]].
  - exists (withSent (sent w ++ [GetRepo name]) w).
    split; [reflexivity |]. split; [reflexivity |]. split; [reflexivity |].
    split; [reflexivity |]. split; [left; reflexivity |].
    unfold RepoService.getOrCreateFromGitHub, findOneByFullName, bind at 1.
    rewrite (findFirst_missing _ _ Hnone).
    unfold bind at 1, ret at 1, bind at 1, GitHubService.getRepositoryByFullName,
      GitHubService.get.
    destruct (repos gh name); reflexivity.
  - exists (withSent (sent w ++ [GetRepo name]) (withMemory (memory w ++ [d]) w)).
    split; [reflexivity |]. split; [reflexivity |]. split; [reflexivity |].
    split; [reflexivity |]. split; [right; exists d; reflexivity |].
    unfold RepoService.getOrCreateFromGitHub, findOneByFullName, bind at 1.
    rewrite (findFirst_found _ _ _ Hfind).
    unfold bind at 1, bind at 1. rewrite (read_at _ _ d) by apply nth_error_snoc.
    unfold bind at 1, now at 1. wsimpl. rewrite Hdue. unfold ret at 1.
    unfold bind at 1, GitHubService.getRepositoryByFullName, GitHubService.get.
    destruct (repos gh name); reflexivity.
Qed.

(** X8. [getOrCreateFromGitHub] has no stale fallback: when no snapshot has
    the full name asked for (as the schema trims it), or the one that has it
    is more than 24 hours old, and the fetch fails, the error is thrown to
    the caller; one request was sent, for the name as it was given, and the
    collection is as it was. *)
Theorem getOrCreateFromGitHub_propagates (gh : GitHub) (name : string) (w : World)
  (e : JsError) :
  (find (fun x => String.eqb (fullName x) (Js.trim name)) (collection w) = None
   \/ exists d, find (fun x => String.eqb (fullName x) (Js.trim name)) (collection w) = Some d
                /\ needsSync (clock w) d = true) ->
  GitHubService.rejection (repos gh name) = Some e ->
  exists w',
    RepoService.getOrCreateFromGitHub gh name w = (Throw e, w')
    /\ collection w' = collection w
    /\ sent w' = (sent w ++ [GetRepo name])%list.
Proof.
  intros Hmiss Hrej.
  destruct (getOrCreateFromGitHub_fetches gh name w Hmiss)
    as [w1 [Hcoll [_ [_ [Hsent [_ Hrun]]]]]].
  exists w1. rewrite Hrun.
  destruct (repos gh name); cbn in Hrej |- *; try discriminate Hrej;
    injection Hrej as <-; (split; [reflexivity |]); split; assumption.
Qed.

Lemma getOrCreateFromGitHub_propagates_witness :
  exists w',
    RepoService.getOrCreateFromGitHub Sample.unknown "acme/widget"
      (Sample.cachedAt (25 * Sample.hour))
    = (Throw (ApiError.notFound "GitHub resource not found"), w')
    /\ collection w' = [Sample.cached].
Proof.
  edestruct (getOrCreateFromGitHub_propagates Sample.unknown "acme/widget"
               (Sample.cachedAt (25 * Sample.hour))) as [w' [Hrun [Hcoll _]]].
  - right. exists Sample.cached. split; reflexivity.
  - reflexivity.
  - exists w'. split; [exact Hrun | exact Hcoll].
Defined.

(** X9. A snapshot fetched by full name is served from the collection the
    next time. On a consistent collection with no snapshot of that name (as
    the schema trims it), when GitHub answers with acceptable fields (the
    validators accept them and the three dates cast) whose full name is, as
    trimmed, the name asked for, [getOrCreateFromGitHub] sends one request
    and stores the snapshot; a second call at most 24 hours later sends
    nothing, writes nothing and returns the same document. *)
Theorem getOrCreateFromGitHub_then_cached (gh : GitHub) (name : string) (w : World)
  (data : GH.repo) (later : Z) :
  consistent w ->
  find (fun x => String.eqb (fullName x) (Js.trim name)) (collection w) = None ->
  repos gh name = Success data ->
  acceptable data = true ->
  Js.trim (GH.full_name data) = Js.trim name ->
  later - clock w <= 24 * 3600000 ->
  let first := RepoService.getOrCreateFromGitHub gh name w in
  let second := RepoService.getOrCreateFromGitHub gh name (at_time later (snd first)) in
  exists d,
    observe first = Return (Some d)
    /\ sent (snd first) = (sent w ++ [GetRepo name])%list
    /\ In d (collection (snd first))
    /\ observe second = Return (Some d)
    /\ sent (snd second) = sent (snd first)
    /\ collection (snd second) = collection (snd first).
Proof.
  intros Hcons Hnone Hreply Hok Hname Hsoon first second.
  destruct (getOrCreateFromGitHub_fetches gh name w (or_introl Hnone))
    as [w1 [Hcoll [Hoid [Hclock [Hsent [Hmem Hrun]]]]]].
  rewrite Hreply in Hrun.
  assert (Hcons1 : consistent w1)
    by (apply (consistent_same w); [symmetry; exact Hcoll | symmetry; exact Hoid | exact Hcons]).
  assert (Hupsert : exists d1 w2,
             findOrCreateFromGitHub (GH.id data) data w1
             = (Return (List.length (memory w1)), w2)
             /\ nth_error (memory w2) (List.length (memory w1)) = Some d1
             /\ collection w2 = put d1 (collection w1)
             /\ sent w2 = sent w1
             /\ fullName d1 = Js.trim name
             /\ lastSyncedAt d1 = Some (clock w)).
  { destruct (find (fun x => githubId x =? GH.id data) (collection w1)) as [d0 |] eqn:Hgid.
    - rewrite (findOrCreate_existing (GH.id data) data w1 d0 Hgid).
      rewrite (validate_stored w1 d0 data (clock w1) Hcons1
                 (proj1 (find_member _ _ _ Hgid)) Hok).
      eexists. eexists. split; [reflexivity |]. wsimpl.
      split; [apply nth_error_snoc |]. split; [reflexivity |]. split; [reflexivity |].
      split; [exact Hname | rewrite Hclock; reflexivity].
    - rewrite (findOrCreate_missing (GH.id data) data w1 Hgid).
      rewrite validate_updateFromGitHub, Hok.
      eexists. eexists. split; [reflexivity |]. wsimpl.
      split; [apply nth_error_snoc |]. split; [reflexivity |]. split; [reflexivity |].
      split; [exact Hname | rewrite Hclock; reflexivity]. }
  destruct Hupsert as [d1 [w2 [Hup [Hmem2 [Hcoll2 [Hsent2 [Hname1 Hsynced]]]]]]].
  assert (Hfirst : first = (Return (List.length (memory w1)), w2)).
  { unfold first. rewrite Hrun. exact Hup. }
  assert (Hfound : find (fun x => String.eqb (fullName x) (Js.trim name))
                     (collection (at_time later w2)) = Some d1).
  { wsimpl. rewrite Hcoll2, Hcoll.
    apply find_put_new; [exact Hnone |]. cbn. rewrite Hname1. apply String.eqb_refl. }
  assert (Hsecond : second
                    = (Return (List.length (memory w2)),
                       withMemory (memory w2 ++ [d1]) (at_time later w2))).
  { unfold second. rewrite Hfirst. cbn [snd].
    unfold RepoService.getOrCreateFromGitHub, findOneByFullName, bind at 1.
    rewrite (findFirst_found _ _ _ Hfound).
    unfold bind at 1, bind at 1. rewrite (read_at _ _ d1) by (wsimpl; apply nth_error_snoc).
    unfold bind at 1, now at 1. wsimpl.
    assert (Hfresh : needsSync later d1 = false).
    { unfold needsSync. rewrite Hsynced, hours_above. apply Z.ltb_ge. lia. }
    rewrite Hfresh. reflexivity. }
  exists d1. rewrite Hfirst, Hsecond. cbn [observe snd]. wsimpl.
  rewrite Hmem2, nth_error_snoc, Hsent2, Hsent, Hcoll2.
  split; [reflexivity |]. split; [reflexivity |]. split; [apply put_In |].
  split; [reflexivity |]. split; reflexivity.
Qed.

Lemma getOrCreateFromGitHub_then_cached_witness :
  let gh := Sample.serving NoResponse in
  let first := RepoService.getOrCreateFromGitHub gh "acme/widget" (Sample.emptyAt 0) in
  let second :=
    RepoService.getOrCreateFromGitHub gh "acme/widget" (at_time Sample.hour (snd first)) in
  exists d,
    observe first = Return (Some d)
    /\ observe second = Return (Some d)
    /\ sent (snd second) = [GetRepo "acme/widget"].
Proof.
  intros gh first second.
  destruct (getOrCreateFromGitHub_then_cached gh "acme/widget" (Sample.emptyAt 0)
              Sample.widget Sample.hour (consistent_empty 0) eq_refl eq_refl eq_refl eq_refl)
    as [d [Hfirst [Hsent [_ [Hsecond [Hsame _]]]]]].
  - vm_compute. discriminate.
  - exists d. split; [exact Hfirst |]. split; [exact Hsecond |].
    fold first in Hsent. fold first second in Hsame. rewrite Hsame, Hsent. reflexivity.
Defined.

(** ** [loadLanguages] *)

Lemma loadLanguages_cached (gh : GitHub) (repoId : N) (w : World) (d : RepoSnapshot) :
  stored repoId (collection w) = Some d -> languages d <> [] ->
  RepoService.loadLanguages gh repoId w
  = (Return (languages d), withMemory (memory w ++ [d]) w).
Proof.
  intros Hfind Hsome.
  unfold RepoService.loadLanguages, findById, bind at 1.
  rewrite (findFirst_found _ _ _ Hfind).
  unfold bind at 1. rewrite (read_at _ _ d) by apply nth_error_snoc.
  destruct (languages d); [exfalso; apply Hsome; reflexivity | reflexivity].
Qed.

Lemma loadLanguages_failed (gh : GitHub) (repoId : N) (w : World) (d : RepoSnapshot)
  (e : JsError) :
  stored repoId (collection w) = Some d -> languages d = [] ->
  GitHubService.rejection (languagesOf gh (ownerLogin d ++ "/" ++ name d)) = Some e ->
  RepoService.loadLanguages gh repoId w
  = (Return [],
     withSent (sent w ++ [GetLanguages (ownerLogin d ++ "/" ++ name d)])
       (withMemory (memory w ++ [d]) w)).
Proof.
  intros Hfind Hnone Hrej.
  unfold RepoService.loadLanguages, findById, bind at 1.
  rewrite (findFirst_found _ _ _ Hfind).
  unfold bind at 1. rewrite (read_at _ _ d) by apply nth_error_snoc.
  rewrite Hnone.
  unfold tryCatch, GitHubService.getLanguages, bind at 1.
  rewrite (get_rejected _ _ _ _ Hrej).
  unfold bind. erewrite read_at by (wsimpl; apply nth_error_snoc).
  rewrite Hnone. reflexivity.
Qed.

Lemma loadLanguages_fetched (gh : GitHub) (repoId : N) (w : World) (d : RepoSnapshot)
  (data : GH.languages) :
  stored repoId (collection w) = Some d -> languages d = [] ->
  languagesOf gh (ownerLogin d ++ "/" ++ name d) = Success data ->
  let totalBytes := fold_left (fun a b => (a + b)%float) (map snd data) 0%float in
  let entries :=
    map (fun '(n, b) => (n, b, RepoService.percentOneDecimal totalBytes b)) data in
  let d' := assignLanguages entries d in
  exists w',
    RepoService.loadLanguages gh repoId w = (Return (languages d'), w')
    /\ nextOid w' = nextOid w
    /\ clock w' = clock w
    /\ sent w' = (sent w ++ [GetLanguages (ownerLogin d ++ "/" ++ name d)])%list
    /\ collection w' = if validate d' then put d' (collection w) else collection w.
Proof.
  intros Hfind Hnone Hreply totalBytes entries d'.
  unfold RepoService.loadLanguages, findById, bind at 1.
  rewrite (findFirst_found _ _ _ Hfind).
  unfold bind at 1. rewrite (read_at _ _ d) by apply nth_error_snoc.
  rewrite Hnone.
  unfold tryCatch, GitHubService.getLanguages, bind at 1.
  rewrite Hreply, get_success.
  unfold bind at 1.
  erewrite assign_at by apply nth_error_snoc.
  wsimpl. rewrite replaceNth_snoc.
  unfold bind at 1.
  erewrite save_at by apply nth_error_snoc.
  wsimpl.
  fold totalBytes. fold entries. fold d'.
  destruct (validate d').
  - unfold bind. erewrite read_at by apply nth_error_snoc.
    eexists. split; [reflexivity |]. repeat split.
  - unfold bind. erewrite read_at by apply nth_error_snoc.
    eexists. split; [reflexivity |]. repeat split.
Qed.

(** X10. [loadLanguages] on a stored snapshot never throws and keeps the
    collection consistent. A snapshot that has languages is answered from
    the collection, with no request; when it has none and the request
    fails, the answer is the empty list and nothing is written. *)
Theorem loadLanguages_degrades (gh : GitHub) (repoId : N) (w : World) (d : RepoSnapshot) :
  stored repoId (collection w) = Some d ->
  (exists ls w',
     RepoService.loadLanguages gh repoId w = (Return ls, w')
     /\ (consistent w -> consistent w'))
  /\ (languages d <> [] ->
      RepoService.loadLanguages gh repoId w
      = (Return (languages d), withMemory (memory w ++ [d]) w))
  /\ (forall e,
        languages d = [] ->
        GitHubService.rejection (languagesOf gh (ownerLogin d ++ "/" ++ name d)) = Some e ->
        exists w',
          RepoService.loadLanguages gh repoId w = (Return [], w')
          /\ collection w' = collection w
          /\ sent w' = (sent w ++ [GetLanguages (ownerLogin d ++ "/" ++ name d)])%list).
Proof.
  intro Hfind. split; [| split].
  - destruct (languages d) as [| l ls] eqn:Hlangs.
    + destruct (languagesOf gh (ownerLogin d ++ "/" ++ name d))
        as [data | status msg |] eqn:Hreply.
      * destruct (loadLanguages_fetched gh repoId w d data Hfind Hlangs Hreply)
          as [w' [Hrun [Hoid [_ [_ Hcoll]]]]].
        eexists. exists w'. split; [exact Hrun |]. intro Hcons.
        match type of Hcoll with
        | context [validate ?doc] => destruct (validate doc) eqn:Hvalid
        end.
        -- apply (consistent_same (withCollection (collection w') w));
             [reflexivity | symmetry; exact Hoid |].
           rewrite Hcoll.
           apply (consistent_replace w d); try reflexivity; try assumption.
           apply (stored_In _ _ _ Hfind).
        -- apply (consistent_same w); [symmetry; exact Hcoll | symmetry; exact Hoid | exact Hcons].
      * assert (Hrej : GitHubService.rejection
                         (languagesOf gh (ownerLogin d ++ "/" ++ name d))
                       = Some (GitHubService.intercepted status msg))
          by (rewrite Hreply; reflexivity).
        rewrite (loadLanguages_failed gh repoId w d _ Hfind Hlangs Hrej).
        eexists. eexists. split; [reflexivity |].
        apply consistent_same; reflexivity.
      * assert (Hrej : GitHubService.rejection
                         (languagesOf gh (ownerLogin d ++ "/" ++ name d))
                       = Some (ApiError.internal "Failed to connect to GitHub API"))
          by (rewrite Hreply; reflexivity).
        rewrite (loadLanguages_failed gh repoId w d _ Hfind Hlangs Hrej).
        eexists. eexists. split; [reflexivity |].
        apply consistent_same; reflexivity.
    + rewrite (loadLanguages_cached gh repoId w d Hfind) by (rewrite Hlangs; discriminate).
      eexists. eexists. split; [reflexivity |]. apply consistent_same; reflexivity.
  - apply loadLanguages_cached. exact Hfind.
  - intros e Hnone Hrej.
    rewrite (loadLanguages_failed gh repoId w d e Hfind Hnone Hrej).
    eexists. split; [reflexivity |]. split; reflexivity.
Qed.

Lemma loadLanguages_degrades_witness :
  exists w',
    RepoService.loadLanguages Sample.offline 1 (Sample.cachedAt 0) = (Return [], w')
    /\ collection w' = [Sample.cached].
Proof.
  destruct (loadLanguages_degrades Sample.offline 1 (Sample.cachedAt 0) Sample.cached
              eq_refl) as [_ [_ Hfail]].
  destruct (Hfail (ApiError.internal "Failed to connect to GitHub API") eq_refl eq_refl)
    as [w' [Hrun [Hcoll _]]].
  exists w'. split; [exact Hrun | exact Hcoll].
Defined.

(** X11. Languages fetched once are served from the collection afterwards.
    For a stored snapshot that passes validation and has no languages, when
    GitHub answers with at least one language and every byte count and
    every share computed from them is a number (so the counts do not add up
    to zero), [loadLanguages] sends one request and stores the list; the
    next call, whenever it comes, sends nothing, writes nothing and returns
    the same list. *)
Theorem loadLanguages_then_cached (gh : GitHub) (repoId : N) (w : World)
  (d : RepoSnapshot) (data : GH.languages) (later : Z) :
  stored repoId (collection w) = Some d ->
  validate d = true ->
  languages d = [] ->
  languagesOf gh (ownerLogin d ++ "/" ++ name d) = Success data ->
  data <> [] ->
  let totalBytes := fold_left (fun a b => (a + b)%float) (map snd data) 0%float in
  numbersCast
    (map (fun '(n, b) => (n, b, (Js.Math_round (b / totalBytes * 100 * 10) / 10)%float))
         data) = true ->
  let first := RepoService.loadLanguages gh repoId w in
  let second := RepoService.loadLanguages gh repoId (at_time later (snd first)) in
  exists ls,
    fst first = Return ls
    /\ fst second = Return ls
    /\ List.length ls = List.length data
    /\ sent (snd first) = (sent w ++ [GetLanguages (ownerLogin d ++ "/" ++ name d)])%list
    /\ sent (snd second) = sent (snd first)
    /\ collection (snd second) = collection (snd first).
Proof.
  intros Hfind Hvalid Hnone Hreply Hdata totalBytes Hnumbers first second.
  destruct (loadLanguages_fetched gh repoId w d data Hfind Hnone Hreply)
    as [w' [Hrun [_ [_ [Hsent Hcoll]]]]].
  fold totalBytes in Hrun, Hcoll.
  set (entries :=
         map (fun '(n, b) => (n, b, RepoService.percentOneDecimal totalBytes b)) data) in *.
  set (d' := assignLanguages entries d) in *.
  assert (Hvalid' : validate d' = true)
    by exact (proj1 (validate_assignLanguages entries d) Hnumbers Hvalid).
  rewrite Hvalid' in Hcoll.
  assert (Hfirst : first = (Return (languages d'), w')) by exact Hrun.
  assert (Hstored : stored repoId (collection (at_time later w')) = Some d').
  { wsimpl. rewrite Hcoll. unfold stored.
    apply (find_put_same _ d); [exact Hfind | reflexivity |].
    cbn. apply N.eqb_eq. apply (stored_In _ _ _ Hfind). }
  assert (Hsome : languages d' <> []).
  { cbn. unfold entries. destruct data; [exfalso; apply Hdata; reflexivity | discriminate]. }
  exists (languages d'). unfold second. rewrite Hfirst. cbn [fst snd].
  rewrite (loadLanguages_cached gh repoId _ _ Hstored Hsome). cbn [fst snd]. wsimpl.
  split; [reflexivity |]. split; [reflexivity |].
  split; [cbn; unfold entries; rewrite !length_map; reflexivity |].
  split; [exact Hsent |]. split; reflexivity.
Qed.

Lemma loadLanguages_then_cached_witness :
  let gh := Sample.serving (Success Sample.goAndJs) in
  let first := RepoService.loadLanguages gh 1 (Sample.cachedAt 0) in
  let second := RepoService.loadLanguages gh 1 (at_time Sample.hour (snd first)) in
  exists ls,
    fst first = Return ls /\ fst second = Return ls
    /\ sent (snd second) = [GetLanguages "acme/widget"].
Proof.
  intros gh first second.
  destruct (loadLanguages_then_cached gh 1 (Sample.cachedAt 0) Sample.cached
              Sample.goAndJs Sample.hour eq_refl eq_refl eq_refl eq_refl)
    as [ls [Hfirst [Hsecond [_ [Hsent [Hsame _]]]]]].
  - discriminate.
  - vm_compute. reflexivity.
  - exists ls. split; [exact Hfirst |]. split; [exact Hsecond |].
    fold first in Hsent. fold first second in Hsame. rewrite Hsame, Hsent. reflexivity.
Defined.

(** ** [loadReadme] *)

Lemma loadReadme_cached (gh : GitHub) (repoId : N) (w : World) (d : RepoSnapshot) :
  stored repoId (collection w) = Some d ->
  readmeIsCurrent (clock w) d = true ->
  RepoService.loadReadme gh repoId w = (Return (readme d), withMemory (memory w ++ [d]) w).
Proof.
  intros Hfind Hcurrent.
  unfold RepoService.loadReadme, findById, bind at 1.
  rewrite (findFirst_found _ _ _ Hfind).
  unfold bind at 1. rewrite (read_at _ _ d) by apply nth_error_snoc.
  unfold bind at 1, now at 1. wsimpl.
  unfold readmeIsCurrent in Hcurrent. rewrite Hcurrent. reflexivity.
Qed.

Lemma cut_within (text : string) : Js.len (Js.substring0 50000 text) <= 50000.
Proof. unfold Js.len, Js.substring0. rewrite prefix_length. lia. Qed.

Lemma cut_truthy (text : string) :
  Js.truthy (Some text) = true -> Js.truthy (Some (Js.substring0 50000 text)) = true.
Proof.
  destruct text as [| c rest]; [discriminate |]. intros _.
  unfold Js.substring0.
  assert (Hpos : (0 < Z.to_nat 50000)%nat) by lia.
  destruct (Z.to_nat 50000) as [| k]; [lia | reflexivity].
Qed.

Lemma loadReadme_refetch (gh : GitHub) (repoId : N) (w : World) (d : RepoSnapshot) :
  stored repoId (collection w) = Some d ->
  readmeIsCurrent (clock w) d = false ->
  let path := ownerLogin d ++ "/" ++ name d in
  exists r w',
    RepoService.loadReadme gh repoId w = (Return r, w')
    /\ nextOid w' = nextOid w
    /\ clock w' = clock w
    /\ sent w' = (sent w ++ [GetReadme path])%list
    /\ match readmes gh path with
       | Success (GH.Text text) =>
           if Js.truthy (Some text) then
             let d' := set_readmeFetchedAt (Some (clock w))
                         (assignReadme (Some (GH.Text (Js.substring0 50000 text))) d) in
             r = Some (Js.substring0 50000 text)
             /\ collection w' = (if validate d' then put d' (collection w)
                                 else collection w)
           else r = readme d /\ collection w' = collection w
       | Success (GH.Parsed truthy _) =>
           r = (if truthy then Js.orElse (readme d) None else readme d)
           /\ collection w' = collection w
       | Status status msg =>
           r = (if status =? 404 then readme d else Js.orElse (readme d) None)
           /\ collection w' = collection w
       | NoResponse =>
           r = Js.orElse (readme d) None /\ collection w' = collection w
       end.
Proof.
  intros Hfind Hdue path.
  unfold RepoService.loadReadme, findById, bind at 1.
  rewrite (findFirst_found _ _ _ Hfind).
  unfold bind at 1. rewrite (read_at _ _ d) by apply nth_error_snoc.
  unfold bind at 1, now at 1. wsimpl.
  unfold readmeIsCurrent in Hdue. rewrite Hdue.
  unfold tryCatch at 1, bind at 1, GitHubService.getReadme, tryCatch, bind at 1,
    GitHubService.get.
  fold path.
  destruct (readmes gh path) as [[text | truthy c] | status msg |] eqn:Hreply.
  - unfold ret at 1. cbn [truthyBody].
    destruct (Js.truthy (Some text)) eqn:Htruthy.
    + unfold bind at 1, bind at 1, bind at 1, now at 1.
      erewrite assign_at by (wsimpl; apply nth_error_snoc).
      wsimpl. rewrite replaceNth_snoc.
      erewrite save_at by (wsimpl; apply nth_error_snoc).
      cbn [option_map].
      destruct (validate _) eqn:Hvalid.
      * unfold bind. erewrite read_at by (wsimpl; apply nth_error_snoc).
        eexists. eexists. split; [reflexivity |]. repeat split.
      * unfold bind. erewrite read_at by (wsimpl; apply nth_error_snoc).
        unfold Js.orElse.
        cbn [readme set_readmeFetchedAt set_readme assignReadme set_castErrors castReadme
             castOr].
        rewrite (cut_truthy _ Htruthy).
        eexists. eexists. split; [reflexivity |]. repeat split.
    + unfold bind, ret at 1. cbn beta iota. erewrite read_at by (wsimpl; apply nth_error_snoc).
      eexists. eexists. split; [reflexivity |]. repeat split.
  - unfold ret at 1. cbn [truthyBody].
    destruct truthy.
    + unfold bind, throw. cbn beta iota.
      erewrite read_at by (wsimpl; apply nth_error_snoc).
      eexists. eexists. split; [reflexivity |]. repeat split.
    + unfold bind, ret at 1. cbn beta iota. erewrite read_at by (wsimpl; apply nth_error_snoc).
      eexists. eexists. split; [reflexivity |]. repeat split.
  - unfold GitHubService.intercepted.
    destruct (status =? 404) eqn:H404.
    + unfold bind. cbn. erewrite read_at by (wsimpl; apply nth_error_snoc).
      eexists. eexists. split; [reflexivity |]. repeat split.
    + destruct (status =? 403); [| destruct (status =? 401)];
        unfold bind; cbn; erewrite read_at by (wsimpl; apply nth_error_snoc);
        eexists; eexists; (split; [reflexivity |]); repeat split.
  - unfold bind. cbn. erewrite read_at by (wsimpl; apply nth_error_snoc).
    eexists. eexists. split; [reflexivity |]. repeat split.
Qed.

Lemma validate_cut_readme (t : Z) (text : string) (d : RepoSnapshot) :
  validate d = true ->
  validate (set_readmeFetchedAt (Some t)
              (assignReadme (Some (GH.Text (Js.substring0 50000 text))) d))
  = true.
Proof.
  intro Hvalid. unfold validate in *.
  cbn [set_readmeFetchedAt assignReadme set_castErrors set_readme castReadme castOr casting
       ownerLogin name fullName htmlUrl description readme aiSummary aiComplexityLevel
       castErrors].
  repeat (apply andb_true_iff in Hvalid; destruct Hvalid as [Hvalid ?]).
  repeat (apply andb_true_iff; split); try assumption.
  - apply Z.leb_le. apply cut_within.
  - apply noErrors_markValid. assumption.
Qed.

(** X12. [loadReadme] on a stored snapshot never throws, keeps a consistent
    collection consistent, and on one never answers with more than 50000
    characters. A README fetched at most 7 days ago is answered from the
    collection, with no request; when a fetch is due and fails, the answer
    is the README the snapshot had, or none, and nothing is written. *)
Theorem loadReadme_degrades (gh : GitHub) (repoId : N) (w : World) (d : RepoSnapshot) :
  stored repoId (collection w) = Some d ->
  (exists r w',
     RepoService.loadReadme gh repoId w = (Return r, w')
     /\ (consistent w -> consistent w' /\ withinLength 50000 r = true))
  /\ (readmeIsCurrent (clock w) d = true ->
      RepoService.loadReadme gh repoId w
      = (Return (readme d), withMemory (memory w ++ [d]) w))
  /\ (forall e,
        readmeIsCurrent (clock w) d = false ->
        GitHubService.rejection (readmes gh (ownerLogin d ++ "/" ++ name d)) = Some e ->
        exists r w',
          RepoService.loadReadme gh repoId w = (Return r, w')
          /\ (r = readme d \/ r = None)
          /\ collection w' = collection w).
Proof.
  intro Hfind.
  assert (Hstored : forall (Hcons : consistent w), withinLength 50000 (readme d) = true).
  { intros [_ [_ [_ Hvalid]]]. rewrite Forall_forall in Hvalid.
    specialize (Hvalid d (proj1 (stored_In _ _ _ Hfind))).
    unfold validate in Hvalid.
    repeat (apply andb_true_iff in Hvalid; destruct Hvalid as [Hvalid ?]).
    assumption. }
  split; [| split].
  - destruct (readmeIsCurrent (clock w) d) eqn:Hcurrent.
    + rewrite (loadReadme_cached gh repoId w d Hfind Hcurrent).
      eexists. eexists. split; [reflexivity |]. intro Hcons.
      split; [revert Hcons; apply consistent_same; reflexivity | apply Hstored; exact Hcons].
    + destruct (loadReadme_refetch gh repoId w d Hfind Hcurrent)
        as [r [w' [Hrun [Hoid [_ [_ Hcases]]]]]].
      exists r, w'. split; [exact Hrun |]. intro Hcons.
      assert (Hkept : collection w' = collection w ->
                      consistent w').
      { intro Hcoll. apply (consistent_same w); [symmetry; exact Hcoll | symmetry; exact Hoid
                                                | exact Hcons]. }
      assert (Hor : withinLength 50000 (Js.orElse (readme d) None) = true).
      { unfold Js.orElse. destruct (Js.truthy (readme d)); [apply Hstored; exact Hcons |].
        reflexivity. }
      destruct (readmes gh (ownerLogin d ++ "/" ++ name d))
        as [[text | truthy c] | status msg |].
      * destruct (Js.truthy (Some text)).
        -- destruct Hcases as [-> Hcoll]. split; [| apply Z.leb_le; apply cut_within].
           destruct (validate _) eqn:Hvalid in Hcoll; [| apply Hkept; exact Hcoll].
           apply (consistent_same (withCollection (collection w') w));
             [reflexivity | symmetry; exact Hoid |].
           rewrite Hcoll.
           apply (consistent_replace w d); try reflexivity; try assumption.
           apply (stored_In _ _ _ Hfind).
        -- destruct Hcases as [-> Hcoll]. split; [apply Hkept; exact Hcoll |].
           apply Hstored; exact Hcons.
      * destruct Hcases as [-> Hcoll]. split; [apply Hkept; exact Hcoll |].
        destruct truthy; [exact Hor | apply Hstored; exact Hcons].
      * destruct Hcases as [-> Hcoll]. split; [apply Hkept; exact Hcoll |].
        destruct (status =? 404); [apply Hstored; exact Hcons | exact Hor].
      * destruct Hcases as [-> Hcoll]. split; [apply Hkept; exact Hcoll | exact Hor].
  - apply loadReadme_cached. exact Hfind.
  - intros e Hcurrent Hrej.
    destruct (loadReadme_refetch gh repoId w d Hfind Hcurrent)
      as [r [w' [Hrun [_ [_ [_ Hcases]]]]]].
    exists r, w'. split; [exact Hrun |].
    assert (Hor : Js.orElse (readme d) None = readme d \/ Js.orElse (readme d) None = None).
    { unfold Js.orElse. destruct (Js.truthy (readme d)); [left | right]; reflexivity. }
    destruct (readmes gh (ownerLogin d ++ "/" ++ name d)) as [text | status msg |];
      [discriminate Hrej | |].
    + destruct Hcases as [-> Hcoll]. split; [| exact Hcoll].
      destruct (status =? 404); [left; reflexivity | exact Hor].
    + destruct Hcases as [-> Hcoll]. split; [exact Hor | exact Hcoll].
Qed.

Lemma loadReadme_degrades_witness :
  exists r w',
    RepoService.loadReadme Sample.offline 1 (Sample.cachedAt 0) = (Return r, w')
    /\ (r = readme Sample.cached \/ r = None)
    /\ collection w' = [Sample.cached].
Proof.
  destruct (loadReadme_degrades Sample.offline 1 (Sample.cachedAt 0) Sample.cached eq_refl)
    as [_ [_ Hfail]].
  exact (Hfail (ApiError.internal "Failed to connect to GitHub API") eq_refl eq_refl).
Defined.

(** X13. A README fetched once is served from the collection for 7 days.
    For a stored snapshot that passes validation and whose README is due,
    when GitHub answers with a README that the client hands on as text (a
    body that is no JSON value other than a string) and that is not empty,
    [loadReadme] sends one request, stores the first 50000 characters and
    returns them; a second call at most 7 days later sends nothing, writes
    nothing and returns the same text. *)
Theorem loadReadme_then_cached (gh : GitHub) (repoId : N) (w : World)
  (d : RepoSnapshot) (text : string) (later : Z) :
  stored repoId (collection w) = Some d ->
  validate d = true ->
  readmeIsCurrent (clock w) d = false ->
  readmes gh (ownerLogin d ++ "/" ++ name d) = Success (GH.Text text) ->
  text <> EmptyString ->
  later - clock w <= 7 * 24 * 60 * 60 * 1000 ->
  let first := RepoService.loadReadme gh repoId w in
  let second := RepoService.loadReadme gh repoId (at_time later (snd first)) in
  let cut := Js.substring0 50000 text in
  fst first = Return (Some cut)
  /\ Js.len cut <= 50000
  /\ option_map readme (stored repoId (collection (snd first))) = Some (Some cut)
  /\ sent (snd first) = (sent w ++ [GetReadme (ownerLogin d ++ "/" ++ name d)])%list
  /\ fst second = Return (Some cut)
  /\ sent (snd second) = sent (snd first)
  /\ collection (snd second) = collection (snd first).
Proof.
  intros Hfind Hvalid Hdue Hreply Htext Hsoon first second cut.
  assert (Htruthy : Js.truthy (Some text) = true).
  { destruct text; [exfalso; apply Htext; reflexivity | reflexivity]. }
  destruct (loadReadme_refetch gh repoId w d Hfind Hdue)
    as [r [w' [Hrun [_ [Hclock [Hsent Hcases]]]]]].
  rewrite Hreply, Htruthy in Hcases. cbv zeta in Hcases.
  rewrite (validate_cut_readme _ _ _ Hvalid) in Hcases.
  destruct Hcases as [-> Hcoll]. fold cut in Hrun, Hcoll.
  set (d' := set_readmeFetchedAt (Some (clock w)) (assignReadme (Some (GH.Text cut)) d))
    in *.
  assert (Hfirst : first = (Return (Some cut), w')) by exact Hrun.
  assert (Hstored : stored repoId (collection (at_time later w')) = Some d').
  { wsimpl. rewrite Hcoll. unfold stored.
    apply (find_put_same _ d); [exact Hfind | reflexivity |].
    cbn. apply N.eqb_eq. apply (stored_In _ _ _ Hfind). }
  assert (Hcurrent : readmeIsCurrent (clock (at_time later w')) d' = true).
  { wsimpl. unfold readmeIsCurrent, d'. cbn [readme readmeFetchedAt set_readmeFetchedAt set_readme assignReadme set_castErrors
         castReadme castOr].
    unfold cut. rewrite (cut_truthy _ Htruthy). cbn [andb].
    apply negb_true_iff. apply Z.ltb_ge. exact Hsoon. }
  unfold second. rewrite Hfirst. cbn [fst snd].
  rewrite (loadReadme_cached gh repoId _ _ Hstored Hcurrent). cbn [fst snd]. wsimpl.
  wsimpl_in Hstored. rewrite Hstored.
  split; [reflexivity |]. split; [apply cut_within |]. split; [reflexivity |].
  split; [exact Hsent |]. split; [reflexivity |]. split; reflexivity.
Qed.

Lemma loadReadme_then_cached_witness :
  let gh := mkGitHub (fun _ => NoResponse) (fun _ => NoResponse)
              (fun _ => Success (GH.Text "# widget")) (fun _ => NoResponse)
              (fun _ _ _ _ _ => NoResponse) in
  let first := RepoService.loadReadme gh 1 (Sample.cachedAt 0) in
  let second := RepoService.loadReadme gh 1 (at_time Sample.hour (snd first)) in
  fst first = Return (Some "# widget")
  /\ fst second = Return (Some "# widget")
  /\ sent (snd second) = [GetReadme "acme/widget"].
Proof.
  intros gh first second.
  destruct (loadReadme_then_cached gh 1 (Sample.cachedAt 0) Sample.cached "# widget"
              Sample.hour eq_refl eq_refl eq_refl eq_refl)
    as [Hfirst [_ [_ [Hsent [Hsecond [Hsame _]]]]]].
  - discriminate.
  - vm_compute. discriminate.
  - fold first in Hfirst, Hsent. fold first second in Hsecond, Hsame.
    split; [exact Hfirst |]. split; [exact Hsecond |].
    rewrite Hsame, Hsent. reflexivity.
Defined.

(** ** [syncRepository]: README and languages *)

(** X14. [syncRepository] stores a README as GitHub sends it, and a README
    of more than 50000 characters fails the validation of the final save.
    On a consistent collection, when GitHub answers with acceptable fields
    (the validators accept them and the three dates cast), the snapshot of
    the repository (if there is one) lacks a README and GitHub has such a
    README, handed on as text, the call throws the validation error,
    although the repository itself was fetched; the snapshot is stored as
    synchronised at that time and still without a README, so the next
    synchronisation fails in the same way. *)
Theorem syncRepository_overlong_readme (gh : GitHub) (owner repo : string) (w : World)
  (r : GH.repo) (text : string) :
  consistent w ->
  repos gh (owner ++ "/" ++ repo) = Success r ->
  acceptable r = true ->
  (forall d, find (fun x => githubId x =? GH.id r) (collection w) = Some d ->
             lacksReadme d = true) ->
  readmes gh (owner ++ "/" ++ repo) = Success (GH.Text text) ->
  50000 < Js.len text ->
  exists w' d,
    GitHubService.syncRepository gh owner repo w = (Throw validationError, w')
    /\ consistent w'
    /\ find (fun x => githubId x =? GH.id r) (collection w') = Some d
    /\ lacksReadme d = true
    /\ lastSyncedAt d = Some (clock w)
    /\ syncError d = None.
Proof.
  intros Hcons Hreply Hok Hlacks Htext Hlong.
  destruct (syncRepository_runs gh owner repo w r Hcons Hreply)
    as [d0 [w' [Hfind [Hcons' [_ [Hrun Hrest]]]]]].
  cbv zeta in Hrun, Hrest.
  set (d1 := updateFromGitHub (clock w) r d0) in *.
  assert (Hvalid1 : validate d1 = true).
  { destruct Hfind as [Hfind | [_ ->]].
    - apply (validate_stored w); [exact Hcons | apply (find_member _ _ _ Hfind) | exact Hok].
    - unfold d1. rewrite validate_updateFromGitHub, Hok. reflexivity. }
  assert (Hlacks1 : lacksReadme d1 = true).
  { destruct Hfind as [Hfind | [_ ->]]; [exact (Hlacks d0 Hfind) | reflexivity]. }
  assert (Htruthy : Js.truthy (Some text) = true).
  { destruct text; [cbn in Hlong; lia | reflexivity]. }
  assert (Hvalid3 : validate (completed gh owner repo (clock w) d1) = false).
  { rewrite (validate_completed _ _ _ _ _ Hvalid1).
    unfold completes, readmeFits. rewrite Hlacks1, Htext.
    cbn [truthyBody castReadme withinLength negb orb]. rewrite Htruthy.
    rewrite (proj2 (Z.leb_gt _ _) Hlong). reflexivity. }
  rewrite Hvalid1, Hvalid3 in Hrun. rewrite Hvalid1, Hvalid3 in Hrest.
  destruct Hrest as [_ [_ [_ Hcoll]]].
  exists w', d1. split; [exact Hrun |]. split; [exact Hcons' |].
  split; [| split; [exact Hlacks1 | split; reflexivity]].
  rewrite Hcoll. apply (find_put_by_githubId _ d0); [exact Hfind | reflexivity | reflexivity].
Qed.

Lemma syncRepository_overlong_readme_witness :
  exists w' d,
    GitHubService.syncRepository verbose "acme" "widget" (Sample.emptyAt 0)
    = (Throw validationError, w')
    /\ find (fun x => githubId x =? 42) (collection w') = Some d
    /\ lacksReadme d = true.
Proof.
  destruct (syncRepository_overlong_readme verbose "acme" "widget" (Sample.emptyAt 0)
              Sample.widget longReadme (consistent_empty 0) eq_refl eq_refl)
    as [w' [d [Hrun [_ [Hfind [Hlacks _]]]]]].
  - intros d H. discriminate H.
  - reflexivity.
  - vm_compute. reflexivity.
  - exists w', d. split; [exact Hrun |]. split; [exact Hfind | exact Hlacks].
Defined.


(** X15. [syncRepository] never refreshes a README or a list of languages
    that the snapshot already has. On a consistent collection, for a stored
    snapshot with a README, the time it was fetched and at least one
    language, a synchronisation that GitHub answers with acceptable fields
    (the validators accept them and the three dates cast) sends the one
    request for the repository, and stores and returns the snapshot updated
    from that answer, with the README, its time and the languages as they
    were. *)
Theorem syncRepository_keeps_readme (gh : GitHub) (owner repo : string) (w : World)
  (r : GH.repo) (d0 : RepoSnapshot) :
  consistent w ->
  repos gh (owner ++ "/" ++ repo) = Success r ->
  acceptable r = true ->
  find (fun x => githubId x =? GH.id r) (collection w) = Some d0 ->
  lacksReadme d0 = false ->
  languages d0 <> [] ->
  let d1 := updateFromGitHub (clock w) r d0 in
  exists w',
    GitHubService.syncRepository gh owner repo w = (Return (List.length (memory w)), w')
    /\ observe (GitHubService.syncRepository gh owner repo w) = Return (Some d1)
    /\ stored (_id d0) (collection w') = Some d1
    /\ sent w' = (sent w ++ [GetRepo (owner ++ "/" ++ repo)])%list
    /\ readme d1 = readme d0
    /\ readmeFetchedAt d1 = readmeFetchedAt d0
    /\ languages d1 = languages d0.
Proof.
  intros Hcons Hreply Hok Hfind Hhas Hlangs d1.
  destruct (syncRepository_runs gh owner repo w r Hcons Hreply)
    as [d0' [w' [Hfind' [Hcons' [_ [Hrun Hrest]]]]]].
  cbv zeta in Hrun, Hrest.
  assert (d0' = d0) as ->.
  { destruct Hfind' as [Hfind' | [Hfind' _]]; rewrite Hfind in Hfind';
      [injection Hfind' as <-; reflexivity | discriminate Hfind']. }
  fold d1 in Hrun, Hrest.
  assert (Hd3 : completed gh owner repo (clock w) d1 = d1)
    by (apply completed_complete; [exact Hhas | exact Hlangs]).
  rewrite Hd3 in Hrun, Hrest.
  assert (Hvalid : validate d1 = true).
  { apply (validate_stored w); [exact Hcons | apply (find_member _ _ _ Hfind) | exact Hok]. }
  rewrite Hvalid in Hrun, Hrest. cbn [andb] in Hrun.
  destruct Hrest as [Hsent [Hmem [Hin _]]].
  exists w'. rewrite Hrun. cbn [observe]. rewrite Hmem, nth_error_snoc.
  split; [reflexivity |]. split; [reflexivity |].
  split; [| split; [| repeat split]].
  - change (_id d0) with (_id d1). apply stored_of_In; [apply Hcons' | exact Hin].
  - rewrite Hsent. unfold completing.
    change (lacksReadme d1) with (lacksReadme d0). rewrite Hhas.
    change (languages d1) with (languages d0).
    destruct (languages d0); [exfalso; apply Hlangs; reflexivity | reflexivity].
Qed.

Lemma syncRepository_keeps_readme_witness :
  exists w',
    GitHubService.syncRepository verbose "acme" "widget" (mkWorld [complete] 2 [] 5 [])
    = (Return 0%nat, w')
    /\ option_map readme (stored 1 (collection w')) = Some (Some "# widget")
    /\ sent w' = [GetRepo "acme/widget"].
Proof.
  assert (Hcons : consistent (mkWorld [complete] 2 [] 5 [])).
  { unfold consistent. cbn.
    split; [repeat constructor; intros [] |].
    split; [repeat constructor |].
    split; [repeat constructor; intros [] |].
    repeat constructor. }
  destruct (syncRepository_keeps_readme verbose "acme" "widget" (mkWorld [complete] 2 [] 5 [])
              Sample.widget complete Hcons eq_refl eq_refl eq_refl eq_refl)
    as [w' [Hrun [_ [Hstored [Hsent _]]]]].
  - discriminate.
  - exists w'. split; [exact Hrun |]. split; [| exact Hsent].
    change (_id complete) with 1%N in Hstored. rewrite Hstored. reflexivity.
Defined.

(** ** Consistency of the collection under [GitHubService] *)

Lemma syncRepository_consistent (gh : GitHub) (owner repo : string) (w : World) :
  consistent w -> consistent (snd (GitHubService.syncRepository gh owner repo w)).
Proof.
  intro Hcons.
  destruct (repos gh (owner ++ "/" ++ repo)) as [r | status msg |] eqn:Hreply.
  - destruct (syncRepository_runs gh owner repo w r Hcons Hreply)
      as [d0 [w' [_ [Hcons' [_ [Hrun _]]]]]].
    cbv zeta in Hrun. rewrite Hrun. exact Hcons'.
  - destruct (syncRepository_rejected gh owner repo w (GitHubService.intercepted status msg))
      as [e' [Hrun _]]; [rewrite Hreply; reflexivity |].
    rewrite Hrun. revert Hcons. apply consistent_same; reflexivity.
  - destruct (syncRepository_rejected gh owner repo w
                (ApiError.internal "Failed to connect to GitHub API"))
      as [e' [Hrun _]]; [rewrite Hreply; reflexivity |].
    rewrite Hrun. revert Hcons. apply consistent_same; reflexivity.
Qed.

Lemma getRepositoryById_world (gh : GitHub) (repoId : string) (w : World) :
  exists outcome w' w0,
    GitHubService.getRepositoryById gh repoId w = (outcome, w')
    /\ collection w0 = collection w /\ nextOid w0 = nextOid w
    /\ (w' = w0
        \/ exists owner repo, w' = snd (GitHubService.syncRepository gh owner repo w0)).
Proof.
  unfold GitHubService.getRepositoryById.
  destruct (Js.parseInt repoId) as [gid |];
    [| eexists; exists w, w; repeat split; left; reflexivity].
  unfold findOneByGithubId, bind at 1.
  destruct (find (fun x => githubId x =? gid) (collection w)) as [d |] eqn:Hfind.
  - rewrite (findFirst_found _ _ _ Hfind).
    unfold bind at 1, bind at 1. rewrite (read_at _ _ d) by apply nth_error_snoc.
    unfold bind at 1, now at 1. wsimpl. unfold ret at 1.
    destruct (GitHubService.fresh (clock w) d).
    + eexists. eexists. eexists. split; [reflexivity |].
      split; [| split; [| left; reflexivity]]; reflexivity.
    + unfold tryCatch, bind at 1, GitHubService.get.
      destruct (repositories gh gid) as [r | status msg |].
      * destruct (GitHubService.ownerAndRepo (GH.full_name r)) as [owner repo].
        destruct (GitHubService.syncRepository gh owner repo
                    (withSent (sent (withMemory (memory w ++ [d]) w) ++ [GetRepoById gid])
                       (withMemory (memory w ++ [d]) w)))
          as [[ref | e] w1] eqn:Hsync.
        -- eexists. exists w1. eexists. split; [reflexivity |].
           split; [| split; [| right; exists owner, repo; rewrite Hsync; reflexivity]];
             reflexivity.
        -- eexists. exists w1. eexists. split; [reflexivity |].
           split; [| split; [| right; exists owner, repo; rewrite Hsync; reflexivity]];
             reflexivity.
      * eexists. eexists. eexists. split; [reflexivity |].
        split; [| split; [| left; reflexivity]]; reflexivity.
      * eexists. eexists. eexists. split; [reflexivity |].
        split; [| split; [| left; reflexivity]]; reflexivity.
  - rewrite (findFirst_missing _ _ Hfind).
    unfold bind at 1, ret at 1, tryCatch, bind at 1, GitHubService.get.
    destruct (repositories gh gid) as [r | status msg |].
    + destruct (GitHubService.ownerAndRepo (GH.full_name r)) as [owner repo].
      destruct (GitHubService.syncRepository gh owner repo
                  (withSent (sent w ++ [GetRepoById gid]) w))
        as [[ref | e] w1] eqn:Hsync.
      * eexists. exists w1. eexists. split; [reflexivity |].
        split; [| split; [| right; exists owner, repo; rewrite Hsync; reflexivity]];
          reflexivity.
      * eexists. exists w1. eexists. split; [reflexivity |].
        split; [| split; [| right; exists owner, repo; rewrite Hsync; reflexivity]];
          reflexivity.
    + eexists. eexists. eexists. split; [reflexivity |].
      split; [| split; [| left; reflexivity]]; reflexivity.
    + eexists. eexists. eexists. split; [reflexivity |].
      split; [| split; [| left; reflexivity]]; reflexivity.
Qed.

(** X16. One call at a time, the unique index is never at stake:
    [syncRepository] and [getRepositoryById] take a consistent collection
    (distinct [_id]s, one snapshot per [githubId], every snapshot valid) to
    a consistent collection, whatever GitHub answers and whether they
    return or throw. *)
Theorem GitHubService_keeps_consistent (gh : GitHub) (w : World) :
  consistent w ->
  (forall owner repo, consistent (snd (GitHubService.syncRepository gh owner repo w)))
  /\ (forall repoId, consistent (snd (GitHubService.getRepositoryById gh repoId w))).
Proof.
  intro Hcons. split.
  - intros owner repo. apply syncRepository_consistent. exact Hcons.
  - intro repoId.
    destruct (getRepositoryById_world gh repoId w)
      as [outcome [w' [w0 [-> [Hcoll [Hoid [-> | [owner [repo ->]]]]]]]]]; cbn [snd].
    + apply (consistent_same w); [symmetry; exact Hcoll | symmetry; exact Hoid | exact Hcons].
    + apply syncRepository_consistent.
      apply (consistent_same w); [symmetry; exact Hcoll | symmetry; exact Hoid | exact Hcons].
Qed.

(** A synchronisation of the cached [acme/widget], and a lookup of an
    identifier that GitHub does not know. *)
Lemma GitHubService_keeps_consistent_witness :
  consistent
    (snd (GitHubService.syncRepository (Sample.serving (Success Sample.goAndJs))
            "acme" "widget" (Sample.cachedAt 0)))
  /\ consistent
       (snd (GitHubService.getRepositoryById (Sample.serving NoResponse) "77"
               (Sample.cachedAt 0))).
Proof.
  destruct (GitHubService_keeps_consistent (Sample.serving (Success Sample.goAndJs))
              (Sample.cachedAt 0) (consistent_cached 0)) as [Hsync _].
  destruct (GitHubService_keeps_consistent (Sample.serving NoResponse)
              (Sample.cachedAt 0) (consistent_cached 0)) as [_ Hlookup].
  split; [apply Hsync | apply Hlookup].
Defined.

(** ** [getRepositoryById] on a stored snapshot *)

(** [syncRepository] only adds document objects to the memory. *)
Lemma syncRepository_memory (gh : GitHub) (owner repo : string) (w : World) :
  consistent w ->
  exists outcome w' extra,
    GitHubService.syncRepository gh owner repo w = (outcome, w')
    /\ memory w' = (memory w ++ extra)%list
    /\ match outcome with
       | Return ref => ref = List.length (memory w) /\ exists d, extra = [d]
       | Throw _ => True
       end.
Proof.
  intro Hcons.
  destruct (repos gh (owner ++ "/" ++ repo)) as [r | status msg |] eqn:Hreply.
  - destruct (syncRepository_runs gh owner repo w r Hcons Hreply)
      as [d0 [w' [_ [_ [_ [Hrun Hrest]]]]]].
    cbv zeta in Hrun, Hrest. rewrite Hrun.
    destruct (validate (updateFromGitHub (clock w) r d0)).
    + destruct Hrest as [_ [Hmem _]]. cbn [andb].
      eexists. exists w'. eexists. split; [reflexivity |]. split; [exact Hmem |].
      destruct (validate _); [split; [reflexivity | eexists; reflexivity] | exact I].
    + destruct Hrest as [_ [_ Hmem]]. cbn [andb].
      eexists. exists w'. eexists. split; [reflexivity |]. split; [exact Hmem | exact I].
  - destruct (syncRepository_rejected gh owner repo w (GitHubService.intercepted status msg))
      as [e' [Hrun _]]; [rewrite Hreply; reflexivity |].
    rewrite Hrun. eexists. eexists. exists []. split; [reflexivity |].
    split; [wsimpl; rewrite app_nil_r; reflexivity | exact I].
  - destruct (syncRepository_rejected gh owner repo w
                (ApiError.internal "Failed to connect to GitHub API"))
      as [e' [Hrun _]]; [rewrite Hreply; reflexivity |].
    rewrite Hrun. eexists. eexists. exists []. split; [reflexivity |].
    split; [wsimpl; rewrite app_nil_r; reflexivity | exact I].
Qed.

(** X17. [getRepositoryById] with an identifier that does not parse throws
    a bad-request error and touches nothing. With the identifier of a
    stored snapshot, on a consistent collection, it never throws, whatever
    GitHub answers and whatever the synchronisation does: it returns a
    snapshot; and when the stored one was synchronised less than an hour
    ago, it returns that one, sends nothing and writes nothing. *)
Theorem getRepositoryById_outcomes (gh : GitHub) (w : World) :
  consistent w ->
  (forall repoId,
     Js.parseInt repoId = None ->
     GitHubService.getRepositoryById gh repoId w
     = (Throw (ApiError.badRequest "Invalid repository ID"), w))
  /\ (forall repoId gid d,
        Js.parseInt repoId = Some gid ->
        find (fun x => githubId x =? gid) (collection w) = Some d ->
        exists ref d' w',
          GitHubService.getRepositoryById gh repoId w = (Return ref, w')
          /\ nth_error (memory w') ref = Some d'
          /\ (GitHubService.fresh (clock w) d = true ->
              d' = d /\ sent w' = sent w /\ collection w' = collection w)).
Proof.
  intro Hcons. split.
  - intros repoId Hparse. unfold GitHubService.getRepositoryById. rewrite Hparse.
    reflexivity.
  - intros repoId gid d Hparse Hfind.
    unfold GitHubService.getRepositoryById. rewrite Hparse.
    unfold findOneByGithubId, bind at 1.
    rewrite (findFirst_found _ _ _ Hfind).
    unfold bind at 1, bind at 1. rewrite (read_at _ _ d) by apply nth_error_snoc.
    unfold bind at 1, now at 1. wsimpl. unfold ret at 1.
    destruct (GitHubService.fresh (clock w) d) eqn:Hfresh.
    + eexists. exists d. eexists. split; [reflexivity |]. wsimpl.
      split; [apply nth_error_snoc |]. intros _. repeat split.
    + unfold tryCatch, bind at 1, GitHubService.get.
      assert (Hkept : forall extra,
                 nth_error ((memory w ++ [d]) ++ extra) (List.length (memory w)) = Some d).
      { intro extra. rewrite <- app_assoc. rewrite nth_error_app2 by lia.
        rewrite Nat.sub_diag. reflexivity. }
      destruct (repositories gh gid) as [r | status msg |].
      * destruct (GitHubService.ownerAndRepo (GH.full_name r)) as [owner repo].
        match goal with
        | |- context [GitHubService.syncRepository gh owner repo ?w0] =>
            destruct (syncRepository_memory gh owner repo w0) as
              [outcome [w' [extra [Hrun [Hmem Hout]]]]];
            [revert Hcons; apply consistent_same; reflexivity |];
            rewrite Hrun
        end.
        wsimpl_in Hmem. wsimpl_in Hout.
        destruct outcome as [ref | e].
        -- destruct Hout as [-> [d' ->]].
           eexists. exists d'. eexists. split; [reflexivity |].
           split; [rewrite Hmem; apply nth_error_snoc | intro H; discriminate H].
        -- eexists. exists d. eexists. split; [reflexivity |].
           split; [rewrite Hmem; apply Hkept | intro H; discriminate H].
      * eexists. exists d. eexists. split; [reflexivity |]. wsimpl.
        split; [apply nth_error_snoc | intro H; discriminate H].
      * eexists. exists d. eexists. split; [reflexivity |]. wsimpl.
        split; [apply nth_error_snoc | intro H; discriminate H].
Qed.

Lemma getRepositoryById_outcomes_witness :
  exists ref d' w',
    GitHubService.getRepositoryById verbose "42" (Sample.cachedAt (2 * Sample.hour))
    = (Return ref, w')
    /\ nth_error (memory w') ref = Some d'.
Proof.
  destruct (proj2 (getRepositoryById_outcomes verbose (Sample.cachedAt (2 * Sample.hour))
                     (consistent_cached (2 * Sample.hour)))
              "42" 42 Sample.cached eq_refl eq_refl)
    as [ref [d' [w' [Hrun [Hmem _]]]]].
  exists ref, d', w'. split; [exact Hrun | exact Hmem].
Defined.

(** ** Consistency of the collection under [RepoService] *)

Lemma syncRepo_consistent (gh : GitHub) (repo : Ref) (w : World) (d : RepoSnapshot) :
  nth_error (memory w) repo = Some d -> In d (collection w) ->
  consistent w -> consistent (snd (RepoService.syncRepo gh repo w)).
Proof.
  intros Hmem Hin Hcons.
  assert (Hput : forall d' w0,
             collection w0 = collection w -> nextOid w0 = nextOid w ->
             _id d' = _id d -> githubId d' = githubId d -> validate d' = true ->
             consistent (withCollection (put d' (collection w)) w0)).
  { intros d' w0 Hcoll Hoid Hid Hgid Hvalid.
    apply (consistent_same (withCollection (put d' (collection w)) w));
      [reflexivity | symmetry; exact Hoid |].
    apply (consistent_replace w d); assumption. }
  destruct (repos gh (fullName d)) as [data | status msg |] eqn:Hreply.
  - rewrite (syncRepo_fetched gh repo w d data Hmem Hreply).
    destruct (validate (updateFromGitHub (clock w) data d)) eqn:Hvalid; cbn [snd].
    + apply Hput; try reflexivity. exact Hvalid.
    + revert Hcons. apply consistent_same; reflexivity.
  - erewrite (syncRepo_rejected gh repo w d) by (try exact Hmem; rewrite Hreply; reflexivity).
    cbn [snd]. destruct (validate d) eqn:Hvalid.
    + apply Hput; try reflexivity. rewrite validate_set_syncError. exact Hvalid.
    + revert Hcons. apply consistent_same; reflexivity.
  - erewrite (syncRepo_rejected gh repo w d) by (try exact Hmem; rewrite Hreply; reflexivity).
    cbn [snd]. destruct (validate d) eqn:Hvalid.
    + apply Hput; try reflexivity. rewrite validate_set_syncError. exact Hvalid.
    + revert Hcons. apply consistent_same; reflexivity.
Qed.

Lemma getRepoByGitHubId_cached (gh : GitHub) (gid : Z) (w : World) (d : RepoSnapshot) :
  find (fun x => githubId x =? gid) (collection w) = Some d ->
  needsSync (clock w) d = false ->
  RepoService.getRepoByGitHubId gh gid w
  = (Return (List.length (memory w)), withMemory (memory w ++ [d]) w).
Proof.
  intros Hfind Hfresh.
  unfold RepoService.getRepoByGitHubId, findOneByGithubId, bind at 1.
  rewrite (findFirst_found _ _ _ Hfind).
  unfold bind at 1, bind at 1. rewrite (read_at _ _ d) by apply nth_error_snoc.
  unfold bind at 1, now at 1. wsimpl. rewrite Hfresh. reflexivity.
Qed.

Lemma getOrCreateFromGitHub_cached (gh : GitHub) (name : string) (w : World)
  (d : RepoSnapshot) :
  find (fun x => String.eqb (fullName x) (Js.trim name)) (collection w) = Some d ->
  needsSync (clock w) d = false ->
  RepoService.getOrCreateFromGitHub gh name w
  = (Return (List.length (memory w)), withMemory (memory w ++ [d]) w).
Proof.
  intros Hfind Hfresh.
  unfold RepoService.getOrCreateFromGitHub, findOneByFullName, bind at 1.
  rewrite (findFirst_found _ _ _ Hfind).
  unfold bind at 1, bind at 1. rewrite (read_at _ _ d) by apply nth_error_snoc.
  unfold bind at 1, now at 1. wsimpl. rewrite Hfresh. reflexivity.
Qed.

(** X18. [getRepoByGitHubId] and [getOrCreateFromGitHub] take a consistent
    collection to a consistent collection, whatever GitHub answers and
    whether they return or throw; the two searches write nothing:
    [searchRepos] leaves the collection as it is, [searchLocalRepos] the
    whole store. *)
Theorem RepoService_keeps_consistent (gh : GitHub)
  (textScore : string -> string -> option string -> Z) (w : World) :
  consistent w ->
  (forall gid, consistent (snd (RepoService.getRepoByGitHubId gh gid w)))
  /\ (forall name, consistent (snd (RepoService.getOrCreateFromGitHub gh name w)))
  /\ (forall query language sort page limit,
        collection (snd (RepoService.searchRepos gh query language sort page limit w))
        = collection w)
  /\ (forall query language page limit,
        snd (RepoService.searchLocalRepos textScore query language page limit w) = w).
Proof.
  intro Hcons. split; [| split; [| split]].
  - intro gid.
    destruct (find (fun x => githubId x =? gid) (collection w)) as [d |] eqn:Hfind.
    + destruct (needsSync (clock w) d) eqn:Hdue.
      * unfold RepoService.getRepoByGitHubId, findOneByGithubId, bind at 1.
        rewrite (findFirst_found _ _ _ Hfind).
        unfold bind at 1, bind at 1. rewrite (read_at _ _ d) by apply nth_error_snoc.
        unfold bind at 1, now at 1. wsimpl. rewrite Hdue. unfold ret at 1.
        unfold bind at 1.
        match goal with
        | |- context [RepoService.syncRepo gh ?ref ?w0] =>
            pose proof (syncRepo_consistent gh ref w0 d) as Hsync;
            destruct (RepoService.syncRepo gh ref w0) as [[done | e] w1]
        end; cbn [snd] in Hsync |- *; apply Hsync;
          try apply nth_error_snoc; try apply (find_member _ _ _ Hfind);
          revert Hcons; apply consistent_same; reflexivity.
      * rewrite (getRepoByGitHubId_cached gh gid w d Hfind Hdue).
        revert Hcons. apply consistent_same; reflexivity.
    + rewrite (getRepoByGitHubId_missing gh gid w Hfind). exact Hcons.
  - intro name.
    assert (Hfetch :
              (find (fun x => String.eqb (fullName x) (Js.trim name)) (collection w) = None
               \/ exists d, find (fun x => String.eqb (fullName x) (Js.trim name))
                              (collection w) = Some d
                            /\ needsSync (clock w) d = true) ->
              consistent (snd (RepoService.getOrCreateFromGitHub gh name w))).
    { intro Hmiss.
      destruct (getOrCreateFromGitHub_fetches gh name w Hmiss)
        as [w1 [Hcoll [Hoid [_ [_ [_ Hrun]]]]]].
      rewrite Hrun.
      assert (Hcons1 : consistent w1)
        by (apply (consistent_same w); [symmetry; exact Hcoll | symmetry; exact Hoid
                                       | exact Hcons]).
      destruct (repos gh name) as [data | status msg |]; try exact Hcons1.
      destruct (upsert_runs (GH.id data) data w1 Hcons1)
        as [d0 [w2 [_ [Hup [_ [_ [_ [Hcons2 _]]]]]]]].
      cbv zeta in Hup. rewrite Hup. exact Hcons2. }
    destruct (find (fun x => String.eqb (fullName x) (Js.trim name)) (collection w))
      as [d |] eqn:Hfind.
    + destruct (needsSync (clock w) d) eqn:Hdue.
      * apply Hfetch. right. exists d. split; [reflexivity | exact Hdue].
      * rewrite (getOrCreateFromGitHub_cached gh name w d Hfind Hdue).
        revert Hcons. apply consistent_same; reflexivity.
    + apply Hfetch. left. reflexivity.
  - intros query language sort page limit.
    unfold RepoService.searchRepos.
    destruct query as [q |]; [| reflexivity].
    destruct (negb (Js.truthy (Some q)) || (Js.len (Js.trim q) <? 2))%bool; [reflexivity |].
    unfold bind at 1, GitHubService.searchRepositories, bind at 1, GitHubService.get.
    destruct (searches gh _ _ _ _ _); reflexivity.
  - intros query language page limit.
    unfold RepoService.searchLocalRepos.
    destruct (cursorSkip _ _); reflexivity.
Qed.

Lemma RepoService_keeps_consistent_witness :
  consistent
    (snd (RepoService.getOrCreateFromGitHub (Sample.serving NoResponse) "acme/sprocket"
            (Sample.cachedAt 0))).
Proof.
  exact (proj1 (proj2 (RepoService_keeps_consistent (Sample.serving NoResponse)
                         Sample.anything (Sample.cachedAt 0) (consistent_cached 0)))
           "acme/sprocket").
Defined.

(** ** The callers: [controllers/RepoController.js] and [routes/github.routes.js] *)

(** X19. Paging of [GET /api/repos/local/search]. Whatever the query string
    holds, the page and the limit handed to the service are never zero: a
    missing, unreadable or zero value is replaced by 1 and by 20. The
    handler writes nothing. When the number of snapshots to skip,
    [(page - 1) * limit], is negative, the database refuses the query and
    the handler throws that error; otherwise it returns, with at most
    [|limit|] snapshots and with the page and limit it used. *)
Theorem searchLocalRepos_paging (textScore : string -> string -> option string -> Z)
  (q language page limit : option string) (w : World) :
  let p := parsedOr page 1 in
  let l := parsedOr limit 20 in
  let outcome := RepoController.searchLocalRepos textScore q language page limit w in
  p <> 0 /\ l <> 0
  /\ snd outcome = w
  /\ ((p - 1) * l < 0 -> fst outcome = Throw cursorError)
  /\ (0 <= (p - 1) * l ->
      exists result,
        fst outcome = Return result
        /\ Z.of_nat (List.length (RepoService.ls_repos result)) <= Z.abs l
        /\ RepoService.p_page (RepoService.ls_pagination result) = p
        /\ RepoService.p_limit (RepoService.ls_pagination result) = l).
Proof.
  intros p l outcome.
  assert (Hnonzero : forall s fallback, fallback <> 0 -> parsedOr s fallback <> 0).
  { intros s fallback Hf. unfold parsedOr.
    destruct (Js.parseInt (Js.interpolate s)) as [[| n | n] |]; try exact Hf; discriminate. }
  assert (Hp : p <> 0) by (apply Hnonzero; discriminate).
  assert (Hl : l <> 0) by (apply Hnonzero; discriminate).
  split; [exact Hp |]. split; [exact Hl |].
  unfold outcome, RepoController.searchLocalRepos, RepoService.searchLocalRepos.
  fold p l. unfold cursorSkip.
  destruct (Z.ltb_spec ((p - 1) * l) 0) as [Hneg | Hpos]; cbn [fst snd].
  - split; [reflexivity |]. split; [reflexivity | intro H; lia].
  - split; [reflexivity |]. split; [intro H; lia |]. intros _.
    eexists. split; [reflexivity |]. cbn [RepoService.ls_repos RepoService.ls_pagination
                                          RepoService.p_page RepoService.p_limit].
    split; [| split; reflexivity].
    unfold cursorLimit. destruct (Z.eqb_spec l 0) as [H0 | _]; [contradiction |].
    match goal with
    | |- Z.of_nat (List.length (firstn ?n ?xs)) <= _ =>
        pose proof (firstn_le_length n xs) as Hle
    end.
    lia.
Qed.

(** X20. The two routes of [github.routes.js] on the snapshot cache.
    [GET /api/github/repos/:owner/:repo] is the same computation as
    [RepoService.getOrCreateFromGitHub] on [owner/repo]. The sync route
    upserts the repository and asks for nothing else: on a consistent
    collection, when GitHub answers with acceptable fields, it returns the
    stored snapshot after that one request, whatever README the repository
    has, and the collection stays consistent. *)
Theorem routes_on_the_cache (gh : GitHub) (owner repo : string) :
  Routes.getRepoByFullName gh owner repo
  = RepoService.getOrCreateFromGitHub gh (owner ++ "/" ++ repo)
  /\ (forall w r,
        consistent w ->
        repos gh (owner ++ "/" ++ repo) = Success r ->
        acceptable r = true ->
        exists d w',
          Routes.syncRepo gh owner repo w = (Return (List.length (memory w)), w')
          /\ nth_error (memory w') (List.length (memory w)) = Some d
          /\ stored (_id d) (collection w') = Some d
          /\ githubId d = GH.id r
          /\ lastSyncedAt d = Some (clock w)
          /\ sent w' = (sent w ++ [GetRepo (owner ++ "/" ++ repo)])%list
          /\ consistent w').
Proof.
  split; [reflexivity |].
  intros w r Hcons Hreply Hok.
  unfold Routes.syncRepo, bind at 1, GitHubService.getRepository.
  rewrite Hreply, get_success.
  assert (Hcons0 : consistent (withSent (sent w ++ [GetRepo (owner ++ "/" ++ repo)]) w))
    by (revert Hcons; apply consistent_same; reflexivity).
  destruct (upsert_runs (GH.id r) r _ Hcons0)
    as [d0 [w1 [Hfind [Hup [Hmem1 [_ [Hsent1 [Hcons1 Hcoll1]]]]]]]].
  cbv zeta in Hup, Hmem1, Hcoll1. wsimpl_in Hfind. wsimpl_in Hup. wsimpl_in Hmem1.
  wsimpl_in Hsent1. wsimpl_in Hcoll1.
  set (d1 := updateFromGitHub (clock w) r d0) in *.
  assert (Hvalid1 : validate d1 = true).
  { destruct Hfind as [Hfind | [_ ->]].
    - apply (validate_stored w); [exact Hcons | apply (find_member _ _ _ Hfind) | exact Hok].
    - unfold d1. rewrite validate_updateFromGitHub, Hok. reflexivity. }
  rewrite Hvalid1 in Hup, Hcoll1. rewrite Hup.
  exists d1, w1. split; [reflexivity |].
  split; [rewrite Hmem1; apply nth_error_snoc |].
  split; [apply stored_of_In; [apply Hcons1 | apply Hcoll1] |].
  split; [| split; [reflexivity | split; [exact Hsent1 | exact Hcons1]]].
  destruct Hfind as [Hfind | [_ ->]]; [| reflexivity].
  change (githubId d1) with (githubId d0).
  apply Z.eqb_eq. apply (find_member _ _ _ Hfind).
Qed.

Lemma searchLocalRepos_paging_witness :
  fst (RepoController.searchLocalRepos Sample.anything None None (Some "-1") (Some "5")
         (Sample.cachedAt 0))
  = Throw cursorError
  /\ exists result,
       fst (RepoController.searchLocalRepos Sample.anything None None (Some "0") None
              (Sample.cachedAt 0))
       = Return result
       /\ RepoService.p_page (RepoService.ls_pagination result) = 1
       /\ RepoService.p_limit (RepoService.ls_pagination result) = 20.
Proof.
  split.
  - apply (searchLocalRepos_paging Sample.anything None None (Some "-1") (Some "5")
             (Sample.cachedAt 0)).
    vm_compute. reflexivity.
  - destruct (proj2 (proj2 (proj2 (proj2
                (searchLocalRepos_paging Sample.anything None None (Some "0") None
                   (Sample.cachedAt 0))))))
      as [result [Hrun [_ [Hpage Hlimit]]]].
    + vm_compute. discriminate.
    + exists result. split; [exact Hrun |]. split; [exact Hpage | exact Hlimit].
Defined.

Lemma routes_on_the_cache_witness :
  exists d w',
    Routes.syncRepo verbose "acme" "widget" (Sample.emptyAt 0) = (Return 0%nat, w')
    /\ stored (_id d) (collection w') = Some d
    /\ githubId d = 42
    /\ sent w' = [GetRepo "acme/widget"].
Proof.
  destruct (proj2 (routes_on_the_cache verbose "acme" "widget") (Sample.emptyAt 0)
              Sample.widget (consistent_empty 0) eq_refl eq_refl)
    as [d [w' [Hrun [_ [Hstored [Hgid [_ [Hsent _]]]]]]]].
  exists d, w'. split; [exact Hrun |]. split; [exact Hstored |].
  split; [exact Hgid | exact Hsent].
Defined.
